(** * Eiten portfolio manager: a shallow embedding of [portfolio_manager.py]

    The development follows the Python module top-down: the argument
    checker ([ArgChecker.check_arguments]), the return estimator
    ([Eiten.calculate_percentage_change], [Eiten.create_returns]), the data
    loader glue ([Eiten.load_data]) and the orchestration
    ([Eiten.run_strategies]).

    Conventions.
    - A Python [float] is an IEEE 754 binary64 value, Rocq's primitive
      [float]: it has [nan], two infinities and two zeros, and its
      arithmetic rounds, overflows and underflows as Python's does.  The
      closing prices, the returns and the covariances are such floats.
    - Two library functions are not fixed by IEEE 754: the C library's
      logarithm behind [math.log] and numpy's summation behind [np.mean].
      They are left open ([Platform]); every statement holds for any of
      them.  The examples at the end are run with a reference platform.
    - numpy is taken to be version 1.24 or later: [np.array] refuses rows
      of different lengths.
    - The portfolio weights are handed from the strategies to the reports
      and the evaluation calls as they are; they are read as real numbers.
    - A Python [int] is a [Z]; list positions are [nat].
    - A raised exception is the [Raise] branch of [result]; a statement
      sequence is a bind in that monad.
    - Calls into the collaborators that live outside this module
      ([DataEngine], [StrategyManager], [BackTester], [MontoCarloSimulator],
      [np.cov], [matplotlib]) are the [Call] nodes of a program tree
      ([prog]); an environment answers them and the calls made are logged. *)

From Stdlib Require Import Reals Lra Lia ZArith List String Ascii Permutation.
From Stdlib Require Import DecimalString Floats.
From stdpp Require Import base option list gmap strings sorting.

Set Warnings "-inexact-float".

Local Open Scope string_scope.
Local Open Scope list_scope.

(** ** Python exceptions and the error monad *)

(** The exception classes that occur; [ExternalError] stands for any other
    class a collaborator may raise. *)
Inductive pyexn : Type :=
| ZeroDivisionError
| ValueError
| IndexError
| KeyError (key : string)
| AttributeError (attr : string)
| AssertionError (msg : string)
| ExternalError (name : string).

Inductive result (A : Type) : Type :=
| Ok (a : A)
| Raise (e : pyexn).

Arguments Ok {A} a.
Arguments Raise {A} e.

#[global] Instance result_ret : MRet result := fun A a => Ok a.

#[global] Instance result_bind : MBind result := fun A B k m =>
  match m with
  | Ok a => k a
  | Raise e => Raise e
  end.

(** [[f(x) for x in xs]] where [f] may raise: elements are evaluated left to
    right and the first exception aborts the comprehension. *)
Fixpoint comprehension {A B : Type} (f : A -> result B) (xs : list A)
  : result (list B) :=
  match xs with
  | [] => Ok []
  | x :: xs' =>
      y ← f x;
      ys ← comprehension f xs';
      Ok (y :: ys)
  end.

(** [range(lo, hi)] for [0 <= lo]. *)
Definition py_range (lo hi : nat) : list nat := seq lo (hi - lo).

(** [xs[i]] for a non-negative index. *)
Definition getitem {A : Type} (xs : list A) (i : nat) : result A :=
  match xs !! i with
  | Some x => Ok x
  | None => Raise IndexError
  end.

(** ** Floating-point values *)

(** What the numeric libraries compute beyond IEEE 754 arithmetic: the C
    library's [log], which [math.log] calls on a positive finite argument,
    and numpy's [np.add.reduce], which adds the elements of an array in an
    order of its own. *)
Class Platform : Type :=
  { libm_log : float -> float;
    np_add_reduce : list float -> float }.

(** The conversion of an int to a float. *)
Definition float_of_int (n : Z) : float :=
  if (n <? 0)%Z
  then (- PrimFloat.of_uint63 (Uint63.of_Z (- n)))%float
  else PrimFloat.of_uint63 (Uint63.of_Z n).

(** [a / b] on Python floats: a zero divisor, of either sign, is refused;
    anything else is IEEE division, [nan] and the infinities included. *)
Definition truediv (a b : float) : result float :=
  if (b =? 0)%float then Raise ZeroDivisionError else Ok (a / b)%float.

(** [a / n] for a float [a] and an int [n]: the int is converted and the
    floats are divided; the converted divisor is zero for the int zero
    only. *)
Definition truediv_int (a : float) (n : Z) : result float :=
  if (n =? 0)%Z then Raise ZeroDivisionError else Ok (a / float_of_int n)%float.

(** ** A reference platform *)

(** A software logarithm for the examples: [x = m * 2^e] with [m] between
    [sqrt(1/2)] and [sqrt(2)], [ln m] by the series of [2 * atanh z] at
    [z = (m - 1) / (m + 1)].  It is within a few units in the last place of
    a C library's logarithm, not that function. *)
Fixpoint atanh_series (terms : nat) (k power z2 : float) : float :=
  match terms with
  | O => 0%float
  | S terms' => (power / k + atanh_series terms' (k + 2) (power * z2) z2)%float
  end.

Definition reference_log (x : float) : float :=
  let '(m, e) := PrimFloat.frshiftexp x in
  let e := (Uint63.to_Z e - FloatOps.shift)%Z in
  let '(m, e) :=
    if (m <? 0x1.6a09e667f3bcdp-1)%float then ((2 * m)%float, (e - 1)%Z) else (m, e) in
  let z := ((m - 1) / (m + 1))%float in
  (2 * z * atanh_series 30 1 1 (z * z)
   + float_of_int e * 0x1.62e42fefa39efp-1)%float.

(** Summation from left to right, starting from [0.0]. *)
Definition reference_sum (xs : list float) : float :=
  fold_left PrimFloat.add xs 0%float.

Definition reference_platform : Platform :=
  {| libm_log := reference_log; np_add_reduce := reference_sum |}.

(** ** Price data *)

(** A price table; only its ["Close"] column is read here, as a list of
    Python floats ([list(frame["Close"])]). *)
Record price_frame : Type := { Close : list float }.

(** One entry of the data dictionary. *)
Record ticker_data : Type :=
  { historical_prices : price_frame;
    future_prices : price_frame }.

(** A two-dimensional array, as the list of its rows. *)
Definition matrix : Type := list (list float).

(** [np.array(rows)] for a list of lists of floats: rows of one length
    make a two-dimensional array; rows of different lengths are refused
    with [ValueError]. *)
Definition np_array (rows : list (list float)) : result matrix :=
  match rows with
  | [] => Ok []
  | row :: rest =>
      if forallb (fun row' => Nat.eqb (length row') (length row)) rest
      then Ok rows
      else Raise ValueError
  end.

(** ** [Eiten.calculate_percentage_change] *)

Definition calculate_percentage_change (old new : float) : result float :=
  truediv ((new - old) * 100)%float old.

Section ReturnEstimator.
Context {platform : Platform}.

(** [math.log(x)]: a domain error for zero, for a negative number and for
    [-inf]; [nan] and [inf] are returned as they are; a positive finite
    number goes to the C library. *)
Definition math_log (x : float) : result float :=
  if (x <=? 0)%float then Raise ValueError
  else if PrimFloat.is_nan x || PrimFloat.is_infinity x then Ok x
  else Ok (libm_log x).

(** [np.mean(xs)] of a list of floats: the sum over the count; the empty
    list gives [nan] (the warning numpy emits is silenced at import
    time). *)
Definition np_mean (xs : list float) : float :=
  match xs with
  | [] => nan
  | _ :: _ => (np_add_reduce xs / float_of_int (Z.of_nat (length xs)))%float
  end.

(** ** [Eiten.create_returns] *)

(** The three comprehensions of the loop body. *)
Definition log_returns_of (close_prices : list float) : result (list float) :=
  comprehension
    (fun i =>
       p ← getitem close_prices i;
       q ← getitem close_prices (i - 1);
       r ← truediv p q;
       math_log r)
    (py_range 1 (length close_prices)).

Definition percentage_returns_of (close_prices : list float) : result (list float) :=
  comprehension
    (fun i =>
       q ← getitem close_prices (i - 1);
       p ← getitem close_prices i;
       calculate_percentage_change q p)
    (py_range 1 (length close_prices)).

Definition weighted_returns_of (close_prices : list float) : result (list float) :=
  let total_data := length close_prices in
  comprehension
    (fun i =>
       q ← getitem close_prices (i - 1);
       p ← getitem close_prices i;
       c ← calculate_percentage_change q p;
       truediv_int c (Z.of_nat total_data - Z.of_nat i))
    (py_range 1 (length close_prices)).

(** The accumulators [predicted_return_vectors], [returns_matrix] and
    [returns_matrix_percentages]. *)
Definition returns_acc : Type := (list float * matrix * matrix)%type.

(** One iteration of the [for i in range(0, len(historical_price_info))]
    loop: the body reads [historical_price_info[i]["Close"]] and appends to
    the three accumulators. *)
Definition create_returns_body (acc : returns_acc) (info : price_frame)
  : result returns_acc :=
  let '(predicted_return_vectors, returns_matrix, returns_matrix_percentages) := acc in
  let close_prices := Close info in
  log_returns ← log_returns_of close_prices;
  percentage_returns ← percentage_returns_of close_prices;
  weighted ← weighted_returns_of close_prices;
  let future_expected_returns := np_mean weighted in
  Ok (predicted_return_vectors ++ [future_expected_returns],
      returns_matrix ++ [log_returns],
      returns_matrix_percentages ++ [percentage_returns]).

Fixpoint create_returns_loop (acc : returns_acc) (infos : list price_frame)
  : result returns_acc :=
  match infos with
  | [] => Ok acc
  | info :: rest =>
      acc' ← create_returns_body acc info;
      create_returns_loop acc' rest
  end.

(** The loop, then the three conversions to numpy arrays; the result is
    [(predicted_return_vectors, returns_matrix,
    returns_matrix_percentages)].  A list of numpy scalars always makes a
    one-dimensional array. *)
Definition create_returns (historical_price_info : list price_frame)
  : result returns_acc :=
  '(predicted_return_vectors, returns_matrix, returns_matrix_percentages) ←
     create_returns_loop ([], [], []) historical_price_info;
  returns_matrix ← np_array returns_matrix;
  returns_matrix_percentages ← np_array returns_matrix_percentages;
  Ok (predicted_return_vectors, returns_matrix, returns_matrix_percentages).

End ReturnEstimator.

(** ** [ArgChecker] *)

(** The parsed command line ([argparse.Namespace]).  [history_to_use_int] is
    [None] when the namespace has no such attribute. *)
Record arguments : Type :=
  { data_granularity_minutes : Z;
    is_test : Z;
    future_bars : Z;
    history_to_use : string;
    history_to_use_int : option Z;
    apply_noise_filtering : Z;
    only_long : Z;
    market_index : string;
    eigen_portfolio_number : Z;
    stocks_file_path : string;
    save_plot : bool }.

(** [str(value)] for an int. *)
Definition str_of_int (value : Z) : string :=
  NilZero.string_of_int (Z.to_int value).

Fixpoint lstrip_chars (c : ascii) (s : list ascii) : list ascii :=
  match s with
  | [] => []
  | a :: s' => if Ascii.eqb a c then lstrip_chars c s' else s
  end.

(** [s.strip(c)] for a one-character [c]. *)
Definition strip_char (c : ascii) (s : string) : string :=
  string_of_list_ascii
    (rev (lstrip_chars c (rev (lstrip_chars c (list_ascii_of_string s))))).

Definition newline : string := String (ascii_of_nat 10) EmptyString.

Definition granularity_constraints_list : list Z :=
  [1; 5; 10; 15; 30; 60; 3600]%Z.

Definition granularity_constraints_list_string : string :=
  strip_char ","%char
    (String.concat "" (map (fun value => str_of_int value +:+ ",") granularity_constraints_list)).

(** [x in xs] on a list of ints. *)
Definition int_in (x : Z) (xs : list Z) : bool := existsb (Z.eqb x) xs.

(** [assert cond, msg]. *)
Definition py_assert (cond : bool) (msg : string) : result unit :=
  if cond then Ok tt else Raise (AssertionError msg).

(** [args.name] for an attribute that may be absent. *)
Definition getattr {A : Type} (name : string) (field : option A) : result A :=
  match field with
  | Some v => Ok v
  | None => Raise (AttributeError name)
  end.

Definition granularity_message : string :=
  "You can only choose the following values for 'data_granularity_minutes' argument -> "
  +:+ granularity_constraints_list_string +:+ newline +:+ "Exiting now...".

Definition future_bars_message : string :=
  "You want to test but the future bars are less than 2. That does not give us enough data to test the model properly. Please use a value larger than 2."
  +:+ newline +:+ "Exiting now...".

Definition history_message : string :=
  "It is a good idea to use more history and less future bars. Please change these two values and try again."
  +:+ newline +:+ "Exiting now...".

Definition check_arguments (args : arguments) : result unit :=
  _ ← py_assert
        (negb (negb (int_in (data_granularity_minutes args) granularity_constraints_list)))
        granularity_message;
  _ ← py_assert
        (negb ((is_test args =? 1)%Z && (future_bars args <? 2)%Z))
        future_bars_message;
  too_short ←
    (if negb (String.eqb (history_to_use args) "all")
     then v ← getattr "history_to_use_int" (history_to_use_int args);
          Ok (v <? future_bars args)%Z
     else Ok false);
  py_assert (negb too_short) history_message.

(** ** Calls into the collaborators *)

Definition weight_mapping : Type := gmap string R.
Definition data_dictionary_t : Type := gmap string ticker_data.
Definition cov_matrix : Type := list (list float).

(** What [print] is given: a fixed text, or the line
    ["Symbol: %s, Weight: %.4f" % (symbol, weight)]. *)
Inductive printed : Type :=
| Text (s : string)
| WeightLine (symbol : string) (weight : R).

Inductive call : Type :=
(* DataEngine *)
| collect_data_for_all_tickers
| get_market_index_price
(* numpy *)
| np_cov (m : matrix)
(* StrategyManager *)
| random_matrix_theory_based_cov (returns_matrix : matrix)
| calculate_eigen_portfolio
    (symbol_names : list string) (covariance_matrix : cov_matrix) (portfolio_number : Z)
| calculate_minimum_variance_portfolio
    (symbol_names : list string) (covariance_matrix : cov_matrix)
| calculate_maximum_sharpe_portfolio
    (symbol_names : list string) (covariance_matrix : cov_matrix)
    (predicted_return_vectors : list float)
| calculate_genetic_algo_portfolio
    (symbol_names : list string) (returns_matrix_percentages : matrix)
(* BackTester *)
| back_test
    (symbol_names : list string) (portfolio_weights_dictionary : weight_mapping)
    (portfolio_data_dictionary : data_dictionary_t) (historical_price_market : price_frame)
    (is_long_only : Z) (market_chart : bool) (strategy_name : string)
| future_test
    (symbol_names : list string) (portfolio_weights_dictionary : weight_mapping)
    (portfolio_data_dictionary : data_dictionary_t) (future_price_market : price_frame)
    (is_long_only : Z) (market_chart : bool) (strategy_name : string)
(* MontoCarloSimulator *)
| simulate_portfolio
    (symbol_names : list string) (portfolio_weights_dictionary : weight_mapping)
    (portfolio_data_dictionary : data_dictionary_t) (future_prices_market : price_frame)
    (test_or_predict : Z) (market_chart : bool) (strategy_name : string)
(* console *)
| print (what : printed)
(* matplotlib.pyplot; styling keywords are left out *)
| plt_bar (x : list R) (height : list R) (label : string) (width : R)
| plt_xticks (ticks : list R) (labels : list string)
| plt_yticks
| plt_xlabel (s : string)
| plt_ylabel (s : string)
| plt_title (s : string)
| plt_grid
| plt_legend
| plt_savefig (filename : string)
| plt_tight_layout
| plt_show.

(** The type of the value a call returns. *)
Definition answer (c : call) : Type :=
  match c with
  | collect_data_for_all_tickers => data_dictionary_t
  | get_market_index_price => (price_frame * price_frame)%type
  | np_cov _ => cov_matrix
  | random_matrix_theory_based_cov _ => cov_matrix
  | calculate_eigen_portfolio _ _ _ => weight_mapping
  | calculate_minimum_variance_portfolio _ _ => weight_mapping
  | calculate_maximum_sharpe_portfolio _ _ _ => weight_mapping
  | calculate_genetic_algo_portfolio _ _ => weight_mapping
  | _ => unit
  end.

(** A program that calls collaborators: it returns, raises, or makes a call
    and goes on with the value returned. *)
Inductive prog (A : Type) : Type :=
| Ret (a : A)
| Throw (e : pyexn)
| Call (c : call) (k : answer c -> prog A).

Arguments Ret {A} a.
Arguments Throw {A} e.
Arguments Call {A} c k.

Fixpoint prog_bind {A B : Type} (k : A -> prog B) (p : prog A) : prog B :=
  match p with
  | Ret a => k a
  | Throw e => Throw e
  | Call c k' => Call c (fun x => prog_bind k (k' x))
  end.

#[global] Instance prog_ret : MRet prog := fun A a => Ret a.
#[global] Instance prog_mbind : MBind prog := fun A B k p => prog_bind k p.

(** A call whose result is used as it is. *)
Definition perform (c : call) : prog (answer c) := Call c Ret.

(** A computation of this module run inside a collaborator-calling one. *)
Definition lift {A : Type} (r : result A) : prog A :=
  match r with
  | Ok a => Ret a
  | Raise e => Throw e
  end.

(** [for x in xs: body(x)]. *)
Fixpoint for_each {A : Type} (body : A -> prog unit) (xs : list A) : prog unit :=
  match xs with
  | [] => Ret tt
  | x :: xs' => _ ← body x; for_each body xs'
  end.

(** A call as it happened: what was called and how it ended. *)
Record event : Type := Event { ecall : call; eret : result (answer ecall) }.

(** The collaborators: the outcome of a call, given the calls made so far. *)
Definition world : Type := forall c : call, list event -> result (answer c).

(** Running a program: the log of calls grows by one entry per call, and an
    exception raised by a collaborator is not caught. *)
Fixpoint exec {A : Type} (w : world) (p : prog A) (log : list event)
  : list event * result A :=
  match p with
  | Ret a => (log, Ok a)
  | Throw e => (log, Raise e)
  | Call c k =>
      match w c log with
      | Ok x => exec w (k x) (log ++ [Event c (Ok x)])
      | Raise e => (log ++ [Event c (Raise e)], Raise e)
      end
  end.

(** ** Dictionaries *)

(** The order of Python's string comparison. *)
Definition string_le (a b : string) : Prop := String.leb a b = true.

#[global] Instance string_le_dec (a b : string) : Decision (string_le a b) :=
  decide (String.leb a b = true).

(** [list(sorted(d.keys()))]. *)
Definition sorted_keys {V : Type} (d : gmap string V) : list string :=
  merge_sort string_le (map_to_list d).*1.

(** [d[key]]. *)
Definition dict_getitem {V : Type} (d : gmap string V) (key : string) : result V :=
  match d !! key with
  | Some v => Ok v
  | None => Raise (KeyError key)
  end.

(** Truth value of an int used as a condition. *)
Definition truthy (z : Z) : bool := negb (z =? 0)%Z.

(** ** [Eiten] *)

Record Eiten : Type :=
  { SAVE_PLOT : bool;
    HISTORY_TO_USE : string;
    DATA_GRANULARITY_MINUTES : Z;
    FUTURE_BARS_FOR_TESTING : Z;
    APPLY_NOISE_FILTERING : Z;
    IS_LONG_ONLY_PORTFOLIO : Z;
    MARKET_INDEX : string;
    IS_TEST : Z;
    EIGEN_PORTFOLIO_NUMBER : Z;
    STOCKS_FILE_PATH : string;
    data_dictionary : data_dictionary_t }.

(** [Eiten.__init__]: the fields copied from the arguments and an empty
    data dictionary. *)
Definition Eiten_init (args : arguments) : Eiten :=
  {| SAVE_PLOT := save_plot args;
     HISTORY_TO_USE := history_to_use args;
     DATA_GRANULARITY_MINUTES := data_granularity_minutes args;
     FUTURE_BARS_FOR_TESTING := future_bars args;
     APPLY_NOISE_FILTERING := apply_noise_filtering args;
     IS_LONG_ONLY_PORTFOLIO := only_long args;
     MARKET_INDEX := market_index args;
     IS_TEST := is_test args;
     EIGEN_PORTFOLIO_NUMBER := eigen_portfolio_number args;
     STOCKS_FILE_PATH := stocks_file_path args;
     data_dictionary := ∅ |}.

Definition set_data_dictionary (self : Eiten) (d : data_dictionary_t) : Eiten :=
  {| SAVE_PLOT := SAVE_PLOT self;
     HISTORY_TO_USE := HISTORY_TO_USE self;
     DATA_GRANULARITY_MINUTES := DATA_GRANULARITY_MINUTES self;
     FUTURE_BARS_FOR_TESTING := FUTURE_BARS_FOR_TESTING self;
     APPLY_NOISE_FILTERING := APPLY_NOISE_FILTERING self;
     IS_LONG_ONLY_PORTFOLIO := IS_LONG_ONLY_PORTFOLIO self;
     MARKET_INDEX := MARKET_INDEX self;
     IS_TEST := IS_TEST self;
     EIGEN_PORTFOLIO_NUMBER := EIGEN_PORTFOLIO_NUMBER self;
     STOCKS_FILE_PATH := STOCKS_FILE_PATH self;
     data_dictionary := d |}.

Section Orchestrator.
Context {platform : Platform}.

(** *** [Eiten.load_data] *)

(** The [for symbol in symbol_names] loop with its two accumulators (the
    lists [historical_price_info] and [future_prices] of the source). *)
Fixpoint load_data_loop (d : data_dictionary_t) (symbol_names : list string)
    (historical_price_info future_price_info : list price_frame)
  : result (list price_frame * list price_frame) :=
  match symbol_names with
  | [] => Ok (historical_price_info, future_price_info)
  | symbol :: rest =>
      entry ← dict_getitem d symbol;
      let historical_price_info := historical_price_info ++ [historical_prices entry] in
      entry' ← dict_getitem d symbol;
      let future_price_info := future_price_info ++ [future_prices entry'] in
      load_data_loop d rest historical_price_info future_price_info
  end.

Record loaded_data : Type :=
  { ld_historical_price_info : list price_frame;
    ld_future_prices : list price_frame;
    ld_symbol_names : list string;
    ld_predicted_return_vectors : list float;
    ld_returns_matrix : matrix;
    ld_returns_matrix_percentages : matrix }.

(** The method assigns [self.data_dictionary]; the updated object is
    returned next to the tuple. *)
Definition load_data (self : Eiten) : prog (Eiten * loaded_data) :=
  d ← perform collect_data_for_all_tickers;
  let self := set_data_dictionary self d in
  let symbol_names := sorted_keys (data_dictionary self) in
  '(historical_price_info, future_price_info) ←
     lift (load_data_loop (data_dictionary self) symbol_names [] []);
  '(predicted_return_vectors, returns_matrix, returns_matrix_percentages) ←
     lift (create_returns historical_price_info);
  Ret (self,
       {| ld_historical_price_info := historical_price_info;
          ld_future_prices := future_price_info;
          ld_symbol_names := symbol_names;
          ld_predicted_return_vectors := predicted_return_vectors;
          ld_returns_matrix := returns_matrix;
          ld_returns_matrix_percentages := returns_matrix_percentages |}).

(** *** [Eiten.draw_plot] *)

Definition draw_plot (self : Eiten) (filename : string) : prog unit :=
  _ ← perform plt_grid;
  _ ← perform plt_legend;
  if SAVE_PLOT self
  then perform (plt_savefig filename)
  else
    _ ← perform plt_tight_layout;
    perform plt_show.

(** *** [Eiten.print_and_plot_portfolio_weights] *)

(** The [for symbol in symbols] loop: one line printed and one weight
    appended per symbol. *)
Fixpoint print_weights_loop (weights_dictionary : weight_mapping)
    (symbols : list string) (symbol_weights : list R) : prog (list R) :=
  match symbols with
  | [] => Ret symbol_weights
  | symbol :: rest =>
      weight ← lift (dict_getitem weights_dictionary symbol);
      _ ← perform (print (WeightLine symbol weight));
      weight' ← lift (dict_getitem weights_dictionary symbol);
      print_weights_loop weights_dictionary rest (symbol_weights ++ [weight'])
  end.

(** [np.arange(n)]. *)
Definition np_arange (n : nat) : list R := map INR (seq 0 n).

Definition print_and_plot_portfolio_weights (self : Eiten)
    (weights_dictionary : weight_mapping) (strategy : string) (plot_num : Z)
  : prog unit :=
  _ ← perform (print (Text (newline +:+ "-------- Weights for " +:+ strategy +:+ " --------")));
  let symbols := sorted_keys weights_dictionary in
  symbol_weights ← print_weights_loop weights_dictionary symbols [];
  let width := (1 / 10)%R in
  let x := np_arange (length symbol_weights) in
  _ ← perform (plt_bar
                 (map (fun xi => xi + (width * IZR (plot_num - 1)) + 5 / 100)%R x)
                 symbol_weights strategy width);
  _ ← perform (plt_xticks x symbols);
  _ ← perform plt_yticks;
  _ ← perform (plt_xlabel "Symbols");
  _ ← perform (plt_ylabel "Weight in Portfolio");
  perform (plt_title "Portfolio Weights for Different Strategies").

(** *** [Eiten.run_strategies] *)

Definition run_strategies (self : Eiten) : prog unit :=
  '(self, loaded) ← load_data self;
  let symbol_names := ld_symbol_names loaded in
  let predicted_return_vectors := ld_predicted_return_vectors loaded in
  let returns_matrix := ld_returns_matrix loaded in
  let returns_matrix_percentages := ld_returns_matrix_percentages loaded in
  '(historical_price_market, future_prices_market) ← perform get_market_index_price;

  (* Calculate covariance matrix *)
  covariance_matrix ← perform (np_cov returns_matrix);

  (* Use random matrix theory to filter out the noisy eigen values *)
  covariance_matrix ←
    (if truthy (APPLY_NOISE_FILTERING self)
     then
       _ ← perform (print (Text (newline +:+ "** Applying random matrix theory to filter out noise in the covariance matrix..." +:+ newline)));
       perform (random_matrix_theory_based_cov returns_matrix)
     else Ret covariance_matrix);

  (* Get weights for the portfolio *)
  eigen_portfolio_weights_dictionary ←
    perform (calculate_eigen_portfolio symbol_names covariance_matrix
               (EIGEN_PORTFOLIO_NUMBER self));
  mvp_portfolio_weights_dictionary ←
    perform (calculate_minimum_variance_portfolio symbol_names covariance_matrix);
  msr_portfolio_weights_dictionary ←
    perform (calculate_maximum_sharpe_portfolio symbol_names covariance_matrix
               predicted_return_vectors);
  ga_portfolio_weights_dictionary ←
    perform (calculate_genetic_algo_portfolio symbol_names returns_matrix_percentages);

  (* Print weights *)
  _ ← perform (print (Text (newline +:+ "*% Printing portfolio weights...")));
  _ ← print_and_plot_portfolio_weights self
        eigen_portfolio_weights_dictionary "Eigen Portfolio" 1;
  _ ← print_and_plot_portfolio_weights self
        mvp_portfolio_weights_dictionary "Minimum Variance Portfolio (MVP)" 2;
  _ ← print_and_plot_portfolio_weights self
        msr_portfolio_weights_dictionary "Maximum Sharpe Portfolio (MSR)" 3;
  _ ← print_and_plot_portfolio_weights self
        ga_portfolio_weights_dictionary "Genetic Algo (GA)" 4;
  _ ← draw_plot self "output/weights.png";

  (* Back test *)
  _ ← perform (print (Text (newline +:+ "*& Backtesting the portfolios...")));
  _ ← perform (back_test symbol_names eigen_portfolio_weights_dictionary
                 (data_dictionary self) historical_price_market
                 (IS_LONG_ONLY_PORTFOLIO self) true "Eigen Portfolio");
  _ ← perform (back_test symbol_names mvp_portfolio_weights_dictionary
                 (data_dictionary self) historical_price_market
                 (IS_LONG_ONLY_PORTFOLIO self) false "Minimum Variance Portfolio (MVP)");
  _ ← perform (back_test symbol_names msr_portfolio_weights_dictionary
                 (data_dictionary self) historical_price_market
                 (IS_LONG_ONLY_PORTFOLIO self) false "Maximum Sharpe Portfolio (MSR)");
  _ ← perform (back_test symbol_names ga_portfolio_weights_dictionary
                 (data_dictionary self) historical_price_market
                 (IS_LONG_ONLY_PORTFOLIO self) false "Genetic Algo (GA)");
  _ ← draw_plot self "output/backtest.png";

  _ ← (if truthy (IS_TEST self)
       then
         _ ← perform (print (Text (newline +:+ "#^ Future testing the portfolios...")));
         (* Future test *)
         _ ← perform (future_test symbol_names eigen_portfolio_weights_dictionary
                        (data_dictionary self) future_prices_market
                        (IS_LONG_ONLY_PORTFOLIO self) true "Eigen Portfolio");
         _ ← perform (future_test symbol_names mvp_portfolio_weights_dictionary
                        (data_dictionary self) future_prices_market
                        (IS_LONG_ONLY_PORTFOLIO self) false "Minimum Variance Portfolio (MVP)");
         _ ← perform (future_test symbol_names msr_portfolio_weights_dictionary
                        (data_dictionary self) future_prices_market
                        (IS_LONG_ONLY_PORTFOLIO self) false "Maximum Sharpe Portfolio (MSR)");
         _ ← perform (future_test symbol_names ga_portfolio_weights_dictionary
                        (data_dictionary self) future_prices_market
                        (IS_LONG_ONLY_PORTFOLIO self) false "Genetic Algo (GA)");
         draw_plot self "output/future_tests.png"
       else Ret tt);

  (* Simulation *)
  _ ← perform (print (Text (newline +:+ "+$ Simulating future prices using monte carlo...")));
  _ ← perform (simulate_portfolio symbol_names eigen_portfolio_weights_dictionary
                 (data_dictionary self) future_prices_market
                 (IS_TEST self) true "Eigen Portfolio");
  _ ← perform (simulate_portfolio symbol_names eigen_portfolio_weights_dictionary
                 (data_dictionary self) future_prices_market
                 (IS_TEST self) false "Minimum Variance Portfolio (MVP)");
  _ ← perform (simulate_portfolio symbol_names eigen_portfolio_weights_dictionary
                 (data_dictionary self) future_prices_market
                 (IS_TEST self) false "Maximum Sharpe Portfolio (MSR)");
  _ ← perform (simulate_portfolio symbol_names ga_portfolio_weights_dictionary
                 (data_dictionary self) future_prices_market
                 (IS_TEST self) false "Genetic Algo (GA)");
  draw_plot self "output/monte_carlo.png".

End Orchestrator.
(** * Specification vocabulary *)

(** ** The return estimator *)


(** The lists of a list all have the length of the first one. *)
Definition same_lengths {A : Type} (rows : list (list A)) : Prop :=
  forall row row', In row rows -> In row' rows -> length row = length row'.

(** The price at position [t] of a closing-price sequence. *)
Definition price (info : price_frame) (t : nat) : float := nth t (Close info) 0%float.

(** The positions [t = 1 .. L-1] the comprehensions run over. *)
Definition positions (info : price_frame) : list nat :=
  py_range 1 (length (Close info)).

(** The percentage return of step [t], as [calculate_percentage_change]
    computes it when it returns. *)
Definition percentage_return (info : price_frame) (t : nat) : float :=
  ((price info t - price info (t - 1)) * 100 / price info (t - 1))%float.

Definition weighted_return (info : price_frame) (t : nat) : float :=
  (percentage_return info t
   / float_of_int (Z.of_nat (length (Close info)) - Z.of_nat t))%float.

Definition asset_percentage_returns (info : price_frame) : list float :=
  map (percentage_return info) (positions info).

(** Step [t-1 -> t] divides by a zero price. *)
Definition zero_divisor (info : price_frame) (t : nat) : bool :=
  (price info (t - 1) =? 0)%float.

(** The quotient of step [t-1 -> t] is outside the domain of [math.log]:
    it is zero, negative or [-inf]. *)
Definition domain_error (info : price_frame) (t : nat) : bool :=
  (price info t / price info (t - 1) <=? 0)%float.

(** One number is negative and the other positive. *)
Definition opposite_signs (p q : float) : Prop :=
  ((p <? 0)%float = true /\ (0 <? q)%float = true)
  \/ ((0 <? p)%float = true /\ (q <? 0)%float = true).

(** Every step [t-1 -> t] of the series divides by a non-zero price and
    takes the logarithm of a quotient that [math.log] accepts. *)
Definition steps_defined (info : price_frame) : Prop :=
  forall t, 1 <= t < length (Close info) ->
    zero_divisor info t = false /\ domain_error info t = false.

(** Some step divides by zero or has a quotient outside the domain of
    [math.log]. *)
Definition step_undefined (info : price_frame) : Prop :=
  exists t, 1 <= t < length (Close info) /\
    (zero_divisor info t = true \/ domain_error info t = true).

(** The same as a test, for the examples. *)
Definition steps_defined_b (info : price_frame) : bool :=
  forallb (fun t => negb (zero_divisor info t) && negb (domain_error info t))
          (positions info).

(** The series have one number of returns: their rows fit one array. *)
Definition rows_fit (infos : list price_frame) : Prop :=
  forall info info', In info infos -> In info' infos ->
    length (Close info) - 1 = length (Close info') - 1.

Section Vocabulary.
Context {platform : Platform}.

(** What [math.log] returns where it returns. *)
Definition log_value (x : float) : float :=
  if PrimFloat.is_nan x || PrimFloat.is_infinity x then x else libm_log x.

(** What the estimator computes for one closing-price sequence, written as
    plain functions of the position [t]. *)
Definition log_return (info : price_frame) (t : nat) : float :=
  log_value (price info t / price info (t - 1))%float.

Definition asset_log_returns (info : price_frame) : list float :=
  map (log_return info) (positions info).

Definition asset_expected_return (info : price_frame) : float :=
  np_mean (map (weighted_return info) (positions info)).

(** The recency-weighted mean in the words of the specification: the mean
    over [t = 1..L-1] of [percentage-return[t] / (L - t)], the percentage
    return being [(p[t] - p[t-1]) * 100 / p[t-1]]. *)
Definition recency_weighted_mean (p : nat -> float) (L : nat) : float :=
  np_mean
    (map (fun t => ((p t - p (t - 1)%nat) * 100 / p (t - 1)%nat
                    / float_of_int (Z.of_nat L - Z.of_nat t))%float)
         (seq 1 (L - 1))).

End Vocabulary.

(** ** Sample inputs *)

(** The two-asset scenario of the specification: both series rise by ten
    percent twice. *)
Definition two_assets : list price_frame :=
  [ {| Close := [100; 110; 121]%float |}; {| Close := [50; 55; 60.5]%float |} ].

(** A series of negative prices: every quotient of consecutive prices is
    positive. *)
Definition falling_negative_prices : list price_frame :=
  [ {| Close := [-1; -2]%float |} ].

(** A series of one observation. *)
Definition single_observation : list price_frame := [ {| Close := [5%float] |} ].

(** Strictly positive prices whose quotient underflows to [0.0]. *)
Definition far_apart_prices : list price_frame :=
  [ {| Close := [1e200; 1e-200]%float |} ].

(** Two series of strictly positive prices; in the second one the last
    quotient underflows. *)
Definition crashing_asset : list price_frame :=
  [ {| Close := [100; 110; 121]%float |}; {| Close := [2e150; 4e150; 1e-180]%float |} ].

(** A zero price after a missing one. *)
Definition zero_after_nan : list price_frame :=
  [ {| Close := [nan; 0]%float |} ].

(** ** The orchestration *)

Section RunVocabulary.
Context {platform : Platform}.

(** The calls a run makes, in order, and how the run ends. *)
Definition run_log (w : world) (self : Eiten) : list event :=
  (exec w (run_strategies self) []).1.

Definition run_result (w : world) (self : Eiten) : result unit :=
  (exec w (run_strategies self) []).2.

(** A property [Phi log c] of every call [c] a program can make, [log] being
    the calls made before it; the collaborators may answer anything. *)
Fixpoint sat {A : Type} (Phi : list event -> call -> Prop) (p : prog A)
    (log : list event) : Prop :=
  match p with
  | Ret _ => True
  | Throw _ => True
  | Call c k => Phi log c /\ forall x, sat Phi (k x) (log ++ [Event c (Ok x)])
  end.

(** The same property read off a finished log. *)
Definition each_call (Phi : list event -> call -> Prop) (log : list event) : Prop :=
  forall pre ev post, log = pre ++ ev :: post -> Phi pre (ecall ev).

(** A program that raises nothing by itself. *)
Fixpoint no_throw {A : Type} (p : prog A) : Prop :=
  match p with
  | Ret _ => True
  | Throw _ => False
  | Call c k => forall x, no_throw (k x)
  end.


(** Console and plotting calls. *)
Definition is_presentation (c : call) : bool :=
  match c with
  | print _ | plt_bar _ _ _ _ | plt_xticks _ _ | plt_yticks | plt_xlabel _
  | plt_ylabel _ | plt_title _ | plt_grid | plt_legend | plt_savefig _
  | plt_tight_layout | plt_show => true
  | _ => false
  end.

(** The covariance estimate a strategy is handed, for the strategies that
    take one. *)
Definition covariance_argument (c : call) : option cov_matrix :=
  match c with
  | calculate_eigen_portfolio _ cov _ => Some cov
  | calculate_minimum_variance_portfolio _ cov => Some cov
  | calculate_maximum_sharpe_portfolio _ cov _ => Some cov
  | _ => None
  end.

Inductive phase : Type := Backtest | FutureTest | Simulation.

(** An evaluation call: its phase, the strategy name it is labelled with and
    the weights it is given. *)
Definition evaluation (c : call) : option (phase * string * weight_mapping) :=
  match c with
  | back_test _ weights _ _ _ _ name => Some (Backtest, name, weights)
  | future_test _ weights _ _ _ _ name => Some (FutureTest, name, weights)
  | simulate_portfolio _ weights _ _ _ _ name => Some (Simulation, name, weights)
  | _ => None
  end.

(** What a logged strategy call returned: the name the strategy is reported
    under, the symbols it was asked about and the weights it answered. *)
Definition returned_weights (ev : event)
  : option (string * list string * weight_mapping) :=
  match ev with
  | Event c r =>
      match c return result (answer c) -> option (string * list string * weight_mapping) with
      | calculate_eigen_portfolio s _ _ => fun r =>
          match r with Ok x => Some ("Eigen Portfolio", s, x) | Raise _ => None end
      | calculate_minimum_variance_portfolio s _ => fun r =>
          match r with
          | Ok x => Some ("Minimum Variance Portfolio (MVP)", s, x)
          | Raise _ => None
          end
      | calculate_maximum_sharpe_portfolio s _ _ => fun r =>
          match r with
          | Ok x => Some ("Maximum Sharpe Portfolio (MSR)", s, x)
          | Raise _ => None
          end
      | calculate_genetic_algo_portfolio s _ => fun r =>
          match r with Ok x => Some ("Genetic Algo (GA)", s, x) | Raise _ => None end
      | _ => fun _ => None
      end r
  end.

(** The strategy reported under [name] returned [weights] in this log. *)
Definition strategy_returned (log : list event) (name : string)
    (weights : weight_mapping) : Prop :=
  exists ev symbols, In ev log /\ returned_weights ev = Some (name, symbols, weights).

(** The key set of a weight mapping matches the symbol list. *)
Definition covers_exactly (weights : weight_mapping) (symbols : list string) : Prop :=
  forall symbol, In symbol symbols <-> is_Some (weights !! symbol).

(** A program all of whose calls are of one kind. *)
Fixpoint only_calls {A : Type} (P : call -> bool) (p : prog A) : Prop :=
  match p with
  | Ret _ => True
  | Throw _ => True
  | Call c k => P c = true /\ forall x, only_calls P (k x)
  end.

(** The strategy whose weights an evaluation call is given, as the calls of
    [run_strategies] are written: the simulation calls labelled with the
    minimum-variance and the maximum-Sharpe strategy pass
    [eigen_portfolio_weights_dictionary]. *)
Definition weights_source (ph : phase) (name : string) : string :=
  match ph with
  | Simulation =>
      if String.eqb name "Minimum Variance Portfolio (MVP)"
         || String.eqb name "Maximum Sharpe Portfolio (MSR)"
      then "Eigen Portfolio"
      else name
  | _ => name
  end.

(** The log ends with a call that raised [e]. *)
Definition raised_by_collaborator (log : list event) (e : pyexn) : Prop :=
  exists pre c, log = pre ++ [Event c (Raise e)].

(** The log-return matrix [rm] computed from the data dictionary that the
    data engine returned in this log. *)
Definition log_returns_of_run (log : list event) (rm : matrix) : Prop :=
  exists d historical_price_info future_price_info predicted rmp,
    In (Event collect_data_for_all_tickers (Ok d)) log
    /\ load_data_loop d (sorted_keys d) [] []
       = Ok (historical_price_info, future_price_info)
    /\ create_returns historical_price_info = Ok (predicted, rm, rmp).

Definition phase_eqb (a b : phase) : bool :=
  match a, b with
  | Backtest, Backtest | FutureTest, FutureTest | Simulation, Simulation => true
  | _, _ => false
  end.

(** The evaluation calls of one phase in a log, in order: the strategy name
    each is labelled with and the weights it is given. *)
Definition evaluations_of (ph : phase) (log : list event)
  : list (string * weight_mapping) :=
  omap (fun ev =>
          match evaluation (ecall ev) with
          | Some (ph', name, weights) =>
              if phase_eqb ph ph' then Some (name, weights) else None
          | None => None
          end)
       log.

(** The matrices the noise filter was given in a log. *)
Definition filter_inputs (log : list event) : list matrix :=
  omap (fun ev =>
          match ecall ev with
          | random_matrix_theory_based_cov m => Some m
          | _ => None
          end)
       log.

(** What the strategies returned in a log, in order. *)
Definition strategy_returns (log : list event)
  : list (string * list string * weight_mapping) :=
  omap returned_weights log.

End RunVocabulary.

(** ** A concrete run *)

(** Two tickers with four historical closing prices each. *)
Definition scenario_data : data_dictionary_t :=
  <[ "AAA" := {| historical_prices := {| Close := [100; 102; 101; 105]%float |};
                 future_prices := {| Close := [106; 104]%float |} |} ]>
  (<[ "BBB" := {| historical_prices := {| Close := [50; 49; 52; 53]%float |};
                  future_prices := {| Close := [54; 55]%float |} |} ]> ∅).

Definition scenario_history : list price_frame :=
  [ {| Close := [100; 102; 101; 105]%float |}; {| Close := [50; 49; 52; 53]%float |} ].

Definition scenario_market : price_frame * price_frame :=
  ({| Close := [300; 303; 301; 306]%float |}, {| Close := [308; 307]%float |}).

(** The sample covariance of the rows of a matrix, as [np.cov] defines it
    for a matrix of at least two rows and two columns, with the sums taken
    from left to right. *)
Definition row_sum (xs : list float) : float := fold_left PrimFloat.add xs 0%float.

Definition row_mean (xs : list float) : float :=
  (row_sum xs / float_of_int (Z.of_nat (length xs)))%float.

Definition sample_cov (m : matrix) : cov_matrix :=
  map (fun xi =>
         map (fun xj =>
                (row_sum (zip_with (fun a b => (a - row_mean xi) * (b - row_mean xj)) xi xj)
                 / (float_of_int (Z.of_nat (length xi)) - 1))%float)
             m)
      m.

Record strategy_answers : Type :=
  { eigen_answer : weight_mapping;
    mvp_answer : weight_mapping;
    msr_answer : weight_mapping;
    ga_answer : weight_mapping }.

(** Collaborators that serve the scenario data, compute sample covariances
    (the noise filter included) and answer the four strategies as told. *)
Definition scenario_world (s : strategy_answers) : world :=
  fun c _ =>
    match c return result (answer c) with
    | collect_data_for_all_tickers => Ok scenario_data
    | get_market_index_price => Ok scenario_market
    | np_cov m => Ok (sample_cov m)
    | random_matrix_theory_based_cov m => Ok (sample_cov m)
    | calculate_eigen_portfolio _ _ _ => Ok (eigen_answer s)
    | calculate_minimum_variance_portfolio _ _ => Ok (mvp_answer s)
    | calculate_maximum_sharpe_portfolio _ _ _ => Ok (msr_answer s)
    | calculate_genetic_algo_portfolio _ _ => Ok (ga_answer s)
    | _ => Ok tt
    end.

(** Every strategy covers both tickers. *)
Definition full_answers : strategy_answers :=
  {| eigen_answer := <[ "AAA" := 0.7%R ]> (<[ "BBB" := 0.3%R ]> ∅);
     mvp_answer := <[ "AAA" := 0.4%R ]> (<[ "BBB" := 0.6%R ]> ∅);
     msr_answer := <[ "AAA" := 0.9%R ]> (<[ "BBB" := 0.1%R ]> ∅);
     ga_answer := <[ "AAA" := 0.5%R ]> (<[ "BBB" := 0.5%R ]> ∅) |}.

(** The minimum-variance strategy leaves out ["BBB"]. *)
Definition partial_answers : strategy_answers :=
  {| eigen_answer := <[ "AAA" := 0.7%R ]> (<[ "BBB" := 0.3%R ]> ∅);
     mvp_answer := <[ "AAA" := 1%R ]> ∅;
     msr_answer := <[ "AAA" := 0.9%R ]> (<[ "BBB" := 0.1%R ]> ∅);
     ga_answer := <[ "AAA" := 0.5%R ]> (<[ "BBB" := 0.5%R ]> ∅) |}.

(** The sample command line of the module's docstring. *)
Definition sample_arguments : arguments :=
  {| data_granularity_minutes := 3600;
     is_test := 1;
     future_bars := 90;
     history_to_use := "all";
     history_to_use_int := None;
     apply_noise_filtering := 1;
     only_long := 1;
     market_index := "QQQ";
     eigen_portfolio_number := 3;
     stocks_file_path := "stocks/stocks.txt";
     save_plot := true |}.

(** The same with [--is_test 0]. *)
Definition live_arguments : arguments :=
  {| data_granularity_minutes := 3600;
     is_test := 0;
     future_bars := 90;
     history_to_use := "all";
     history_to_use_int := None;
     apply_noise_filtering := 1;
     only_long := 1;
     market_index := "QQQ";
     eigen_portfolio_number := 3;
     stocks_file_path := "stocks/stocks.txt";
     save_plot := true |}.

(** ** More vocabulary for the return estimator *)

(** The three accumulators joined componentwise. *)
Definition returns_app (a b : returns_acc) : returns_acc :=
  (a.1.1 ++ b.1.1, a.1.2 ++ b.1.2, a.2 ++ b.2).

(** ** More vocabulary for the orchestration *)

Section RunVocabularyMore.
Context {platform : Platform}.

(** The run loaded the dictionary [d] and computed from it the expected
    returns, the log-return matrix and the percentage-return matrix. *)
Definition loaded_in (log : list event) (d : data_dictionary_t)
    (predicted : list float) (rm rmp : matrix) : Prop :=
  exists historical_price_info future_price_info,
    In (Event collect_data_for_all_tickers (Ok d)) log
    /\ load_data_loop d (sorted_keys d) [] []
       = Ok (historical_price_info, future_price_info)
    /\ create_returns historical_price_info = Ok (predicted, rm, rmp).

(** What each strategy is called with, as [run_strategies] writes the four
    calls. *)
Definition strategy_inputs (self : Eiten) (log : list event) (c : call) : Prop :=
  match c with
  | calculate_eigen_portfolio symbols _ number =>
      number = EIGEN_PORTFOLIO_NUMBER self
      /\ exists d predicted rm rmp,
           loaded_in log d predicted rm rmp /\ symbols = sorted_keys d
  | calculate_minimum_variance_portfolio symbols _ =>
      exists d predicted rm rmp,
        loaded_in log d predicted rm rmp /\ symbols = sorted_keys d
  | calculate_maximum_sharpe_portfolio symbols _ predicted =>
      exists d rm rmp, loaded_in log d predicted rm rmp /\ symbols = sorted_keys d
  | calculate_genetic_algo_portfolio symbols rmp =>
      exists d predicted rm, loaded_in log d predicted rm rmp /\ symbols = sorted_keys d
  | _ => True
  end.

(** What each evaluation call is given besides the weights. *)
Definition evaluation_inputs (self : Eiten) (log : list event) (c : call) : Prop :=
  match c with
  | back_test symbols _ dd market lo chart name =>
      exists d other,
        In (Event collect_data_for_all_tickers (Ok d)) log
        /\ In (Event get_market_index_price (Ok (market, other))) log
        /\ symbols = sorted_keys d /\ dd = d
        /\ lo = IS_LONG_ONLY_PORTFOLIO self
        /\ chart = String.eqb name "Eigen Portfolio"
  | future_test symbols _ dd market lo chart name =>
      exists d other,
        In (Event collect_data_for_all_tickers (Ok d)) log
        /\ In (Event get_market_index_price (Ok (other, market))) log
        /\ symbols = sorted_keys d /\ dd = d
        /\ lo = IS_LONG_ONLY_PORTFOLIO self
        /\ chart = String.eqb name "Eigen Portfolio"
  | simulate_portfolio symbols _ dd market test chart name =>
      exists d other,
        In (Event collect_data_for_all_tickers (Ok d)) log
        /\ In (Event get_market_index_price (Ok (other, market))) log
        /\ symbols = sorted_keys d /\ dd = d
        /\ test = IS_TEST self
        /\ chart = String.eqb name "Eigen Portfolio"
  | _ => True
  end.

(** The order in which the strategies are called. *)
Definition strategy_order : list string :=
  [ "Eigen Portfolio"; "Minimum Variance Portfolio (MVP)";
    "Maximum Sharpe Portfolio (MSR)"; "Genetic Algo (GA)" ].

(** The files [run_strategies] saves its figures to. *)
Definition figure_files (self : Eiten) : list string :=
  [ "output/weights.png"; "output/backtest.png" ]
  ++ (if truthy (IS_TEST self) then [ "output/future_tests.png" ] else [])
  ++ [ "output/monte_carlo.png" ].

(** How a figure is put out: saved when [SAVE_PLOT] is set, shown
    otherwise. *)
Definition figure_output (self : Eiten) (log : list event) (c : call) : Prop :=
  match c with
  | plt_savefig filename => SAVE_PLOT self = true /\ In filename (figure_files self)
  | plt_tight_layout | plt_show => SAVE_PLOT self = false
  | _ => True
  end.

(** The file a call saves the figure to. *)
Definition saved_file (c : call) : option string :=
  match c with
  | plt_savefig filename => Some filename
  | _ => None
  end.

(** A call that shows the figure on the screen. *)
Definition shown (c : call) : option string :=
  match c with
  | plt_show => Some "show"
  | _ => None
  end.

(** The calls of [draw_plot] when every call returns. *)
Definition draw_plot_calls (self : Eiten) (filename : string) : list event :=
  [ Event plt_grid (Ok tt); Event plt_legend (Ok tt) ]
  ++ (if SAVE_PLOT self
      then [ Event (plt_savefig filename) (Ok tt) ]
      else [ Event plt_tight_layout (Ok tt); Event plt_show (Ok tt) ]).



(** The calls of the weight report. *)
Definition is_weight_report (c : call) : bool :=
  match c with
  | print _ | plt_bar _ _ _ _ | plt_xticks _ _ | plt_yticks | plt_xlabel _
  | plt_ylabel _ | plt_title _ => true
  | _ => false
  end.

(** The sample command line without noise filtering. *)
Definition unfiltered_arguments : arguments :=
  {| data_granularity_minutes := 3600;
     is_test := 1;
     future_bars := 90;
     history_to_use := "all";
     history_to_use_int := None;
     apply_noise_filtering := 0;
     only_long := 1;
     market_index := "QQQ";
     eigen_portfolio_number := 3;
     stocks_file_path := "stocks/stocks.txt";
     save_plot := true |}.

(** What [load_data] returns on the scenario data. *)
Definition scenario_loaded : loaded_data :=
  {| ld_historical_price_info := scenario_history;
     ld_future_prices := [ {| Close := [106; 104]%float |}; {| Close := [54; 55]%float |} ];
     ld_symbol_names := ["AAA"; "BBB"];
     ld_predicted_return_vectors := map asset_expected_return scenario_history;
     ld_returns_matrix := map asset_log_returns scenario_history;
     ld_returns_matrix_percentages := map asset_percentage_returns scenario_history |}.

(** A data engine that is out of order: every call raises. *)
Definition failing_world : world :=
  fun c _ => Raise (ExternalError "ConnectionError").

(** The strategy a strategy call belongs to, by the name it is reported
    under. *)
Definition strategy_label (c : call) : option string :=
  match c with
  | calculate_eigen_portfolio _ _ _ => Some "Eigen Portfolio"
  | calculate_minimum_variance_portfolio _ _ => Some "Minimum Variance Portfolio (MVP)"
  | calculate_maximum_sharpe_portfolio _ _ _ => Some "Maximum Sharpe Portfolio (MSR)"
  | calculate_genetic_algo_portfolio _ _ => Some "Genetic Algo (GA)"
  | _ => None
  end.

(** The strategy name an evaluation call of phase [ph] is labelled with. *)
Definition phase_label (ph : phase) (c : call) : option string :=
  match evaluation c with
  | Some (ph', name, _) => if phase_eqb ph ph' then Some name else None
  | None => None
  end.

(** The labels of the calls of one kind in a log, in order. *)
Definition labels (lab : call -> option string) (log : list event) : list string :=
  omap (fun ev => lab (ecall ev)) log.

(** A call of the kind [lab] comes next in [order] after the calls of that
    kind made before it. *)
Definition in_order (lab : call -> option string) (order : list string)
    (log : list event) (c : call) : Prop :=
  forall name, lab c = Some name ->
    exists rest, labels lab log ++ name :: rest = order.



(** A value a program can return, whatever the collaborators answer. *)
Fixpoint can_return {A : Type} (p : prog A) (a : A) : Prop :=
  match p with
  | Ret a' => a' = a
  | Throw _ => False
  | Call c k => exists x, can_return (k x) a
  end.

(** The bars of a weight report carry the name of a strategy that has
    returned, and their heights are that strategy's weights in ascending
    key order. *)
Definition report_shows_returned (log : list event) (c : call) : Prop :=
  match c with
  | plt_bar _ heights label _ =>
      exists weights : gmap string R,
        strategy_returned log label weights
        /\ Forall2 (fun symbol height => weights !! symbol = Some height)
                   (sorted_keys weights) heights
  | _ => True
  end.

(** The calls of [draw_plot]. *)
Definition is_figure_call (c : call) : bool :=
  match c with
  | plt_grid | plt_legend | plt_savefig _ | plt_tight_layout | plt_show => true
  | _ => false
  end.

End RunVocabularyMore.

(** * Properties *)

Section Properties.
Context {platform : Platform}.

(** ** The return estimator *)

Lemma bind_Ok {A B : Type} (a : A) (k : A -> result B) : (Ok a ≫= k) = k a.
Proof. reflexivity. Qed.

Lemma bind_Raise {A B : Type} (e : pyexn) (k : A -> result B) :
  (Raise e ≫= k) = Raise e.
Proof. reflexivity. Qed.

Section Comprehension.
Context {A B : Type}.

Lemma comprehension_Ok (f : A -> result B) (g : A -> B) (xs : list A) :
  (forall x, In x xs -> f x = Ok (g x)) ->
  comprehension f xs = Ok (map g xs).
Proof.
  induction xs as [|x xs IH]; intros Hf; cbn [comprehension map].
  - reflexivity.
  - rewrite (Hf x) by (left; reflexivity). rewrite bind_Ok.
    rewrite IH by (intros y Hy; apply Hf; right; exact Hy).
    reflexivity.
Qed.

Lemma comprehension_Raise (f : A -> result B) (xs : list A) (e : pyexn) :
  comprehension f xs = Raise e -> exists x, In x xs /\ f x = Raise e.
Proof.
  induction xs as [|x xs IH]; cbn [comprehension In]; intros H.
  - discriminate.
  - destruct (f x) as [y|e'] eqn:Hx.
    + rewrite bind_Ok in H.
      destruct (comprehension f xs) as [ys|e''] eqn:Hxs.
      * discriminate.
      * rewrite bind_Raise in H. injection H as ->.
        destruct (IH eq_refl) as (z & Hz & Hfz). exists z. split; [right|]; assumption.
    + rewrite bind_Raise in H. injection H as ->.
      exists x. split; [left; reflexivity | assumption].
Qed.

Lemma comprehension_first_Raise (f : A -> result B) (xs : list A) (x : A) (e : pyexn) :
  In x xs -> f x = Raise e -> exists e', comprehension f xs = Raise e'.
Proof.
  induction xs as [|y xs IH]; cbn [comprehension In]; intros Hin Hx.
  - contradiction.
  - destruct (f y) as [b|e'] eqn:Hy.
    + rewrite bind_Ok. destruct Hin as [->|Hin]; [congruence|].
      destruct (IH Hin Hx) as [e'' ->]. rewrite bind_Raise. eauto.
    + rewrite bind_Raise. eauto.
Qed.
End Comprehension.

Section Arithmetic.
Local Open Scope float_scope.

Lemma truediv_Ok (a b : float) : (b =? 0) = false -> truediv a b = Ok (a / b).
Proof. intros Hb. unfold truediv. rewrite Hb. reflexivity. Qed.

Lemma truediv_zero (a b : float) : (b =? 0) = true -> truediv a b = Raise ZeroDivisionError.
Proof. intros Hb. unfold truediv. rewrite Hb. reflexivity. Qed.

Lemma truediv_int_Ok (a : float) (n : Z) :
  n <> 0%Z -> truediv_int a n = Ok (a / float_of_int n).
Proof.
  intros Hn. unfold truediv_int.
  destruct (Z.eqb_spec n 0) as [Hz|_]; [contradiction | reflexivity].
Qed.

Lemma math_log_Ok (x : float) : (x <=? 0) = false -> math_log x = Ok (log_value x).
Proof.
  intros Hx. unfold math_log, log_value. rewrite Hx.
  destruct (PrimFloat.is_nan x || PrimFloat.is_infinity x); reflexivity.
Qed.

Lemma math_log_Raise (x : float) : (x <=? 0) = true -> math_log x = Raise ValueError.
Proof. intros Hx. unfold math_log. rewrite Hx. reflexivity. Qed.
End Arithmetic.

Lemma getitem_nth {A : Type} (xs : list A) (i : nat) (d : A) :
  i < length xs -> getitem xs i = Ok (nth i xs d).
Proof.
  intros Hi. unfold getitem.
  destruct (xs !! i) as [x|] eqn:Hx.
  - f_equal. symmetry. apply nth_lookup_Some with (d := d) in Hx. exact Hx.
  - apply lookup_ge_None in Hx. lia.
Qed.

Lemma in_py_range (lo hi t : nat) : In t (py_range lo hi) <-> lo <= t < hi.
Proof. unfold py_range. rewrite in_seq. lia. Qed.

Section Series.
Variable info : price_frame.

Lemma log_step_Ok (t : nat) :
  1 <= t < length (Close info) ->
  zero_divisor info t = false -> domain_error info t = false ->
  (p ← getitem (Close info) t;
   q ← getitem (Close info) (t - 1);
   r ← truediv p q;
   math_log r) = Ok (log_return info t).
Proof.
  intros Ht Hq Hr.
  rewrite (getitem_nth _ t 0%float) by lia. rewrite bind_Ok.
  rewrite (getitem_nth _ (t - 1) 0%float) by lia. rewrite bind_Ok.
  rewrite truediv_Ok by exact Hq. rewrite bind_Ok.
  apply math_log_Ok. exact Hr.
Qed.

Lemma percentage_step_Ok (t : nat) :
  1 <= t < length (Close info) ->
  zero_divisor info t = false ->
  (q ← getitem (Close info) (t - 1);
   p ← getitem (Close info) t;
   calculate_percentage_change q p) = Ok (percentage_return info t).
Proof.
  intros Ht Hq.
  rewrite (getitem_nth _ (t - 1) 0%float) by lia. rewrite bind_Ok.
  rewrite (getitem_nth _ t 0%float) by lia. rewrite bind_Ok.
  unfold calculate_percentage_change. apply truediv_Ok. exact Hq.
Qed.

Lemma weighted_step_Ok (t : nat) :
  1 <= t < length (Close info) ->
  zero_divisor info t = false ->
  (q ← getitem (Close info) (t - 1);
   p ← getitem (Close info) t;
   x ← calculate_percentage_change q p;
   truediv_int x (Z.of_nat (length (Close info)) - Z.of_nat t))
  = Ok (weighted_return info t).
Proof.
  intros Ht Hq.
  rewrite (getitem_nth _ (t - 1) 0%float) by lia. rewrite bind_Ok.
  rewrite (getitem_nth _ t 0%float) by lia. rewrite bind_Ok.
  unfold calculate_percentage_change.
  rewrite truediv_Ok by exact Hq. rewrite bind_Ok.
  apply truediv_int_Ok. lia.
Qed.

Lemma log_returns_of_Ok :
  steps_defined info -> log_returns_of (Close info) = Ok (asset_log_returns info).
Proof.
  intros Hok. unfold log_returns_of, asset_log_returns, positions.
  apply comprehension_Ok. intros t Ht. apply in_py_range in Ht.
  destruct (Hok t Ht) as [Hq Hr]. apply log_step_Ok; assumption.
Qed.

Lemma percentage_returns_of_Ok :
  steps_defined info ->
  percentage_returns_of (Close info) = Ok (asset_percentage_returns info).
Proof.
  intros Hok. unfold percentage_returns_of, asset_percentage_returns, positions.
  apply comprehension_Ok. intros t Ht. apply in_py_range in Ht.
  destruct (Hok t Ht) as [Hq Hr]. apply percentage_step_Ok; assumption.
Qed.

Lemma weighted_returns_of_Ok :
  steps_defined info ->
  weighted_returns_of (Close info)
  = Ok (map (weighted_return info) (positions info)).
Proof.
  intros Hok. unfold weighted_returns_of, positions.
  apply comprehension_Ok. intros t Ht. apply in_py_range in Ht.
  destruct (Hok t Ht) as [Hq Hr]. apply weighted_step_Ok; assumption.
Qed.

(** What a step of the first comprehension raises, and why. *)
Lemma log_step_exn (t : nat) (e : pyexn) :
  1 <= t < length (Close info) ->
  (p ← getitem (Close info) t;
   q ← getitem (Close info) (t - 1);
   r ← truediv p q;
   math_log r) = Raise e ->
  (e = ZeroDivisionError /\ zero_divisor info t = true)
  \/ (e = ValueError /\ zero_divisor info t = false /\ domain_error info t = true).
Proof.
  intros Ht.
  rewrite (getitem_nth _ t 0%float) by lia. rewrite bind_Ok.
  rewrite (getitem_nth _ (t - 1) 0%float) by lia. rewrite bind_Ok.
  fold (price info t). fold (price info (t - 1)).
  unfold truediv, zero_divisor, domain_error.
  destruct (price info (t - 1) =? 0)%float.
  - rewrite bind_Raise. intros [= <-]. auto.
  - rewrite bind_Ok. unfold math_log.
    destruct (price info t / price info (t - 1) <=? 0)%float.
    + intros [= <-]. auto.
    + destruct (PrimFloat.is_nan _ || PrimFloat.is_infinity _); discriminate.
Qed.

(** The first comprehension already meets every undefined step. *)
Lemma log_step_Raise (t : nat) :
  1 <= t < length (Close info) ->
  zero_divisor info t = true \/ domain_error info t = true ->
  (p ← getitem (Close info) t;
   q ← getitem (Close info) (t - 1);
   r ← truediv p q;
   math_log r) = Raise ZeroDivisionError
  \/
  (p ← getitem (Close info) t;
   q ← getitem (Close info) (t - 1);
   r ← truediv p q;
   math_log r) = Raise ValueError.
Proof.
  intros Ht Hbad.
  rewrite (getitem_nth _ t 0%float) by lia. rewrite bind_Ok.
  rewrite (getitem_nth _ (t - 1) 0%float) by lia. rewrite bind_Ok.
  fold (price info t). fold (price info (t - 1)).
  unfold zero_divisor, domain_error in Hbad.
  destruct (price info (t - 1) =? 0)%float eqn:Hz.
  - left. rewrite truediv_zero by exact Hz. reflexivity.
  - right. destruct Hbad as [Hz'|Hr]; [discriminate |].
    rewrite truediv_Ok by exact Hz. rewrite bind_Ok.
    apply math_log_Raise. exact Hr.
Qed.
End Series.

(** A series with an undefined step makes the first comprehension raise. *)
Lemma log_returns_of_Raise (info : price_frame) :
  step_undefined info ->
  log_returns_of (Close info) = Raise ZeroDivisionError
  \/ log_returns_of (Close info) = Raise ValueError.
Proof.
  intros (t & Ht & Hbad). unfold log_returns_of.
  set (f := fun i : nat => _).
  assert (Hraise : exists e, f t = Raise e).
  { destruct (log_step_Raise info t Ht Hbad) as [H|H]; eauto. }
  destruct Hraise as [e0 He0].
  destruct (comprehension_first_Raise f (py_range 1 (length (Close info))) t e0)
    as [e He]; [apply in_py_range; exact Ht | exact He0 |].
  destruct (comprehension_Raise _ _ _ He) as (u & Hu & Hfu).
  apply in_py_range in Hu.
  destruct (log_step_exn info u e Hu Hfu) as [[-> _] | [-> _]]; rewrite He; auto.
Qed.

Lemma steps_defined_or_undefined (info : price_frame) :
  steps_defined info \/ step_undefined info.
Proof.
  unfold steps_defined, step_undefined.
  assert (Hgen : forall n,
    (forall t, 1 <= t < n -> zero_divisor info t = false /\ domain_error info t = false)
    \/ (exists t, 1 <= t < n /\
          (zero_divisor info t = true \/ domain_error info t = true))).
  { induction n as [|n [IH|IH]].
    - left. intros t Ht. lia.
    - destruct (Nat.eq_dec n 0) as [->|Hn].
      { left. intros t Ht. lia. }
      destruct (zero_divisor info n) eqn:Hz.
      { right. exists n. split; [lia | left; exact Hz]. }
      destruct (domain_error info n) eqn:Hd.
      { right. exists n. split; [lia | right; exact Hd]. }
      left. intros t Ht. destruct (Nat.eq_dec t n) as [->|Hne].
      + split; assumption.
      + apply IH. lia.
    - right. destruct IH as (t & Ht & Hbad). exists t. split; [lia | exact Hbad]. }
  apply Hgen.
Qed.

Lemma steps_defined_not_undefined (info : price_frame) :
  steps_defined info -> step_undefined info -> False.
Proof.
  intros Hok (t & Ht & Hbad). destruct (Hok t Ht) as [Hq Hr].
  destruct Hbad; congruence.
Qed.

Lemma steps_defined_b_spec (info : price_frame) :
  steps_defined_b info = true -> steps_defined info.
Proof.
  unfold steps_defined_b. rewrite forallb_forall. intros Hall t Ht.
  specialize (Hall t ltac:(apply in_py_range; exact Ht)).
  apply andb_prop in Hall as [Hz Hd].
  apply negb_true_iff in Hz. apply negb_true_iff in Hd. auto.
Qed.

Lemma Forall_or_Exists_steps (infos : list price_frame) :
  Forall steps_defined infos \/ Exists step_undefined infos.
Proof.
  induction infos as [|info infos [IH|IH]].
  - left. constructor.
  - destruct (steps_defined_or_undefined info) as [Hok|Hbad].
    + left. constructor; assumption.
    + right. apply List.Exists_cons_hd. exact Hbad.
  - right. apply List.Exists_cons_tl. exact IH.
Qed.

(** One iteration of the loop on a series whose steps are all defined. *)
Lemma create_returns_body_Ok (acc : returns_acc) (info : price_frame) :
  steps_defined info ->
  create_returns_body acc info
  = Ok (acc.1.1 ++ [asset_expected_return info],
        acc.1.2 ++ [asset_log_returns info],
        acc.2 ++ [asset_percentage_returns info]).
Proof.
  intros Hok. destruct acc as [[er lr] pr]. unfold create_returns_body.
  rewrite log_returns_of_Ok by exact Hok. rewrite bind_Ok.
  rewrite percentage_returns_of_Ok by exact Hok. rewrite bind_Ok.
  rewrite weighted_returns_of_Ok by exact Hok. rewrite bind_Ok.
  reflexivity.
Qed.

Lemma create_returns_body_Raise (acc : returns_acc) (info : price_frame) :
  step_undefined info ->
  create_returns_body acc info = Raise ZeroDivisionError
  \/ create_returns_body acc info = Raise ValueError.
Proof.
  intros Hbad. destruct acc as [[er lr] pr]. unfold create_returns_body.
  destruct (log_returns_of_Raise info Hbad) as [-> | ->]; auto.
Qed.

Lemma create_returns_loop_Ok (infos : list price_frame) (acc : returns_acc) :
  Forall steps_defined infos ->
  create_returns_loop acc infos
  = Ok (acc.1.1 ++ map asset_expected_return infos,
        acc.1.2 ++ map asset_log_returns infos,
        acc.2 ++ map asset_percentage_returns infos).
Proof.
  intros Hall. revert acc.
  induction Hall as [|info infos Hinfo Hall IH]; intros [[er lr] pr]; cbn [create_returns_loop map].
  - rewrite !app_nil_r. reflexivity.
  - rewrite create_returns_body_Ok by exact Hinfo. rewrite bind_Ok.
    rewrite IH. cbn [fst snd]. rewrite <- !app_assoc. reflexivity.
Qed.

Lemma create_returns_loop_Raise (infos : list price_frame) (acc : returns_acc) :
  Exists step_undefined infos ->
  create_returns_loop acc infos = Raise ZeroDivisionError
  \/ create_returns_loop acc infos = Raise ValueError.
Proof.
  revert acc. induction infos as [|info infos IH]; intros acc Hex.
  - inversion Hex.
  - cbn [create_returns_loop].
    destruct (steps_defined_or_undefined info) as [Hok|Hbad].
    + rewrite create_returns_body_Ok by exact Hok. rewrite bind_Ok.
      apply IH. inversion Hex; subst; [|assumption].
      exfalso. eapply steps_defined_not_undefined; eassumption.
    + destruct (create_returns_body_Raise acc info Hbad) as [-> | ->]; auto.
Qed.

Lemma lookup_map {A B : Type} (f : A -> B) (xs : list A) (i : nat) :
  map f xs !! i = f <$> xs !! i.
Proof.
  revert i. induction xs as [|x xs IH]; intros [|i]; cbn; try reflexivity.
  apply IH.
Qed.

Lemma lookup_map_Some {A B : Type} (f : A -> B) (xs : list A) (i : nat) (x : A) :
  xs !! i = Some x -> map f xs !! i = Some (f x).
Proof. intros Hx. rewrite lookup_map, Hx. reflexivity. Qed.

Lemma positions_length (info : price_frame) :
  length (positions info) = length (Close info) - 1.
Proof. unfold positions, py_range. apply length_seq. Qed.

Lemma positions_lookup (info : price_frame) (t : nat) :
  1 <= t <= length (Close info) - 1 -> positions info !! (t - 1) = Some t.
Proof.
  intros Ht. unfold positions, py_range.
  rewrite lookup_seq_lt by lia. f_equal. lia.
Qed.

Lemma asset_log_returns_length (info : price_frame) :
  length (asset_log_returns info) = length (Close info) - 1.
Proof. unfold asset_log_returns. rewrite length_map. apply positions_length. Qed.

Lemma asset_percentage_returns_length (info : price_frame) :
  length (asset_percentage_returns info) = length (Close info) - 1.
Proof. unfold asset_percentage_returns. rewrite length_map. apply positions_length. Qed.

(** ** The conversion to arrays *)

Lemma np_array_same_lengths (rows : list (list float)) :
  same_lengths rows -> np_array rows = Ok rows.
Proof.
  intros Hsame. destruct rows as [|row rest]; [reflexivity |]. cbn [np_array].
  assert (Hall : forallb (fun row' => Nat.eqb (length row') (length row)) rest = true).
  { apply forallb_forall. intros row' Hin. apply Nat.eqb_eq.
    apply Hsame; [right; exact Hin | left; reflexivity]. }
  rewrite Hall. reflexivity.
Qed.

Lemma np_array_cases (rows : list (list float)) :
  (same_lengths rows /\ np_array rows = Ok rows)
  \/ (~ same_lengths rows /\ np_array rows = Raise ValueError).
Proof.
  destruct rows as [|row rest].
  - left. split; [intros ? ? [] | reflexivity].
  - cbn [np_array].
    destruct (forallb (fun row' => Nat.eqb (length row') (length row)) rest) eqn:Hall.
    + left. split; [| reflexivity]. rewrite forallb_forall in Hall.
      assert (Hlen : forall r, In r (row :: rest) -> length r = length row).
      { intros r [<-|Hin]; [reflexivity | apply Nat.eqb_eq, Hall, Hin]. }
      intros r r' Hr Hr'. rewrite (Hlen r Hr), (Hlen r' Hr'). reflexivity.
    + right. split; [| reflexivity]. intros Hsame.
      assert (Htrue : forallb (fun row' => Nat.eqb (length row') (length row)) rest = true).
      { apply forallb_forall. intros row' Hin. apply Nat.eqb_eq.
        apply Hsame; [right; exact Hin | left; reflexivity]. }
      congruence.
Qed.

Lemma same_lengths_map {A : Type} (f : price_frame -> list A) (infos : list price_frame) :
  (forall info, length (f info) = length (Close info) - 1) ->
  same_lengths (map f infos) <-> rows_fit infos.
Proof.
  intros Hlen. unfold same_lengths, rows_fit. split.
  - intros Hsame info info' Hin Hin'. rewrite <- !Hlen.
    apply Hsame; apply in_map; assumption.
  - intros Hfit row row' Hrow Hrow'.
    apply in_map_iff in Hrow as (info & <- & Hin).
    apply in_map_iff in Hrow' as (info' & <- & Hin').
    rewrite !Hlen. apply Hfit; assumption.
Qed.

Lemma rows_fit_common_length (infos : list price_frame) (L : nat) :
  Forall (fun info => length (Close info) = L) infos -> rows_fit infos.
Proof.
  rewrite List.Forall_forall. intros Hall info info' Hin Hin'.
  rewrite (Hall info Hin), (Hall info' Hin'). reflexivity.
Qed.

(** ** The outcome of [create_returns] *)

(** [create_returns] on data all of whose steps are defined and whose rows
    fit one array. *)
Lemma create_returns_Ok (infos : list price_frame) :
  Forall steps_defined infos ->
  rows_fit infos ->
  create_returns infos
  = Ok (map asset_expected_return infos,
        map asset_log_returns infos,
        map asset_percentage_returns infos).
Proof.
  intros Hall Hfit. unfold create_returns.
  rewrite create_returns_loop_Ok by exact Hall. rewrite bind_Ok. cbn [fst snd app].
  rewrite (np_array_same_lengths (map asset_log_returns infos))
    by (apply same_lengths_map; [apply asset_log_returns_length | exact Hfit]).
  rewrite bind_Ok.
  rewrite (np_array_same_lengths (map asset_percentage_returns infos))
    by (apply same_lengths_map; [apply asset_percentage_returns_length | exact Hfit]).
  reflexivity.
Qed.

Lemma create_returns_ragged (infos : list price_frame) :
  Forall steps_defined infos ->
  ~ rows_fit infos ->
  create_returns infos = Raise ValueError.
Proof.
  intros Hall Hfit. unfold create_returns.
  rewrite create_returns_loop_Ok by exact Hall. rewrite bind_Ok. cbn [fst snd app].
  destruct (np_array_cases (map asset_log_returns infos)) as [[Hsame _] | [_ ->]];
    [| reflexivity].
  exfalso. apply Hfit. apply (same_lengths_map asset_log_returns); [| exact Hsame].
  apply asset_log_returns_length.
Qed.

Lemma create_returns_undefined (infos : list price_frame) :
  Exists step_undefined infos ->
  create_returns infos = Raise ZeroDivisionError
  \/ create_returns infos = Raise ValueError.
Proof.
  intros Hbad. unfold create_returns.
  destruct (create_returns_loop_Raise infos ([], [], []) Hbad) as [-> | ->]; auto.
Qed.

(** The three ways [create_returns] can end. *)
Lemma create_returns_cases (infos : list price_frame) :
  (Forall steps_defined infos /\ rows_fit infos
   /\ create_returns infos
      = Ok (map asset_expected_return infos, map asset_log_returns infos,
            map asset_percentage_returns infos))
  \/ (Forall steps_defined infos /\ ~ rows_fit infos
      /\ create_returns infos = Raise ValueError)
  \/ (Exists step_undefined infos
      /\ (create_returns infos = Raise ZeroDivisionError
          \/ create_returns infos = Raise ValueError)).
Proof.
  destruct (Forall_or_Exists_steps infos) as [Hok|Hbad].
  - destruct (np_array_cases (map asset_log_returns infos)) as [[Hsame _] | [Hdiff _]].
    + left. assert (Hfit : rows_fit infos).
      { apply (same_lengths_map asset_log_returns); [| exact Hsame].
        apply asset_log_returns_length. }
      split; [exact Hok |]. split; [exact Hfit | apply create_returns_Ok; assumption].
    + right. left. assert (Hfit : ~ rows_fit infos).
      { intros Hfit. apply Hdiff.
        apply (same_lengths_map asset_log_returns); [| exact Hfit].
        apply asset_log_returns_length. }
      split; [exact Hok |]. split; [exact Hfit | apply create_returns_ragged; assumption].
  - right. right. split; [exact Hbad | apply create_returns_undefined, Hbad].
Qed.

Lemma create_returns_Ok_inv (infos : list price_frame) (r : returns_acc) :
  create_returns infos = Ok r ->
  Forall steps_defined infos /\ rows_fit infos
  /\ r = (map asset_expected_return infos, map asset_log_returns infos,
          map asset_percentage_returns infos).
Proof.
  intros Hr.
  destruct (create_returns_cases infos)
    as [(Hok & Hfit & Heq) | [(_ & _ & Heq) | (_ & [Heq|Heq])]]; try congruence.
  split; [exact Hok |]. split; [exact Hfit | congruence].
Qed.

Lemma create_returns_Raise_inv (infos : list price_frame) (e : pyexn) :
  create_returns infos = Raise e -> e = ZeroDivisionError \/ e = ValueError.
Proof.
  intros Hr.
  destruct (create_returns_cases infos)
    as [(_ & _ & Heq) | [(_ & _ & Heq) | (_ & [Heq|Heq])]];
    rewrite Hr in Heq; try discriminate Heq; injection Heq as ->; auto.
Qed.

Lemma Forall_lookup_steps (infos : list price_frame) (i : nat) (info : price_frame) :
  Forall steps_defined infos -> infos !! i = Some info -> steps_defined info.
Proof. intros Hall Hi. rewrite Forall_lookup in Hall. apply (Hall i info Hi). Qed.

Lemma asset_expected_return_spec (info : price_frame) :
  asset_expected_return info
  = recency_weighted_mean (price info) (length (Close info)).
Proof.
  unfold asset_expected_return, recency_weighted_mean. reflexivity.
Qed.

(** C1, as the code has it.  For price series that all have [L >= 2]
    prices and in which every step is defined (no price but the last is
    zero, and no binary64 quotient [price[t] / price[t-1]] is zero or
    negative), [create_returns] returns; the log-return matrix and the
    percentage-return matrix have one row per series and [L - 1] columns;
    column [t - 1] holds what [math.log] returns for
    [price[t] / price[t-1]], respectively
    [(price[t] - price[t-1]) * 100 / price[t-1]], for [t = 1..L-1]. *)
Theorem create_returns_matrices (historical_price_info : list price_frame) (L : nat) :
  2 <= L ->
  Forall (fun info => length (Close info) = L) historical_price_info ->
  Forall steps_defined historical_price_info ->
  exists predicted log_matrix percentage_matrix,
    create_returns historical_price_info = Ok (predicted, log_matrix, percentage_matrix)
    /\ length log_matrix = length historical_price_info
    /\ length percentage_matrix = length historical_price_info
    /\ forall i info, historical_price_info !! i = Some info ->
         exists log_row percentage_row,
           log_matrix !! i = Some log_row
           /\ percentage_matrix !! i = Some percentage_row
           /\ length log_row = L - 1
           /\ length percentage_row = L - 1
           /\ forall t, 1 <= t <= L - 1 ->
                (exists x, math_log (price info t / price info (t - 1)) = Ok x
                           /\ log_row !! (t - 1) = Some x)
                /\ percentage_row !! (t - 1)
                   = Some ((price info t - price info (t - 1)) * 100
                           / price info (t - 1))%float.
Proof.
  intros HL Hlen Hok.
  exists (map asset_expected_return historical_price_info),
         (map asset_log_returns historical_price_info),
         (map asset_percentage_returns historical_price_info).
  split; [apply create_returns_Ok; [exact Hok | apply (rows_fit_common_length _ L), Hlen] |].
  split; [apply length_map |]. split; [apply length_map |].
  intros i info Hi.
  exists (asset_log_returns info), (asset_percentage_returns info).
  assert (HlenL : length (Close info) = L).
  { rewrite Forall_lookup in Hlen. apply (Hlen i info Hi). }
  split; [apply lookup_map_Some, Hi |].
  split; [apply lookup_map_Some, Hi |].
  rewrite asset_log_returns_length, asset_percentage_returns_length, HlenL.
  split; [reflexivity |]. split; [reflexivity |].
  intros t Ht.
  assert (Hpos : positions info !! (t - 1) = Some t)
    by (apply positions_lookup; rewrite HlenL; exact Ht).
  unfold asset_log_returns, asset_percentage_returns.
  rewrite !(lookup_map_Some _ _ _ _ Hpos).
  split; [| reflexivity].
  exists (log_return info t). split; [| reflexivity].
  apply math_log_Ok.
  destruct (Forall_lookup_steps _ _ _ Hok Hi t ltac:(lia)) as [_ Hd]. exact Hd.
Qed.

(** C2, as the code has it.  For price series that all have [L >= 2]
    prices and in which every step is defined, the expected return
    [create_returns] yields for each asset is [np.mean] of the [L - 1]
    numbers [((price[t] - price[t-1]) * 100 / price[t-1]) / (L - t)],
    [t = 1..L-1], computed in binary64. *)
Theorem create_returns_expected_return (historical_price_info : list price_frame) (L : nat) :
  2 <= L ->
  Forall (fun info => length (Close info) = L) historical_price_info ->
  Forall steps_defined historical_price_info ->
  exists predicted log_matrix percentage_matrix,
    create_returns historical_price_info = Ok (predicted, log_matrix, percentage_matrix)
    /\ length predicted = length historical_price_info
    /\ forall i info, historical_price_info !! i = Some info ->
         predicted !! i = Some (recency_weighted_mean (price info) L).
Proof.
  intros HL Hlen Hok.
  exists (map asset_expected_return historical_price_info),
         (map asset_log_returns historical_price_info),
         (map asset_percentage_returns historical_price_info).
  split; [apply create_returns_Ok; [exact Hok | apply (rows_fit_common_length _ L), Hlen] |].
  split; [apply length_map |].
  intros i info Hi.
  assert (HlenL : length (Close info) = L).
  { rewrite Forall_lookup in Hlen. apply (Hlen i info Hi). }
  rewrite (lookup_map_Some _ _ _ _ Hi).
  rewrite asset_expected_return_spec, HlenL. reflexivity.
Qed.

(** ** Inputs outside the precondition *)

Section ZeroPrices.
Local Open Scope float_scope.

(** IEEE 754: zero divided by anything but zero and [nan] is a zero. *)
Lemma zero_quotient (p q : float) :
  (p =? 0) = true -> PrimFloat.is_nan q = false -> (q =? 0) = false ->
  (p / q <=? 0) = true.
Proof.
  unfold PrimFloat.is_nan. intros Hp Hnan Hq. apply negb_false_iff in Hnan.
  rewrite FloatAxioms.leb_spec, FloatAxioms.div_spec.
  rewrite FloatAxioms.eqb_spec in Hp, Hnan, Hq.
  change (Prim2SF 0) with (S754_zero false) in *.
  destruct (Prim2SF p) as [sp| [|]| |[|] mp ep]; cbn in Hp; try discriminate Hp.
  destruct (Prim2SF q) as [sq| [|]| |[|] mq eq]; cbn in Hq, Hnan;
    try discriminate Hq; try discriminate Hnan; destruct sp; reflexivity.
Qed.
End ZeroPrices.

(** IEEE 754: numbers of opposite sign, not both infinite, have a negative
    or zero quotient. *)
Section Signs.
Local Open Scope Z_scope.

Lemma shr_1_nonneg (mrs : shr_record) : 0 <= shr_m mrs -> 0 <= shr_m (shr_1 mrs).
Proof.
  destruct mrs as [m r s]. cbn [shr_m shr_1].
  destruct m as [|[p|p|]|[p|p|]]; cbn; lia.
Qed.

Lemma iter_pos_shr_1_nonneg (n : positive) (mrs : shr_record) :
  0 <= shr_m mrs -> 0 <= shr_m (SpecFloat.iter_pos shr_1 n mrs).
Proof.
  revert mrs. induction n as [n IH|n IH|]; intros mrs Hm; cbn [SpecFloat.iter_pos].
  - apply IH, IH, shr_1_nonneg, Hm.
  - apply IH, IH, Hm.
  - apply shr_1_nonneg, Hm.
Qed.

Lemma shr_fexp_nonneg (m e : Z) (l : location) :
  0 <= m -> 0 <= shr_m (shr_fexp prec emax m e l).1.
Proof.
  intros Hm. unfold shr_fexp, shr.
  assert (H0 : 0 <= shr_m (shr_record_of_loc m l)) by (destruct l as [|[]]; exact Hm).
  destruct (fexp prec emax (Zdigits2 m + e) - e); cbn [fst]; try exact H0.
  apply iter_pos_shr_1_nonneg, H0.
Qed.

Lemma round_nearest_even_nonneg (m : Z) (l : location) :
  0 <= m -> 0 <= round_nearest_even m l.
Proof.
  intros Hm. destruct l as [|[]]; cbn; try lia. destruct (Z.even m); lia.
Qed.

(** Rounding a non-negative mantissa keeps the sign. *)
Lemma binary_round_aux_sign (s : bool) (m e : Z) (l : location) :
  0 <= m ->
  SFleb (binary_round_aux prec emax s m e l) (S754_zero false) = s
  \/ binary_round_aux prec emax s m e l = S754_zero s.
Proof.
  intros Hm. unfold binary_round_aux.
  pose proof (shr_fexp_nonneg m e l Hm) as H1.
  destruct (shr_fexp prec emax m e l) as [mrs' e']. cbn [fst] in H1.
  pose proof (shr_fexp_nonneg _ e' loc_Exact
                (round_nearest_even_nonneg _ (loc_of_shr_record mrs') H1)) as H2.
  destruct (shr_fexp prec emax _ e' loc_Exact) as [mrs'' e'']. cbn [fst] in H2.
  destruct (shr_m mrs'') as [|p|p]; [right; reflexivity | left | lia].
  destruct (e'' <=? emax - prec); destruct s; reflexivity.
Qed.

Lemma SFdiv_core_binary_nonneg (mx my : positive) (ex ey : Z) :
  0 <= (SFdiv_core_binary prec emax (Zpos mx) ex (Zpos my) ey).1.1.
Proof.
  unfold SFdiv_core_binary.
  set (e' := Z.min _ _). set (s := ex - ey - e').
  set (m' := match s with Z.pos _ => Z.shiftl (Z.pos mx) s | 0 => Z.pos mx | _ => 0 end).
  assert (Hm' : 0 <= m').
  { subst m'. destruct s; try lia. apply Z.shiftl_nonneg. lia. }
  pose proof (Z_div_mod m' (Z.pos my) ltac:(lia)) as Hdiv.
  destruct (Z.div_eucl m' (Z.pos my)) as [q r]. cbn [fst].
  destruct Hdiv as [Heq Hr]. nia.
Qed.
End Signs.

Section Quotients.
Local Open Scope float_scope.

Lemma opposite_sign_quotient (p q : float) :
  opposite_signs p q ->
  PrimFloat.is_infinity p = false \/ PrimFloat.is_infinity q = false ->
  (p / q <=? 0) = true.
Proof.
  unfold PrimFloat.is_infinity, opposite_signs.
  rewrite FloatAxioms.leb_spec, FloatAxioms.div_spec, !FloatAxioms.ltb_spec,
    !FloatAxioms.eqb_spec, !FloatAxioms.abs_spec.
  change (Prim2SF 0) with (S754_zero false).
  change (Prim2SF infinity) with (S754_infinity false).
  intros Hsign Hfin.
  destruct (Prim2SF p) as [sp|[|]| |[|] mp ep], (Prim2SF q) as [sq|[|]| |[|] mq eq];
    cbn in Hsign, Hfin; try (destruct Hsign as [[? ?]|[? ?]]; discriminate);
    try (destruct Hfin; discriminate); try reflexivity.
  all: unfold SF64div, SFdiv.
  all: match goal with
       | |- context [SFdiv_core_binary _ _ (Zpos ?mx) ?ex (Zpos ?my) ?ey] =>
           pose proof (SFdiv_core_binary_nonneg mx my ex ey) as Hq;
           destruct (SFdiv_core_binary prec emax (Zpos mx) ex (Zpos my) ey) as [[mz ez] lz];
           cbn [fst] in Hq;
           destruct (binary_round_aux_sign (xorb true false) mz ez lz Hq) as [H| H]
       end.
  all: cbn [xorb] in *; try (rewrite H; reflexivity); try exact H.
Qed.
End Quotients.

(** The step [t-1 -> t] is undefined when its earlier price is zero, when
    its later price is zero and the earlier one is a number, when the two
    prices have opposite signs and are not both infinite, and when the
    quotient is zero or negative. *)
Lemma bad_price_step_undefined (info : price_frame) (t : nat) :
  1 <= t < length (Close info) ->
  (price info (t - 1) =? 0)%float = true
  \/ ((price info t =? 0)%float = true
      /\ PrimFloat.is_nan (price info (t - 1)) = false)
  \/ (opposite_signs (price info t) (price info (t - 1))
      /\ (PrimFloat.is_infinity (price info t) = false
          \/ PrimFloat.is_infinity (price info (t - 1)) = false))
  \/ (price info t / price info (t - 1) <=? 0)%float = true ->
  step_undefined info.
Proof.
  intros Ht Hbad. exists t. split; [exact Ht |].
  unfold zero_divisor, domain_error.
  destruct Hbad as [Hz | [[Hz Hnan] | [[Hsign Hfin] | Hq]]];
    [left; exact Hz | | right | right; exact Hq].
  - destruct (price info (t - 1) =? 0)%float eqn:Hq; [left; reflexivity | right].
    apply zero_quotient; assumption.
  - apply opposite_sign_quotient; assumption.
Qed.

(** C3, as the code has it.  A series in which a closing price other than
    the last is zero, or the last is zero and the price before it is not
    [nan], or two consecutive prices have opposite signs and are not both
    infinite, or the binary64 quotient of two consecutive prices is zero
    or negative, makes [create_returns] raise Python's own
    [ZeroDivisionError] or [ValueError]; being an exception, it comes
    instead of any return value. *)
Theorem create_returns_undefined_price_raises
    (historical_price_info : list price_frame) (info : price_frame) (t : nat) :
  In info historical_price_info ->
  1 <= t < length (Close info) ->
  (price info (t - 1) =? 0)%float = true
  \/ ((price info t =? 0)%float = true
      /\ PrimFloat.is_nan (price info (t - 1)) = false)
  \/ (opposite_signs (price info t) (price info (t - 1))
      /\ (PrimFloat.is_infinity (price info t) = false
          \/ PrimFloat.is_infinity (price info (t - 1)) = false))
  \/ (price info t / price info (t - 1) <=? 0)%float = true ->
  create_returns historical_price_info = Raise ZeroDivisionError
  \/ create_returns historical_price_info = Raise ValueError.
Proof.
  intros Hin Ht Hbad.
  apply create_returns_undefined. apply List.Exists_exists.
  exists info. split; [exact Hin |].
  apply (bad_price_step_undefined info t); assumption.
Qed.

(** C4, as the code has it.  Series that all have the same number [L < 2]
    of observations raise nothing: [create_returns] returns two matrices
    whose rows are empty and an expected return of [nan] per asset. *)
Theorem create_returns_short_history
    (historical_price_info : list price_frame) (L : nat) :
  L < 2 ->
  Forall (fun info => length (Close info) = L) historical_price_info ->
  create_returns historical_price_info
  = Ok (map (fun _ => nan) historical_price_info,
        map (fun _ => []) historical_price_info,
        map (fun _ => []) historical_price_info).
Proof.
  intros HL Hlen.
  assert (Hpos : forall info, In info historical_price_info -> positions info = []).
  { intros info Hin. rewrite List.Forall_forall in Hlen.
    unfold positions, py_range. rewrite (Hlen info Hin).
    replace (L - 1) with 0 by lia. reflexivity. }
  rewrite create_returns_Ok.
  - assert (He : map asset_expected_return historical_price_info
                 = map (fun _ => nan) historical_price_info).
    { apply map_ext_in. intros info Hin. unfold asset_expected_return.
      rewrite (Hpos info Hin). reflexivity. }
    assert (Hl : map asset_log_returns historical_price_info
                 = map (fun _ => []) historical_price_info).
    { apply map_ext_in. intros info Hin. unfold asset_log_returns.
      rewrite (Hpos info Hin). reflexivity. }
    assert (Hp : map asset_percentage_returns historical_price_info
                 = map (fun _ => []) historical_price_info).
    { apply map_ext_in. intros info Hin. unfold asset_percentage_returns.
      rewrite (Hpos info Hin). reflexivity. }
    rewrite He, Hl, Hp. reflexivity.
  - apply List.Forall_forall. intros info Hin t Ht.
    rewrite List.Forall_forall in Hlen. rewrite (Hlen info Hin) in Ht. lia.
  - apply (rows_fit_common_length _ L), Hlen.
Qed.

(** ** Asset order *)








(** ** The argument checker *)

Lemma granularity_constraints_list_string_value :
  granularity_constraints_list_string = "1,5,10,15,30,60,3600".
Proof. reflexivity. Qed.

Lemma int_in_In (x : Z) (xs : list Z) : int_in x xs = true <-> In x xs.
Proof.
  unfold int_in. rewrite existsb_exists. split.
  - intros (y & Hy & Heq). apply Z.eqb_eq in Heq. subst y. exact Hy.
  - intros Hin. exists x. split; [exact Hin | apply Z.eqb_refl].
Qed.

Lemma granularity_message_distinct :
  granularity_message <> future_bars_message
  /\ granularity_message <> history_message.
Proof. split; vm_compute; discriminate. Qed.

(** C10. [check_arguments] ends in the assertion failure of the granularity
    check exactly when [data_granularity_minutes] is none of 1, 5, 10, 15,
    30, 60, 3600; with one of these seven values that check is passed. *)
Theorem check_arguments_granularity (args : arguments) :
  check_arguments args = Raise (AssertionError granularity_message)
  <-> ~ In (data_granularity_minutes args) [1; 5; 10; 15; 30; 60; 3600]%Z.
Proof.
  destruct granularity_message_distinct as [Hfb Hhist].
  unfold check_arguments.
  change [1; 5; 10; 15; 30; 60; 3600]%Z with granularity_constraints_list.
  rewrite <- int_in_In.
  destruct (int_in (data_granularity_minutes args) granularity_constraints_list);
    cbn [negb py_assert].
  - rewrite bind_Ok. split; [| intros H; exfalso; apply H; reflexivity].
    intros H. exfalso.
    destruct ((is_test args =? 1)%Z && (future_bars args <? 2)%Z);
      cbn [negb py_assert] in H.
    + rewrite bind_Raise in H. congruence.
    + rewrite bind_Ok in H.
      destruct (negb (String.eqb (history_to_use args) "all")).
      * destruct (history_to_use_int args) as [v|]; cbn [getattr] in H.
        -- rewrite !bind_Ok in H.
           destruct (v <? future_bars args)%Z; cbn [negb py_assert] in H.
           ++ congruence.
           ++ discriminate.
        -- rewrite !bind_Raise in H. discriminate.
      * rewrite bind_Ok in H. cbn [negb py_assert] in H. discriminate.
  - rewrite bind_Raise. split; [intros _ H; discriminate | reflexivity].
Qed.

(** ** Running programs *)

Lemma exec_bind {A B : Type} (w : world) (p : prog A) (k : A -> prog B)
    (log : list event) :
  exec w (p ≫= k) log
  = match exec w p log with
    | (log', Ok a) => exec w (k a) log'
    | (log', Raise e) => (log', Raise e)
    end.
Proof.
  revert log. induction p as [a|e|c k' IH]; intros log.
  - reflexivity.
  - reflexivity.
  - cbn [mbind prog_mbind prog_bind exec]. destruct (w c log) as [x|e].
    + apply IH.
    + reflexivity.
Qed.

Lemma exists_last' {A : Type} (l : list A) : l = [] \/ exists l' a, l = l' ++ [a].
Proof.
  destruct l as [|x l]; [left; reflexivity | right].
  destruct (exists_last (l := x :: l)) as (l' & a & ->); [discriminate | eauto].
Qed.

Lemma each_call_nil (Phi : list event -> call -> Prop) : each_call Phi [].
Proof. intros pre ev post H. destruct pre; discriminate. Qed.

Lemma each_call_snoc (Phi : list event -> call -> Prop) (log : list event) (ev : event) :
  each_call Phi log -> Phi log (ecall ev) -> each_call Phi (log ++ [ev]).
Proof.
  intros Hlog Hev pre ev' post Heq.
  destruct (exists_last' post) as [-> | (post' & last & ->)].
  - apply app_inj_tail in Heq as [<- <-]. exact Hev.
  - change (pre ++ ev' :: post' ++ [last]) with (pre ++ (ev' :: post') ++ [last]) in Heq.
    rewrite app_assoc in Heq. apply app_inj_tail in Heq as [-> _].
    apply (Hlog pre ev' post'). reflexivity.
Qed.

Lemma sat_sound {A : Type} (Phi : list event -> call -> Prop) (w : world)
    (p : prog A) (log : list event) :
  sat Phi p log -> each_call Phi log -> each_call Phi (exec w p log).1.
Proof.
  revert log. induction p as [a|e|c k IH]; intros log Hsat Hlog; cbn [exec].
  - exact Hlog.
  - exact Hlog.
  - destruct Hsat as [Hc Hk]. destruct (w c log) as [x|e].
    + apply IH; [apply Hk | apply each_call_snoc; assumption].
    + apply each_call_snoc; assumption.
Qed.

Lemma sat_bind {A B : Type} (Phi : list event -> call -> Prop)
    (p : prog A) (k : A -> prog B) (log : list event) :
  sat Phi p log ->
  (forall a ext, sat Phi (k a) (log ++ ext)) ->
  sat Phi (p ≫= k) log.
Proof.
  revert log. induction p as [a|e|c k' IH]; intros log Hp Hk.
  - specialize (Hk a []). rewrite app_nil_r in Hk. exact Hk.
  - exact I.
  - destruct Hp as [Hc Hk']. split; [exact Hc |].
    intros x. apply IH; [apply Hk' |].
    intros a ext. rewrite <- app_assoc. apply Hk.
Qed.

Lemma sat_only_calls {A : Type} (Phi : list event -> call -> Prop)
    (P : call -> bool) (p : prog A) (log : list event) :
  (forall log' c, P c = true -> Phi log' c) ->
  only_calls P p -> sat Phi p log.
Proof.
  intros HP. revert log. induction p as [a|e|c k IH]; intros log Hp.
  - exact I.
  - exact I.
  - destruct Hp as [Hc Hk]. split; [apply HP, Hc | intros x; apply IH, Hk].
Qed.

Lemma only_calls_bind {A B : Type} (P : call -> bool) (p : prog A) (k : A -> prog B) :
  only_calls P p -> (forall a, only_calls P (k a)) -> only_calls P (p ≫= k).
Proof.
  induction p as [a|e|c k' IH]; intros Hp Hk.
  - apply Hk.
  - exact I.
  - destruct Hp as [Hc Hk']. split; [exact Hc | intros x; apply IH; [apply Hk' | exact Hk]].
Qed.

Lemma only_calls_lift {A : Type} (P : call -> bool) (r : result A) :
  only_calls P (lift r).
Proof. destruct r; exact I. Qed.


(** ** The presentation methods call nothing but the console and the plot *)

Lemma draw_plot_presentation (self : Eiten) (filename : string) :
  only_calls is_presentation (draw_plot self filename).
Proof.
  unfold draw_plot. cbn [mbind prog_mbind prog_bind perform only_calls is_presentation].
  split; [reflexivity | intros _]. split; [reflexivity | intros _].
  destruct (SAVE_PLOT self); cbn; repeat split.
Qed.

Lemma print_weights_loop_presentation (weights : weight_mapping)
    (symbols : list string) (acc : list R) :
  only_calls is_presentation (print_weights_loop weights symbols acc).
Proof.
  revert acc. induction symbols as [|symbol rest IH]; intros acc; cbn [print_weights_loop].
  - exact I.
  - destruct (dict_getitem weights symbol) as [x|e]; cbn; [| exact I].
    split; [reflexivity | intros _]. apply IH.
Qed.

Lemma print_and_plot_presentation (self : Eiten) (weights : weight_mapping)
    (strategy : string) (plot_num : Z) :
  only_calls is_presentation
    (print_and_plot_portfolio_weights self weights strategy plot_num).
Proof.
  unfold print_and_plot_portfolio_weights.
  cbn [mbind prog_mbind prog_bind perform only_calls is_presentation].
  split; [reflexivity | intros _].
  apply only_calls_bind; [apply print_weights_loop_presentation |].
  intros symbol_weights. cbn. repeat split.
Qed.

(** ** The future-test phase *)

Ltac prog_simpl := cbn [mbind prog_mbind prog_bind perform lift].

(** One call of the main sequence: the property at the call, then the rest
    of the program with the answer [x]. *)
Ltac sat_call x := prog_simpl; split; [ | intros x ].

(** A presentation method in the main sequence. *)
Ltac sat_presentation Hpres :=
  apply sat_bind;
  [ eapply sat_only_calls;
    [ exact Hpres
    | first [ apply print_and_plot_presentation | apply draw_plot_presentation ] ]
  | intros _ ? ].

(** The walk through [run_strategies]: [phi] settles the property at each
    call of the main sequence. *)
Ltac sat_main_call phi x := sat_call x; [ phi | ].

Ltac sat_run_strategies Hpres phi :=
  unfold run_strategies, load_data;
  let d := fresh "d" in
  sat_main_call phi d;
  cbn [data_dictionary set_data_dictionary];
  let Hload := fresh "Hload" in
  destruct (load_data_loop d (sorted_keys d) [] [])
    as [[historical_price_info future_price_info]|?] eqn:Hload;
    [ prog_simpl | exact I ];
  let Hreturns := fresh "Hreturns" in
  destruct (create_returns historical_price_info)
    as [[[predicted returns_matrix] returns_matrix_percentages]|?] eqn:Hreturns;
    [ prog_simpl | exact I ];
  cbn [ld_symbol_names ld_predicted_return_vectors ld_returns_matrix
       ld_returns_matrix_percentages
       SAVE_PLOT APPLY_NOISE_FILTERING IS_LONG_ONLY_PORTFOLIO IS_TEST
       EIGEN_PORTFOLIO_NUMBER data_dictionary set_data_dictionary];
  let m := fresh "market" in
  sat_main_call phi m;
  destruct m as [historical_price_market future_prices_market];
  let cov0 := fresh "cov0" in
  sat_main_call phi cov0;
  let Hnoise := fresh "Hnoise" in
  lazymatch goal with
  | |- context [truthy (APPLY_NOISE_FILTERING ?s)] =>
      destruct (truthy (APPLY_NOISE_FILTERING s)) eqn:Hnoise
  end;
  [ sat_main_call phi ipattern:(?);
    let cov1 := fresh "cov1" in sat_main_call phi cov1
  | prog_simpl ];
  (let eigen := fresh "eigen_weights" in sat_main_call phi eigen);
  (let mvp := fresh "mvp_weights" in sat_main_call phi mvp);
  (let msr := fresh "msr_weights" in sat_main_call phi msr);
  (let ga := fresh "ga_weights" in sat_main_call phi ga);
  sat_main_call phi ipattern:(?);
  do 5 sat_presentation Hpres;
  do 5 sat_main_call phi ipattern:(?);
  sat_presentation Hpres;
  let Htest := fresh "Htest" in
  lazymatch goal with
  | |- context [truthy (IS_TEST ?s)] =>
      destruct (truthy (IS_TEST s)) eqn:Htest
  end;
  [ do 5 sat_main_call phi ipattern:(?);
    sat_presentation Hpres
  | prog_simpl ];
  do 5 sat_main_call phi ipattern:(?);
  (eapply sat_only_calls; [ exact Hpres | apply draw_plot_presentation ]).


(** ** The concrete run *)

Lemma scenario_sorted_keys : sorted_keys scenario_data = ["AAA"; "BBB"].
Proof. vm_compute. reflexivity. Qed.

Lemma scenario_load_data_loop :
  load_data_loop scenario_data ["AAA"; "BBB"] [] []
  = Ok (scenario_history,
        [ {| Close := [106; 104]%float |}; {| Close := [54; 55]%float |} ]).
Proof. vm_compute. reflexivity. Qed.

Lemma scenario_history_defined : Forall steps_defined scenario_history.
Proof.
  repeat (apply List.Forall_cons; [apply steps_defined_b_spec; vm_compute; reflexivity |]).
  apply List.Forall_nil.
Qed.

Lemma scenario_history_fits : rows_fit scenario_history.
Proof. apply (rows_fit_common_length _ 4). repeat constructor. Qed.

Lemma scenario_create_returns :
  create_returns scenario_history
  = Ok (map asset_expected_return scenario_history,
        map asset_log_returns scenario_history,
        map asset_percentage_returns scenario_history).
Proof.
  apply create_returns_Ok; [apply scenario_history_defined | apply scenario_history_fits].
Qed.

Lemma scenario_load_data (s : strategy_answers) (self : Eiten) :
  exec (scenario_world s) (load_data self) []
  = ([Event collect_data_for_all_tickers (Ok scenario_data)],
     Ok (set_data_dictionary self scenario_data,
         {| ld_historical_price_info := scenario_history;
            ld_future_prices := [ {| Close := [106; 104]%float |}; {| Close := [54; 55]%float |} ];
            ld_symbol_names := ["AAA"; "BBB"];
            ld_predicted_return_vectors := map asset_expected_return scenario_history;
            ld_returns_matrix := map asset_log_returns scenario_history;
            ld_returns_matrix_percentages :=
              map asset_percentage_returns scenario_history |})).
Proof.
  unfold load_data. prog_simpl. cbn [exec scenario_world app].
  cbn [data_dictionary set_data_dictionary].
  rewrite scenario_sorted_keys, scenario_load_data_loop. prog_simpl.
  rewrite scenario_create_returns. prog_simpl. reflexivity.
Qed.


(** ** What every run does *)

Lemma each_call_In (Phi : list event -> call -> Prop) (log : list event) (ev : event) :
  each_call Phi log -> In ev log ->
  exists pre post, log = pre ++ ev :: post /\ Phi pre (ecall ev).
Proof.
  intros Hlog Hin. destruct (in_split _ _ Hin) as (pre & post & Heq).
  exists pre, post. split; [exact Heq | apply (Hlog pre ev post Heq)].
Qed.

Lemma run_log_each_call (Phi : list event -> call -> Prop) (w : world) (self : Eiten) :
  sat Phi (run_strategies self) [] -> each_call Phi (run_log w self).
Proof. intros Hsat. apply sat_sound; [exact Hsat | apply each_call_nil]. Qed.

Lemma strategy_returned_app (pre post : list event) (name : string)
    (weights : weight_mapping) :
  strategy_returned pre name weights -> strategy_returned (pre ++ post) name weights.
Proof.
  intros (ev & symbols & Hin & Hret). exists ev, symbols.
  split; [apply in_or_app; left; exact Hin | exact Hret].
Qed.

(** Finding a logged event in a log built by appending. *)
Ltac pick_event :=
  (apply in_or_app; right; left; reflexivity)
  + (apply in_or_app; left; pick_event).

Ltac phi_evaluation :=
  let ph := fresh "ph" in
  let name := fresh "name" in
  let wm := fresh "wm" in
  let Heq := fresh "Heq" in
  intros ph name wm Heq; cbn [evaluation] in Heq;
  first
    [ discriminate Heq
    | injection Heq as <- <- <-;
      unfold strategy_returned; do 2 eexists;
      split; [ pick_event | reflexivity ] ].

Lemma run_strategies_evaluation (self : Eiten) :
  sat (fun log c =>
         forall ph name weights,
           evaluation c = Some (ph, name, weights) ->
           strategy_returned log (weights_source ph name) weights)
      (run_strategies self) [].
Proof.
  assert (Hpres : forall (log' : list event) c,
             is_presentation c = true ->
             forall ph name weights,
               evaluation c = Some (ph, name, weights) ->
               strategy_returned log' (weights_source ph name) weights).
  { intros log' c Hc ph name weights Heq. destruct c; simpl in *; congruence. }
  sat_run_strategies Hpres ltac:(phi_evaluation).
Qed.

Ltac phi_covariance Hflag ev_tac :=
  let cov := fresh "cov" in
  let Heq := fresh "Heq" in
  intros cov Heq; cbn [covariance_argument] in Heq;
  first
    [ discriminate Heq
    | discriminate Hflag
    | injection Heq as <-;
      eexists; split;
      [ unfold log_returns_of_run; do 5 eexists;
        split; [ pick_event | split; eassumption ]
      | pick_event ] ].

Lemma run_strategies_filtered_covariance (self : Eiten) :
  truthy (APPLY_NOISE_FILTERING self) = true ->
  sat (fun log c =>
         forall cov, covariance_argument c = Some cov ->
           exists rm, log_returns_of_run log rm
                      /\ In (Event (random_matrix_theory_based_cov rm) (Ok cov)) log)
      (run_strategies self) [].
Proof.
  intros Hflag.
  assert (Hpres : forall (log' : list event) c,
             is_presentation c = true ->
             forall cov, covariance_argument c = Some cov ->
               exists rm, log_returns_of_run log' rm
                          /\ In (Event (random_matrix_theory_based_cov rm) (Ok cov)) log').
  { intros log' c Hc cov Heq. destruct c; simpl in *; congruence. }
  sat_run_strategies Hpres ltac:(phi_covariance Hflag idtac).
Qed.

Lemma run_strategies_plain_covariance (self : Eiten) :
  truthy (APPLY_NOISE_FILTERING self) = false ->
  sat (fun log c =>
         forall cov, covariance_argument c = Some cov ->
           exists rm, log_returns_of_run log rm
                      /\ In (Event (np_cov rm) (Ok cov)) log)
      (run_strategies self) [].
Proof.
  intros Hflag.
  assert (Hpres : forall (log' : list event) c,
             is_presentation c = true ->
             forall cov, covariance_argument c = Some cov ->
               exists rm, log_returns_of_run log' rm
                          /\ In (Event (np_cov rm) (Ok cov)) log').
  { intros log' c Hc cov Heq. destruct c; simpl in *; congruence. }
  sat_run_strategies Hpres ltac:(phi_covariance Hflag idtac).
Qed.

(** ** No exception of the orchestrator's own *)

Lemma sorted_keys_lookup {V : Type} (d : gmap string V) (key : string) :
  In key (sorted_keys d) -> exists v, d !! key = Some v.
Proof.
  intros Hin. apply list_elem_of_In in Hin. unfold sorted_keys in Hin.
  rewrite merge_sort_Permutation in Hin.
  apply list_elem_of_fmap in Hin as ([k v] & -> & Hkv).
  apply elem_of_map_to_list in Hkv. exists v. exact Hkv.
Qed.

Lemma sorted_keys_complete {V : Type} (d : gmap string V) (key : string) (v : V) :
  d !! key = Some v -> In key (sorted_keys d).
Proof.
  intros Hkv. apply list_elem_of_In. unfold sorted_keys.
  rewrite merge_sort_Permutation. apply list_elem_of_fmap.
  exists (key, v). split; [reflexivity | apply elem_of_map_to_list, Hkv].
Qed.

Lemma load_data_loop_Ok (d : gmap string ticker_data) (symbols : list string)
    (hist fut : list price_frame) :
  (forall key, In key symbols -> exists v, d !! key = Some v) ->
  exists r, load_data_loop d symbols hist fut = Ok r.
Proof.
  revert hist fut. induction symbols as [|symbol rest IH]; intros hist fut Hkeys;
    cbn [load_data_loop].
  - eauto.
  - destruct (Hkeys symbol) as [v Hv]; [left; reflexivity |].
    unfold dict_getitem. rewrite Hv, !bind_Ok. apply IH.
    intros key Hkey. apply Hkeys. right. exact Hkey.
Qed.

Lemma load_data_loop_sorted_keys (d : gmap string ticker_data) :
  exists r, load_data_loop d (sorted_keys d) [] [] = Ok r.
Proof. apply load_data_loop_Ok. intros key. apply sorted_keys_lookup. Qed.

Lemma no_throw_bind {A B : Type} (p : prog A) (k : A -> prog B) :
  no_throw p -> (forall a, no_throw (k a)) -> no_throw (p ≫= k).
Proof.
  induction p as [a|e|c k' IH]; intros Hp Hk.
  - apply Hk.
  - contradiction.
  - intros x. apply IH; [apply Hp | exact Hk].
Qed.

Lemma draw_plot_no_throw (self : Eiten) (filename : string) :
  no_throw (draw_plot self filename).
Proof.
  unfold draw_plot. cbn [mbind prog_mbind prog_bind perform no_throw].
  intros _ _. destruct (SAVE_PLOT self); cbn; auto.
Qed.

Lemma print_weights_loop_no_throw (weights : gmap string R)
    (symbols : list string) (acc : list R) :
  (forall key, In key symbols -> exists v, weights !! key = Some v) ->
  no_throw (print_weights_loop weights symbols acc).
Proof.
  revert acc. induction symbols as [|symbol rest IH]; intros acc Hkeys;
    cbn [print_weights_loop].
  - exact I.
  - destruct (Hkeys symbol) as [v Hv]; [left; reflexivity |].
    unfold dict_getitem. rewrite Hv. cbn. intros _. apply IH.
    intros key Hkey. apply Hkeys. right. exact Hkey.
Qed.

Lemma print_and_plot_no_throw (self : Eiten) (weights : weight_mapping)
    (strategy : string) (plot_num : Z) :
  no_throw (print_and_plot_portfolio_weights self weights strategy plot_num).
Proof.
  unfold print_and_plot_portfolio_weights.
  cbn [mbind prog_mbind prog_bind perform no_throw]. intros _.
  apply no_throw_bind.
  - apply print_weights_loop_no_throw. intros key. apply sorted_keys_lookup.
  - intros symbol_weights. cbn. auto.
Qed.

Lemma no_throw_Raise {A : Type} (w : world) (p : prog A) (log : list event) (e : pyexn) :
  no_throw p -> (exec w p log).2 = Raise e ->
  raised_by_collaborator (exec w p log).1 e.
Proof.
  revert log. induction p as [a|e'|c k IH]; intros log Hp; cbn [exec].
  - discriminate.
  - contradiction.
  - destruct (w c log) as [x|e''].
    + apply IH, Hp.
    + cbn. intros [= ->]. exists log, c. reflexivity.
Qed.

Ltac no_throw_walk :=
  repeat first
    [ exact I
    | apply draw_plot_no_throw
    | lazymatch goal with
      | |- forall _, _ => intros ?
      | |- no_throw (Call _ _) => cbn [no_throw]; intros ?
      | |- no_throw (prog_bind _ (print_and_plot_portfolio_weights _ _ _ _)) =>
          apply no_throw_bind; [ apply print_and_plot_no_throw | intros ? ]
      | |- no_throw (prog_bind _ (draw_plot _ _)) =>
          apply no_throw_bind; [ apply draw_plot_no_throw | intros ? ]
      | |- no_throw (prog_bind _ (if ?b then _ else _)) => destruct b
      | |- no_throw ((if ?b then _ else _) ≫= _) => destruct b
      | |- no_throw (print_and_plot_portfolio_weights _ _ _ _ ≫= _) =>
          apply no_throw_bind; [ apply print_and_plot_no_throw | intros ? ]
      | |- no_throw (draw_plot _ _ ≫= _) =>
          apply no_throw_bind; [ apply draw_plot_no_throw | intros ? ]
      | |- no_throw (let '(_, _) := ?x in _) => destruct x
      end
    | progress prog_simpl ].

(** An exception that ends [run_strategies] was raised by a collaborator, or
    by [create_returns] on the loaded prices. *)
Lemma run_strategies_exception_origin (w : world) (self : Eiten) (e : pyexn) :
  run_result w self = Raise e ->
  raised_by_collaborator (run_log w self) e
  \/ exists d historical_price_info future_price_info,
       run_log w self = [Event collect_data_for_all_tickers (Ok d)]
       /\ load_data_loop d (sorted_keys d) [] []
          = Ok (historical_price_info, future_price_info)
       /\ create_returns historical_price_info = Raise e.
Proof.
  unfold run_result, run_log, run_strategies, load_data. prog_simpl. cbn [exec].
  destruct (w collect_data_for_all_tickers []) as [d|e0].
  - cbn [data_dictionary set_data_dictionary app].
    destruct (load_data_loop_sorted_keys d) as [[hist fut] Hload].
    rewrite Hload. prog_simpl.
    destruct (create_returns hist) as [[[pred rm] rmp]|e0] eqn:Hret; prog_simpl.
    + intros Hres. left. revert Hres. apply no_throw_Raise.
      cbn [ld_symbol_names ld_predicted_return_vectors ld_returns_matrix
           ld_returns_matrix_percentages].
      no_throw_walk.
    + cbn [exec]. intros [= ->]. right. exists d, hist, fut. auto.
  - cbn. intros [= ->]. left. exists [], collect_data_for_all_tickers. reflexivity.
Qed.

(** ** Runs that complete *)

Lemma exec_Call_inv {A : Type} (w : world) (c : call) (k : answer c -> prog A)
    (log L : list event) (r : A) :
  exec w (Call c k) log = (L, Ok r) ->
  exists x, w c log = Ok x /\ exec w (k x) (log ++ [Event c (Ok x)]) = (L, Ok r).
Proof.
  cbn [exec]. destruct (w c log) as [x|e]; [eauto | discriminate].
Qed.

Lemma exec_bind_inv {A B : Type} (w : world) (p : prog A) (k : A -> prog B)
    (log L : list event) (r : B) :
  exec w (p ≫= k) log = (L, Ok r) ->
  exists a log', exec w p log = (log', Ok a) /\ exec w (k a) log' = (L, Ok r).
Proof.
  rewrite exec_bind. destruct (exec w p log) as [log' [a|e]]; [eauto | discriminate].
Qed.

Lemma exec_only_calls {A : Type} (P : call -> bool) (w : world) (p : prog A)
    (log L : list event) (r : result A) :
  only_calls P p -> exec w p log = (L, r) ->
  exists ext, L = log ++ ext /\ Forall (fun ev => P (ecall ev) = true) ext.
Proof.
  revert log. induction p as [a|e|c k IH]; intros log Hp; cbn [exec].
  - intros [= <- _]. exists []. rewrite app_nil_r. auto.
  - intros [= <- _]. exists []. rewrite app_nil_r. auto.
  - destruct Hp as [Hc Hk]. destruct (w c log) as [x|e].
    + intros Hrun. destruct (IH x _ (Hk x) Hrun) as (ext & -> & Hext).
      exists (Event c (Ok x) :: ext). rewrite <- app_assoc. split; [reflexivity |].
      constructor; assumption.
    + intros [= <- _]. exists [Event c (Raise e)]. split; [reflexivity |].
      constructor; [exact Hc | constructor].
Qed.

Lemma presentation_returned_weights (ev : event) :
  is_presentation (ecall ev) = true -> returned_weights ev = None.
Proof. destruct ev as [c r]. destruct c; simpl; congruence. Qed.

(** Walking a completed run call by call. *)
Ltac prog_simpl_in H :=
  cbn [mbind prog_mbind prog_bind perform lift
       ld_symbol_names ld_predicted_return_vectors ld_returns_matrix
       ld_returns_matrix_percentages data_dictionary set_data_dictionary
       SAVE_PLOT APPLY_NOISE_FILTERING IS_LONG_ONLY_PORTFOLIO IS_TEST
       EIGEN_PORTFOLIO_NUMBER app] in H.

Ltac exec_walk H :=
  repeat
    (prog_simpl_in H;
     lazymatch type of H with
     | exec _ (Call _ _) _ = _ =>
         let x := fresh "x" in
         let Hx := fresh "Hx" in
         apply exec_Call_inv in H as (x & Hx & H)
     | exec _ (prog_bind _ (print_and_plot_portfolio_weights _ _ _ _)) _ = _ =>
         let a := fresh "a" in
         let log' := fresh "log'" in
         let Hp := fresh "Hp" in
         let ext := fresh "ext" in
         let Hext := fresh "Hext" in
         apply exec_bind_inv in H as (a & log' & Hp & H);
         apply (exec_only_calls is_presentation) in Hp as (ext & -> & Hext);
         [ | apply print_and_plot_presentation ]
     | exec _ (prog_bind _ (draw_plot _ _)) _ = _ =>
         let a := fresh "a" in
         let log' := fresh "log'" in
         let Hp := fresh "Hp" in
         let ext := fresh "ext" in
         let Hext := fresh "Hext" in
         apply exec_bind_inv in H as (a & log' & Hp & H);
         apply (exec_only_calls is_presentation) in Hp as (ext & -> & Hext);
         [ | apply draw_plot_presentation ]
     | exec _ (draw_plot _ _) _ = _ =>
         let ext := fresh "ext" in
         let Hext := fresh "Hext" in
         apply (exec_only_calls is_presentation) in H as (ext & -> & Hext);
         [ | apply draw_plot_presentation ]
     | exec _ (prog_bind _ (if ?b then _ else _)) _ = _ =>
         let Hb := fresh "Hflag" in destruct b eqn:Hb
     | exec _ ((if ?b then _ else _) ≫= _) _ = _ =>
         let Hb := fresh "Hflag" in destruct b eqn:Hb
     | exec _ (print_and_plot_portfolio_weights _ _ _ _ ≫= _) _ = _ =>
         let a := fresh "a" in
         let log' := fresh "log'" in
         let Hp := fresh "Hp" in
         let ext := fresh "ext" in
         let Hext := fresh "Hext" in
         apply exec_bind_inv in H as (a & log' & Hp & H);
         apply (exec_only_calls is_presentation) in Hp as (ext & -> & Hext);
         [ | apply print_and_plot_presentation ]
     | exec _ (draw_plot _ _ ≫= _) _ = _ =>
         let a := fresh "a" in
         let log' := fresh "log'" in
         let Hp := fresh "Hp" in
         let ext := fresh "ext" in
         let Hext := fresh "Hext" in
         apply exec_bind_inv in H as (a & log' & Hp & H);
         apply (exec_only_calls is_presentation) in Hp as (ext & -> & Hext);
         [ | apply draw_plot_presentation ]
     | context [lift (load_data_loop ?d ?s ?h ?f)] =>
         let Hr := fresh "Hload" in
         destruct (load_data_loop d s h f) as [[? ?]|?] eqn:Hr
     | context [lift (create_returns ?h)] =>
         let Hr := fresh "Hreturns" in
         destruct (create_returns h) as [[[? ?] ?]|?] eqn:Hr
     | exec _ (Throw _) _ = _ => discriminate H
     | exec _ (let '(_, _) := ?x in _) _ = _ => destruct x
     end).

Ltac split_in H :=
  lazymatch type of H with
  | In _ (_ ++ _) => apply in_app_or in H as [H|H]; [ split_in H | split_in H ]
  | In _ (_ :: _) => destruct H as [H|H]; [ | split_in H ]
  | In _ [] => contradiction H
  | _ => idtac
  end.

Ltac find_call :=
  lazymatch goal with
  | |- In _ (_ ++ _) =>
      apply in_or_app; first [ right; find_call | left; find_call ]
  | |- In _ (_ :: _) => first [ left; reflexivity | right; find_call ]
  end.

Lemma presentation_segment (ext : list event) (ev : event) :
  Forall (fun ev => is_presentation (ecall ev) = true) ext ->
  In ev ext -> returned_weights ev = None.
Proof.
  intros Hext Hin. apply presentation_returned_weights.
  rewrite List.Forall_forall in Hext. apply Hext, Hin.
Qed.

Lemma run_strategies_completed (w : world) (self : Eiten) :
  run_result w self = Ok tt ->
  forall ev name symbols weights,
    In ev (run_log w self) ->
    returned_weights ev = Some (name, symbols, weights) ->
    exists dd hm lo mc r,
      In (Event (back_test symbols weights dd hm lo mc name) r) (run_log w self).
Proof.
  unfold run_result, run_log.
  destruct (exec w (run_strategies self) []) as [L r] eqn:H. cbn [fst snd].
  intros ->. unfold run_strategies, load_data in H.
  exec_walk H.
  all: intros ev name symbols weights Hin Hret.
  all: split_in Hin.
  all: try (subst ev; cbn [returned_weights] in Hret; discriminate Hret).
  all: try (match goal with
            | Hext : Forall _ ?ext, Hin : In _ ?ext |- _ =>
                rewrite (presentation_segment ext _ Hext Hin) in Hret;
                discriminate Hret
            end).
  all: subst ev; cbn [returned_weights] in Hret; injection Hret as <- <- <-.
  all: do 5 eexists; find_call.
Qed.

(** ** The claims about [run_strategies] *)

Lemma log_returns_of_run_app (pre post : list event) (rm : matrix) :
  log_returns_of_run pre rm -> log_returns_of_run (pre ++ post) rm.
Proof.
  intros (d & h & f & pred & rmp & Hin & Hload & Hret).
  exists d, h, f, pred, rmp. split; [apply in_or_app; left; exact Hin | auto].
Qed.

(** The weights of every evaluation call are those returned by the strategy
    that [weights_source] names. *)
Lemma evaluation_weights_source (w : world) (self : Eiten) (ev : event)
    (ph : phase) (name : string) (weights : weight_mapping) :
  In ev (run_log w self) ->
  evaluation (ecall ev) = Some (ph, name, weights) ->
  strategy_returned (run_log w self) (weights_source ph name) weights.
Proof.
  intros Hin Heval.
  pose proof (run_log_each_call _ w self (run_strategies_evaluation self)) as Hlog.
  destruct (each_call_In _ _ _ Hlog Hin) as (pre & post & Heq & Hphi).
  rewrite Heq. apply strategy_returned_app. apply (Hphi ph name weights Heval).
Qed.

(** C5, as the code has it.  With the noise-filtering flag set, the
    covariance estimate handed to every strategy that takes one is what the
    noise filter returned, and the filter was given the log-return matrix
    (one row per asset, one column per return), not a covariance matrix. *)
Theorem noise_filter_reads_returns_matrix (w : world) (self : Eiten) :
  truthy (APPLY_NOISE_FILTERING self) = true ->
  forall ev cov,
    In ev (run_log w self) ->
    covariance_argument (ecall ev) = Some cov ->
    exists rm,
      log_returns_of_run (run_log w self) rm
      /\ In (Event (random_matrix_theory_based_cov rm) (Ok cov)) (run_log w self).
Proof.
  intros Hflag ev cov Hin Hcov.
  pose proof (run_log_each_call _ w self (run_strategies_filtered_covariance self Hflag))
    as Hlog.
  destruct (each_call_In _ _ _ Hlog Hin) as (pre & post & Heq & Hphi).
  destruct (Hphi cov Hcov) as (rm & Hrm & Hfilter).
  exists rm. rewrite Heq. split.
  - apply log_returns_of_run_app, Hrm.
  - apply in_or_app. left. exact Hfilter.
Qed.


(** C6, as the code has it.  No key set is checked: the weights every
    back-test and future-test call is given are those the strategy of that
    name returned; in a run that completes, every mapping a strategy
    returned reached [back_test] under that strategy's name with the symbol
    list unchanged; and an exception that ends the run was raised by a
    collaborator, or by [create_returns] on the loaded prices. *)
Theorem weight_mappings_passed_unchecked (w : world) (self : Eiten) :
  (forall ev ph name weights,
     In ev (run_log w self) ->
     evaluation (ecall ev) = Some (ph, name, weights) ->
     ph <> Simulation ->
     strategy_returned (run_log w self) name weights)
  /\ (run_result w self = Ok tt ->
      forall ev name symbols weights,
        In ev (run_log w self) ->
        returned_weights ev = Some (name, symbols, weights) ->
        exists dd hm lo mc r,
          In (Event (back_test symbols weights dd hm lo mc name) r) (run_log w self))
  /\ (forall e,
        run_result w self = Raise e ->
        raised_by_collaborator (run_log w self) e
        \/ exists d historical_price_info future_price_info,
             run_log w self = [Event collect_data_for_all_tickers (Ok d)]
             /\ load_data_loop d (sorted_keys d) [] []
                = Ok (historical_price_info, future_price_info)
             /\ create_returns historical_price_info = Raise e).
Proof.
  split; [| split].
  - intros ev ph name weights Hin Heval Hph.
    pose proof (evaluation_weights_source w self ev ph name weights Hin Heval) as Hsrc.
    destruct ph; [exact Hsrc | exact Hsrc | contradiction].
  - apply run_strategies_completed.
  - apply run_strategies_exception_origin.
Qed.

(** ** The claims on the concrete run *)

(** Evaluation of a run on the scenario data: the loading part is rewritten
    with [scenario_load_data], the rest is computed. *)
Ltac scenario_compute :=
  unfold run_log, run_result, run_strategies;
  rewrite exec_bind, scenario_load_data;
  generalize (map asset_expected_return scenario_history);
  generalize (map asset_log_returns scenario_history);
  generalize (map asset_percentage_returns scenario_history);
  intros ? ? ?; vm_compute; reflexivity.

Lemma scenario_log_returns_shape :
  length (map asset_log_returns scenario_history) = 2
  /\ Forall (fun row => length row = 3) (map asset_log_returns scenario_history).
Proof. split; [reflexivity | repeat constructor]. Qed.

(** The input of the noise filter in the sample run is the 2 x 3 log-return
    matrix of the two tickers: it is not a square matrix of dimension 2,
    the covariance matrix. *)
Lemma sample_run_filter_input :
  filter_inputs (run_log (scenario_world full_answers) (Eiten_init sample_arguments))
  = [map asset_log_returns scenario_history]
  /\ length (map asset_log_returns scenario_history) = 2
  /\ Forall (fun row => length row = 3) (map asset_log_returns scenario_history).
Proof.
  split; [| exact scenario_log_returns_shape].
  scenario_compute.
Qed.



(** The run without test mode completes and back-tests and simulates, so the
    absence of future-test calls is not the absence of a run. *)
Lemma live_run_phases :
  run_result (scenario_world full_answers) (Eiten_init live_arguments) = Ok tt
  /\ map fst (evaluations_of Backtest
               (run_log (scenario_world full_answers) (Eiten_init live_arguments)))
     = ["Eigen Portfolio"; "Minimum Variance Portfolio (MVP)";
        "Maximum Sharpe Portfolio (MSR)"; "Genetic Algo (GA)"]
  /\ evaluations_of FutureTest
       (run_log (scenario_world full_answers) (Eiten_init live_arguments)) = []
  /\ map fst (evaluations_of Simulation
               (run_log (scenario_world full_answers) (Eiten_init live_arguments)))
     = ["Eigen Portfolio"; "Minimum Variance Portfolio (MVP)";
        "Maximum Sharpe Portfolio (MSR)"; "Genetic Algo (GA)"].
Proof. repeat split; scenario_compute. Qed.

(** In test mode the future-test phase runs once per strategy. *)
Lemma test_run_future_tests :
  evaluations_of FutureTest
    (run_log (scenario_world full_answers) (Eiten_init sample_arguments))
  = [ ("Eigen Portfolio", eigen_answer full_answers);
      ("Minimum Variance Portfolio (MVP)", mvp_answer full_answers);
      ("Maximum Sharpe Portfolio (MSR)", msr_answer full_answers);
      ("Genetic Algo (GA)", ga_answer full_answers) ].
Proof. scenario_compute. Qed.

Lemma full_answers_distinct :
  eigen_answer full_answers <> mvp_answer full_answers
  /\ eigen_answer full_answers <> msr_answer full_answers.
Proof.
  split; intros Heq; apply (f_equal (fun m : gmap string R => m !! "AAA")) in Heq;
    cbn [eigen_answer mvp_answer msr_answer full_answers] in Heq;
    unfold weight_mapping in Heq;
    rewrite !(lookup_insert_eq (M := gmap string)) in Heq; injection Heq as Heq; lra.
Qed.

(** C8 at the sample run.  The back-test phase is given each strategy's own
    weights; the simulation calls labelled with the minimum-variance and
    the maximum-Sharpe strategy are given the eigen portfolio's weights,
    which differ from what those two strategies returned. *)
Theorem simulation_reuses_eigen_weights :
  evaluations_of Backtest
    (run_log (scenario_world full_answers) (Eiten_init sample_arguments))
  = [ ("Eigen Portfolio", eigen_answer full_answers);
      ("Minimum Variance Portfolio (MVP)", mvp_answer full_answers);
      ("Maximum Sharpe Portfolio (MSR)", msr_answer full_answers);
      ("Genetic Algo (GA)", ga_answer full_answers) ]
  /\ evaluations_of Simulation
       (run_log (scenario_world full_answers) (Eiten_init sample_arguments))
     = [ ("Eigen Portfolio", eigen_answer full_answers);
         ("Minimum Variance Portfolio (MVP)", eigen_answer full_answers);
         ("Maximum Sharpe Portfolio (MSR)", eigen_answer full_answers);
         ("Genetic Algo (GA)", ga_answer full_answers) ]
  /\ eigen_answer full_answers <> mvp_answer full_answers
  /\ eigen_answer full_answers <> msr_answer full_answers.
Proof.
  split; [scenario_compute |]. split; [scenario_compute |].
  exact full_answers_distinct.
Qed.

Lemma partial_answer_does_not_cover :
  ~ covers_exactly (mvp_answer partial_answers) ["AAA"; "BBB"].
Proof.
  intros Hcov. destruct (Hcov "BBB") as [Hin _].
  destruct Hin as [v Hv]; [right; left; reflexivity |].
  cbn [mvp_answer partial_answers] in Hv. unfold weight_mapping in Hv.
  rewrite (lookup_insert_ne (M := gmap string)) in Hv by discriminate.
  rewrite lookup_empty in Hv. discriminate.
Qed.

(** The minimum-variance strategy answers for one of the two symbols it was
    asked about.  The run raises nothing, and the mapping is back-tested,
    future-tested and reported like the others. *)
Lemma partial_run :
  ~ covers_exactly (mvp_answer partial_answers) ["AAA"; "BBB"]
  /\ strategy_returns
       (run_log (scenario_world partial_answers) (Eiten_init sample_arguments))
     = [ ("Eigen Portfolio", ["AAA"; "BBB"], eigen_answer partial_answers);
         ("Minimum Variance Portfolio (MVP)", ["AAA"; "BBB"], mvp_answer partial_answers);
         ("Maximum Sharpe Portfolio (MSR)", ["AAA"; "BBB"], msr_answer partial_answers);
         ("Genetic Algo (GA)", ["AAA"; "BBB"], ga_answer partial_answers) ]
  /\ evaluations_of Backtest
       (run_log (scenario_world partial_answers) (Eiten_init sample_arguments))
     = [ ("Eigen Portfolio", eigen_answer partial_answers);
         ("Minimum Variance Portfolio (MVP)", mvp_answer partial_answers);
         ("Maximum Sharpe Portfolio (MSR)", msr_answer partial_answers);
         ("Genetic Algo (GA)", ga_answer partial_answers) ]
  /\ evaluations_of FutureTest
       (run_log (scenario_world partial_answers) (Eiten_init sample_arguments))
     = [ ("Eigen Portfolio", eigen_answer partial_answers);
         ("Minimum Variance Portfolio (MVP)", mvp_answer partial_answers);
         ("Maximum Sharpe Portfolio (MSR)", msr_answer partial_answers);
         ("Genetic Algo (GA)", ga_answer partial_answers) ]
  /\ run_result (scenario_world partial_answers) (Eiten_init sample_arguments) = Ok tt.
Proof.
  split; [exact partial_answer_does_not_cover |].
  repeat split; scenario_compute.
Qed.
(** * Further properties *)

(** ** The outcome of [create_returns] *)

(** X3. [create_returns] either returns the three arrays, one entry per
    series, or raises [ZeroDivisionError] or [ValueError].  It returns
    exactly when every step of every series is defined (no zero divisor,
    no quotient that is zero or negative; [nan] passes) and the rows have
    one length; no other exception can come out of it. *)
Theorem create_returns_outcome (historical_price_info : list price_frame) :
  (Forall steps_defined historical_price_info
   /\ rows_fit historical_price_info
   /\ create_returns historical_price_info
      = Ok (map asset_expected_return historical_price_info,
            map asset_log_returns historical_price_info,
            map asset_percentage_returns historical_price_info))
  \/ ((Exists step_undefined historical_price_info
       \/ ~ rows_fit historical_price_info)
      /\ (create_returns historical_price_info = Raise ZeroDivisionError
          \/ create_returns historical_price_info = Raise ValueError)).
Proof.
  destruct (create_returns_cases historical_price_info)
    as [H | [(_ & Hfit & Heq) | [Hbad Heq]]].
  - left. exact H.
  - right. split; [right; exact Hfit | right; exact Heq].
  - right. split; [left; exact Hbad | exact Heq].
Qed.

(** X4. Whenever [create_returns] returns, for series of any lengths, the
    expected-return vector and both matrices have one entry per series, and
    the two rows of a series have one column fewer than the series has
    prices. *)
Theorem create_returns_shape (historical_price_info : list price_frame)
    (predicted : list float) (log_matrix percentage_matrix : matrix) :
  create_returns historical_price_info = Ok (predicted, log_matrix, percentage_matrix) ->
  length predicted = length historical_price_info
  /\ length log_matrix = length historical_price_info
  /\ length percentage_matrix = length historical_price_info
  /\ forall i info, historical_price_info !! i = Some info ->
       exists log_row percentage_row,
         log_matrix !! i = Some log_row
         /\ percentage_matrix !! i = Some percentage_row
         /\ length log_row = length (Close info) - 1
         /\ length percentage_row = length (Close info) - 1.
Proof.
  intros Hr. apply create_returns_Ok_inv in Hr as (_ & _ & [= -> -> ->]).
  rewrite !length_map. repeat split.
  intros i info Hi.
  exists (asset_log_returns info), (asset_percentage_returns info).
  split; [apply lookup_map_Some, Hi |]. split; [apply lookup_map_Some, Hi |].
  unfold asset_log_returns, asset_percentage_returns.
  rewrite !length_map, positions_length. split; reflexivity.
Qed.

Lemma two_assets_defined : Forall steps_defined two_assets.
Proof.
  repeat (apply List.Forall_cons; [apply steps_defined_b_spec; vm_compute; reflexivity |]).
  apply List.Forall_nil.
Qed.

Lemma two_assets_common_length :
  Forall (fun info => length (Close info) = 3) two_assets.
Proof. repeat constructor. Qed.

Lemma two_assets_returns :
  create_returns two_assets
  = Ok (map asset_expected_return two_assets, map asset_log_returns two_assets,
        map asset_percentage_returns two_assets).
Proof.
  apply create_returns_Ok; [apply two_assets_defined |].
  apply (rows_fit_common_length _ 3), two_assets_common_length.
Qed.

(** ** Lists of series put together *)

Lemma rows_fit_app_l (first second : list price_frame) :
  rows_fit (first ++ second) -> rows_fit first.
Proof.
  intros Hfit info info' Hin Hin'. apply Hfit; apply in_or_app; left; assumption.
Qed.

Lemma rows_fit_app_r (first second : list price_frame) :
  rows_fit (first ++ second) -> rows_fit second.
Proof.
  intros Hfit info info' Hin Hin'. apply Hfit; apply in_or_app; right; assumption.
Qed.

(** X8. [create_returns] returns for two lists of series put together
    exactly when it returns for each of them and the rows of the two fit
    one array; the result is then the componentwise concatenation of the
    two results. *)
Theorem create_returns_app (first second : list price_frame) (r : returns_acc) :
  create_returns (first ++ second) = Ok r
  <-> rows_fit (first ++ second)
      /\ exists r1 r2,
           create_returns first = Ok r1
           /\ create_returns second = Ok r2
           /\ r = returns_app r1 r2.
Proof.
  split.
  - intros Hr. apply create_returns_Ok_inv in Hr as (Hok & Hfit & ->).
    apply Forall_app in Hok as [Hok1 Hok2].
    split; [exact Hfit |].
    exists (map asset_expected_return first, map asset_log_returns first,
            map asset_percentage_returns first),
           (map asset_expected_return second, map asset_log_returns second,
            map asset_percentage_returns second).
    split; [apply create_returns_Ok; [exact Hok1 | apply (rows_fit_app_l _ _ Hfit)] |].
    split; [apply create_returns_Ok; [exact Hok2 | apply (rows_fit_app_r _ _ Hfit)] |].
    unfold returns_app. cbn [fst snd]. rewrite !map_app. reflexivity.
  - intros (Hfit & r1 & r2 & H1 & H2 & ->).
    apply create_returns_Ok_inv in H1 as (Hok1 & _ & ->).
    apply create_returns_Ok_inv in H2 as (Hok2 & _ & ->).
    rewrite create_returns_Ok; [| apply Forall_app; split; assumption | exact Hfit].
    unfold returns_app. cbn [fst snd]. rewrite !map_app. reflexivity.
Qed.

(** ** Which exception *)

Lemma create_returns_body_cause (acc : returns_acc) (info : price_frame) (e : pyexn) :
  create_returns_body acc info = Raise e ->
  log_returns_of (Close info) = Raise e.
Proof.
  destruct acc as [[er lr] pr]. unfold create_returns_body. cbv zeta.
  destruct (log_returns_of (Close info)) as [l|e'] eqn:Hl.
  - assert (Hok : steps_defined info).
    { destruct (steps_defined_or_undefined info) as [Hok|Hbad]; [exact Hok |].
      destruct (log_returns_of_Raise info Hbad) as [H|H]; congruence. }
    rewrite percentage_returns_of_Ok, weighted_returns_of_Ok by exact Hok.
    rewrite !bind_Ok. intros H. discriminate H.
  - rewrite bind_Raise. intros [= ->]. reflexivity.
Qed.

Lemma create_returns_loop_cause (infos : list price_frame) (acc : returns_acc)
    (e : pyexn) :
  create_returns_loop acc infos = Raise e ->
  exists info, In info infos /\ log_returns_of (Close info) = Raise e.
Proof.
  revert acc. induction infos as [|info infos IH]; intros acc; cbn [create_returns_loop].
  - discriminate.
  - destruct (create_returns_body acc info) as [acc'|e'] eqn:Hbody.
    + rewrite bind_Ok. intros Hrest. destruct (IH _ Hrest) as (info' & Hin & Hlog).
      exists info'. split; [right; exact Hin | exact Hlog].
    + rewrite bind_Raise. intros [= ->]. exists info.
      split; [left; reflexivity | apply (create_returns_body_cause acc), Hbody].
Qed.

(** X9. The exception tells the cause: a [ZeroDivisionError] out of
    [create_returns] means that some series has a zero price followed by
    another observation; a [ValueError] means that some series has two
    consecutive prices, the earlier one not zero, whose binary64 quotient
    is zero or negative, or that the rows have different lengths. *)
Theorem create_returns_exception_cause (historical_price_info : list price_frame)
    (e : pyexn) :
  create_returns historical_price_info = Raise e ->
  (e = ZeroDivisionError
   /\ exists info t,
        In info historical_price_info
        /\ 1 <= t < length (Close info)
        /\ (price info (t - 1) =? 0)%float = true)
  \/ (e = ValueError
      /\ ((exists info t,
             In info historical_price_info
             /\ 1 <= t < length (Close info)
             /\ (price info (t - 1) =? 0)%float = false
             /\ (price info t / price info (t - 1) <=? 0)%float = true)
          \/ ~ rows_fit historical_price_info)).
Proof.
  intros Hr.
  destruct (create_returns_loop ([], [], []) historical_price_info) as [acc|e'] eqn:Hloop.
  - right.
    destruct (create_returns_cases historical_price_info)
      as [(_ & _ & Heq) | [(_ & Hfit & Heq) | [Hbad _]]].
    + congruence.
    + split; [congruence | right; exact Hfit].
    + destruct (create_returns_loop_Raise _ ([], [], []) Hbad); congruence.
  - assert (e = e') as <-.
    { unfold create_returns in Hr. rewrite Hloop in Hr. injection Hr as <-. reflexivity. }
    apply create_returns_loop_cause in Hloop as (info & Hin & Hlog).
    apply comprehension_Raise in Hlog as (t & Ht & Hstep).
    apply in_py_range in Ht.
    destruct (log_step_exn info t e Ht Hstep) as [[-> Hz] | (-> & Hz & Hd)].
    + left. split; [reflexivity |]. exists info, t. auto.
    + right. split; [reflexivity |]. left. exists info, t. auto.
Qed.


(** ** The argument checker, all three checks *)

Lemma messages_distinct : future_bars_message <> history_message.
Proof. vm_compute. discriminate. Qed.

(** X10. [check_arguments] accepts an argument set exactly when the data
    granularity is one of the seven allowed values, a test run has at least
    two future bars, and the history is either ["all"] or a number of bars
    not below the number of future bars. *)
Theorem check_arguments_accepts (args : arguments) :
  check_arguments args = Ok tt
  <-> In (data_granularity_minutes args) [1; 5; 10; 15; 30; 60; 3600]%Z
      /\ ~ (is_test args = 1%Z /\ (future_bars args < 2)%Z)
      /\ (history_to_use args = "all"
          \/ exists v, history_to_use_int args = Some v /\ (future_bars args <= v)%Z).
Proof.
  unfold check_arguments.
  change [1; 5; 10; 15; 30; 60; 3600]%Z with granularity_constraints_list.
  rewrite <- int_in_In.
  destruct (int_in (data_granularity_minutes args) granularity_constraints_list);
    cbn [negb py_assert];
    [rewrite bind_Ok | rewrite bind_Raise; split; [discriminate | intros [H _]; discriminate H]].
  destruct (Z.eqb_spec (is_test args) 1) as [Htest|Htest];
    destruct (Z.ltb_spec (future_bars args) 2) as [Hfb|Hfb];
    cbn [andb negb py_assert];
    try (rewrite bind_Ok);
    try (rewrite bind_Raise; split; [discriminate | intros (_ & H & _); exfalso; apply H; auto]).
  all: destruct (String.eqb_spec (history_to_use args) "all") as [Hall|Hall];
    cbn [negb];
    try (rewrite bind_Ok; cbn [negb py_assert];
         split; [intros _; repeat split; [lia || tauto | left; exact Hall]
                | reflexivity]).
  all: destruct (history_to_use_int args) as [v|]; cbn [getattr];
    try (rewrite !bind_Raise; split;
         [discriminate | intros (_ & _ & [H | (v & H & _)]); [contradiction | discriminate H]]).
  all: rewrite !bind_Ok;
    destruct (Z.ltb_spec v (future_bars args)) as [Hv|Hv]; cbn [negb py_assert].
  all: try (split; [discriminate
                   | intros (_ & _ & [H | (v' & [= <-] & H)]); [contradiction | lia]]).
  all: split; [intros _; repeat split; [lia || tauto | right; exists v; auto]
              | reflexivity].
Qed.

(** X11. With an allowed granularity, a test run with fewer than two future
    bars is rejected by the second assertion whatever the history settings
    are, and nothing else is rejected by it. *)
Theorem check_arguments_future_bars (args : arguments) :
  check_arguments args = Raise (AssertionError future_bars_message)
  <-> In (data_granularity_minutes args) [1; 5; 10; 15; 30; 60; 3600]%Z
      /\ is_test args = 1%Z /\ (future_bars args < 2)%Z.
Proof.
  destruct granularity_message_distinct as [Hgf _].
  pose proof messages_distinct as Hfh.
  unfold check_arguments.
  change [1; 5; 10; 15; 30; 60; 3600]%Z with granularity_constraints_list.
  rewrite <- int_in_In.
  destruct (int_in (data_granularity_minutes args) granularity_constraints_list);
    cbn [negb py_assert];
    [rewrite bind_Ok
    | rewrite bind_Raise; split; [intros H; congruence | intros [H _]; discriminate H]].
  destruct (Z.eqb_spec (is_test args) 1) as [Htest|Htest];
    destruct (Z.ltb_spec (future_bars args) 2) as [Hfb|Hfb];
    cbn [andb negb py_assert].
  1: rewrite bind_Raise; split; [intros _; auto | reflexivity].
  all: rewrite bind_Ok; split; [| intros (_ & H1 & H2); exfalso; lia || contradiction].
  all: intros H; exfalso;
    destruct (negb (String.eqb (history_to_use args) "all"));
    [ destruct (history_to_use_int args) as [v|]; cbn [getattr] in H;
      [ rewrite !bind_Ok in H;
        destruct (v <? future_bars args)%Z; cbn [negb py_assert] in H;
        [ congruence | discriminate H ]
      | rewrite !bind_Raise in H; discriminate H ]
    | rewrite bind_Ok in H; cbn [negb py_assert] in H; discriminate H ].
Qed.

(** ** [load_data]: symbols and rows *)

Lemma string_le_total (a b : string) : string_le a b \/ string_le b a.
Proof. apply String.leb_total. Qed.

Lemma sorted_keys_Sorted {V : Type} (d : gmap string V) :
  Sorted string_le (sorted_keys d).
Proof. unfold sorted_keys. apply (Sorted_merge_sort string_le (Total0 := string_le_total)). Qed.

Lemma sorted_keys_NoDup {V : Type} (d : gmap string V) : NoDup (sorted_keys d).
Proof.
  unfold sorted_keys. rewrite merge_sort_Permutation. apply NoDup_fst_map_to_list.
Qed.

Lemma load_data_loop_entries (d : gmap string ticker_data) (symbols : list string)
    (hist fut hist' fut' : list price_frame) :
  load_data_loop d symbols hist fut = Ok (hist', fut') ->
  exists entries,
    Forall2 (fun symbol entry => d !! symbol = Some entry) symbols entries
    /\ hist' = hist ++ map historical_prices entries
    /\ fut' = fut ++ map future_prices entries.
Proof.
  revert hist fut. induction symbols as [|symbol rest IH]; intros hist fut;
    cbn [load_data_loop].
  - intros [= <- <-]. exists []. rewrite !app_nil_r. repeat split. constructor.
  - unfold dict_getitem. destruct (d !! symbol) as [entry|] eqn:Hentry;
      [| rewrite bind_Raise; discriminate].
    rewrite !bind_Ok. intros Hrest.
    destruct (IH _ _ Hrest) as (entries & Hall & -> & ->).
    exists (entry :: entries). cbn [map]. rewrite <- !app_assoc.
    repeat split. constructor; assumption.
Qed.

(** X12. When [load_data] returns, it has made one call, to the data
    engine; the object holds the dictionary returned; the symbol list is
    the dictionary's keys, each once, in ascending order; and position [i]
    of the price lists, of the expected-return vector and of both return
    matrices belongs to symbol [i]. *)
Theorem load_data_alignment (w : world) (self self' : Eiten) (log L : list event)
    (ld : loaded_data) :
  exec w (load_data self) log = (L, Ok (self', ld)) ->
  exists d : gmap string ticker_data,
    L = log ++ [Event collect_data_for_all_tickers (Ok d)]
    /\ self' = set_data_dictionary self d
    /\ Sorted string_le (ld_symbol_names ld)
    /\ NoDup (ld_symbol_names ld)
    /\ (forall symbol, In symbol (ld_symbol_names ld) <-> is_Some (d !! symbol))
    /\ forall i symbol,
         ld_symbol_names ld !! i = Some symbol ->
         exists entry,
           d !! symbol = Some entry
           /\ ld_historical_price_info ld !! i = Some (historical_prices entry)
           /\ ld_future_prices ld !! i = Some (future_prices entry)
           /\ ld_predicted_return_vectors ld !! i
              = Some (asset_expected_return (historical_prices entry))
           /\ ld_returns_matrix ld !! i
              = Some (asset_log_returns (historical_prices entry))
           /\ ld_returns_matrix_percentages ld !! i
              = Some (asset_percentage_returns (historical_prices entry)).
Proof.
  unfold load_data. prog_simpl. cbn [exec].
  destruct (w collect_data_for_all_tickers log) as [d|e]; [| discriminate].
  cbn [data_dictionary set_data_dictionary].
  destruct (load_data_loop d (sorted_keys d) [] []) as [[hist fut]|e] eqn:Hload;
    prog_simpl; [| discriminate].
  destruct (create_returns hist) as [[[pred rm] rmp]|e] eqn:Hret;
    prog_simpl; [| discriminate].
  cbn [exec]. intros [= <- <- <-]. exists d.
  cbn [ld_symbol_names ld_historical_price_info ld_future_prices
       ld_predicted_return_vectors ld_returns_matrix ld_returns_matrix_percentages].
  split; [reflexivity |]. split; [reflexivity |].
  split; [apply sorted_keys_Sorted |]. split; [apply sorted_keys_NoDup |].
  split.
  - intros symbol. split.
    + intros Hin. destruct (sorted_keys_lookup d symbol Hin) as [v Hv]. eauto.
    + intros [v Hv]. apply (sorted_keys_complete d symbol v Hv).
  - intros i symbol Hi.
    apply load_data_loop_entries in Hload as (entries & Hall & -> & ->).
    cbn [app] in Hret. apply create_returns_Ok_inv in Hret as (_ & _ & [= -> -> ->]).
    destruct (Forall2_lookup_l _ _ _ _ _ Hall Hi) as (entry & Hentry & Hd).
    exists entry. cbn [app]. rewrite !map_map.
    split; [exact Hd |].
    repeat split;
      match goal with
      | |- map ?f _ !! _ = _ => apply (lookup_map_Some f _ _ _ Hentry)
      end.
Qed.

(** X13. When [load_data] raises, either the data engine raised that
    exception, or the dictionary was returned and [create_returns] raised
    [ZeroDivisionError] or [ValueError] on its historical prices; looking up
    the sorted keys never raises [KeyError]. *)
Theorem load_data_exception (w : world) (self : Eiten) (log L : list event)
    (e : pyexn) :
  exec w (load_data self) log = (L, Raise e) ->
  L = log ++ [Event collect_data_for_all_tickers (Raise e)]
  \/ exists (d : gmap string ticker_data) historical_price_info future_price_info,
       L = log ++ [Event collect_data_for_all_tickers (Ok d)]
       /\ load_data_loop d (sorted_keys d) [] []
          = Ok (historical_price_info, future_price_info)
       /\ create_returns historical_price_info = Raise e
       /\ (e = ZeroDivisionError \/ e = ValueError).
Proof.
  unfold load_data. prog_simpl. cbn [exec].
  destruct (w collect_data_for_all_tickers log) as [d|e0].
  - cbn [data_dictionary set_data_dictionary].
    destruct (load_data_loop_sorted_keys d) as [[hist fut] Hload].
    rewrite Hload. prog_simpl.
    destruct (create_returns hist) as [[[pred rm] rmp]|e0] eqn:Hret; prog_simpl;
      cbn [exec]; [discriminate |].
    intros [= <- <-]. right. exists d, hist, fut.
    split; [reflexivity |]. split; [exact Hload |]. split; [exact Hret |].
    apply (create_returns_Raise_inv hist), Hret.
  - intros [= <- <-]. left. reflexivity.
Qed.


(** ** What the strategies and the evaluators are given *)

Lemma each_call_Forall (Phi : list event -> call -> Prop) (log : list event) :
  (forall pre post c, Phi pre c -> Phi (pre ++ post) c) ->
  each_call Phi log -> Forall (fun ev => Phi log (ecall ev)) log.
Proof.
  intros Hmono Hlog. apply List.Forall_forall. intros ev Hin.
  destruct (each_call_In _ _ _ Hlog Hin) as (pre & post & -> & Hphi).
  apply Hmono, Hphi.
Qed.

Lemma loaded_in_app (pre post : list event) (d : data_dictionary_t)
    (predicted : list float) (rm rmp : matrix) :
  loaded_in pre d predicted rm rmp -> loaded_in (pre ++ post) d predicted rm rmp.
Proof.
  intros (h & f & Hin & Hload & Hret). exists h, f.
  split; [apply in_or_app; left; exact Hin | auto].
Qed.

Lemma strategy_inputs_app (self : Eiten) (pre post : list event) (c : call) :
  strategy_inputs self pre c -> strategy_inputs self (pre ++ post) c.
Proof.
  destruct c; cbn [strategy_inputs]; try exact (fun H => H).
  - intros [Hn (d & p & rm & rmp & Hl & Hs)]. split; [exact Hn |].
    exists d, p, rm, rmp. split; [apply loaded_in_app, Hl | exact Hs].
  - intros (d & p & rm & rmp & Hl & Hs).
    exists d, p, rm, rmp. split; [apply loaded_in_app, Hl | exact Hs].
  - intros (d & rm & rmp & Hl & Hs).
    exists d, rm, rmp. split; [apply loaded_in_app, Hl | exact Hs].
  - intros (d & p & rm & Hl & Hs).
    exists d, p, rm. split; [apply loaded_in_app, Hl | exact Hs].
Qed.

Ltac solve_loaded :=
  unfold loaded_in; do 2 eexists; split; [ pick_event | split; eassumption ].

Ltac phi_strategy_inputs :=
  cbn [strategy_inputs];
  first
    [ exact I
    | split; [ reflexivity | do 4 eexists; split; [ solve_loaded | reflexivity ] ]
    | do 4 eexists; split; [ solve_loaded | reflexivity ]
    | do 3 eexists; split; [ solve_loaded | reflexivity ] ].

Lemma run_strategies_strategy_inputs (self : Eiten) :
  sat (strategy_inputs self) (run_strategies self) [].
Proof.
  assert (Hpres : forall (log' : list event) c,
             is_presentation c = true -> strategy_inputs self log' c).
  { intros log' c Hc. destruct c; try discriminate Hc; exact I. }
  sat_run_strategies Hpres ltac:(phi_strategy_inputs).
Qed.

(** X14. Every strategy is called with the sorted keys of the dictionary
    the data engine returned; the eigen strategy with the configured
    portfolio number, the maximum-Sharpe strategy with the expected-return
    vector and the genetic strategy with the percentage-return matrix that
    [create_returns] computed from that dictionary. *)
Theorem strategies_are_given_loaded_data (w : world) (self : Eiten) :
  Forall (fun ev => strategy_inputs self (run_log w self) (ecall ev)) (run_log w self).
Proof.
  apply each_call_Forall.
  - intros pre post c. apply strategy_inputs_app.
  - apply run_log_each_call, run_strategies_strategy_inputs.
Qed.

Lemma evaluation_inputs_app (self : Eiten) (pre post : list event) (c : call) :
  evaluation_inputs self pre c -> evaluation_inputs self (pre ++ post) c.
Proof.
  destruct c; cbn [evaluation_inputs]; try exact (fun H => H);
    intros (d & other & Hd & Hm & Hrest); exists d, other;
    (split; [apply in_or_app; left; exact Hd |]);
    (split; [apply in_or_app; left; exact Hm | exact Hrest]).
Qed.

Ltac phi_evaluation_inputs :=
  cbn [evaluation_inputs];
  first
    [ exact I
    | do 2 eexists; split; [ pick_event | split; [ pick_event | repeat split ] ] ].

Lemma run_strategies_evaluation_inputs (self : Eiten) :
  sat (evaluation_inputs self) (run_strategies self) [].
Proof.
  assert (Hpres : forall (log' : list event) c,
             is_presentation c = true -> evaluation_inputs self log' c).
  { intros log' c Hc. destruct c; try discriminate Hc; exact I. }
  sat_run_strategies Hpres ltac:(phi_evaluation_inputs).
Qed.

(** X15. Every back-test, future-test and simulation call is given the
    sorted keys and the very dictionary the data engine returned; back-test
    gets the historical market prices and the two others the future market
    prices of [get_market_index_price]; back-test and future-test get the
    long-only flag, simulation the test flag; and the market chart is asked
    for exactly in the calls labelled with the eigen portfolio. *)
Theorem evaluations_are_given_loaded_data (w : world) (self : Eiten) :
  Forall (fun ev => evaluation_inputs self (run_log w self) (ecall ev)) (run_log w self).
Proof.
  apply each_call_Forall.
  - intros pre post c. apply evaluation_inputs_app.
  - apply run_log_each_call, run_strategies_evaluation_inputs.
Qed.

(** X16. Without the noise-filtering flag, the covariance estimate handed
    to every strategy that takes one is what [np.cov] returned for the
    log-return matrix. *)
Theorem plain_covariance_is_np_cov (w : world) (self : Eiten) :
  truthy (APPLY_NOISE_FILTERING self) = false ->
  forall ev cov,
    In ev (run_log w self) ->
    covariance_argument (ecall ev) = Some cov ->
    exists rm,
      log_returns_of_run (run_log w self) rm
      /\ In (Event (np_cov rm) (Ok cov)) (run_log w self).
Proof.
  intros Hflag ev cov Hin Hcov.
  pose proof (run_log_each_call _ w self (run_strategies_plain_covariance self Hflag))
    as Hlog.
  destruct (each_call_In _ _ _ Hlog Hin) as (pre & post & Heq & Hphi).
  destruct (Hphi cov Hcov) as (rm & Hrm & Hcall).
  exists rm. rewrite Heq. split.
  - apply log_returns_of_run_app, Hrm.
  - apply in_or_app. left. exact Hcall.
Qed.

(** The sample run without the flag does not call the noise filter. *)
Lemma unfiltered_run_calls_no_filter :
  filter_inputs (run_log (scenario_world full_answers) (Eiten_init unfiltered_arguments))
  = [].
Proof. scenario_compute. Qed.

(** ** The order of the calls *)

Lemma sat_bind_only {A B : Type} (Phi : list event -> call -> Prop)
    (P : call -> bool) (p : prog A) (k : A -> prog B) (log : list event) :
  only_calls P p ->
  (forall log' c, P c = true -> Phi log' c) ->
  (forall a ext, Forall (fun ev => P (ecall ev) = true) ext ->
                 sat Phi (k a) (log ++ ext)) ->
  sat Phi (p ≫= k) log.
Proof.
  intros Hp HP. revert log Hp. induction p as [a|e|c k' IH]; intros log Hp Hk.
  - specialize (Hk a [] ltac:(constructor)). rewrite app_nil_r in Hk. exact Hk.
  - exact I.
  - destruct Hp as [Hc Hk']. split; [apply HP, Hc |].
    intros x. apply IH; [apply Hk' |].
    intros a ext Hext. rewrite <- app_assoc. apply Hk.
    constructor; [exact Hc | exact Hext].
Qed.

(** The walk through [run_strategies] with the presentation methods handled
    by [pres] and the last [draw_plot] by [final]. *)
Ltac sat_walk pres phi final :=
  unfold run_strategies, load_data;
  let d := fresh "d" in
  sat_main_call phi d;
  cbn [data_dictionary set_data_dictionary];
  let Hload := fresh "Hload" in
  destruct (load_data_loop d (sorted_keys d) [] [])
    as [[historical_price_info future_price_info]|?] eqn:Hload;
    [ prog_simpl | exact I ];
  let Hreturns := fresh "Hreturns" in
  destruct (create_returns historical_price_info)
    as [[[predicted returns_matrix] returns_matrix_percentages]|?] eqn:Hreturns;
    [ prog_simpl | exact I ];
  cbn [ld_symbol_names ld_predicted_return_vectors ld_returns_matrix
       ld_returns_matrix_percentages
       SAVE_PLOT APPLY_NOISE_FILTERING IS_LONG_ONLY_PORTFOLIO IS_TEST
       EIGEN_PORTFOLIO_NUMBER data_dictionary set_data_dictionary];
  let m := fresh "market" in
  sat_main_call phi m;
  destruct m as [historical_price_market future_prices_market];
  let cov0 := fresh "cov0" in
  sat_main_call phi cov0;
  let Hnoise := fresh "Hnoise" in
  lazymatch goal with
  | |- context [truthy (APPLY_NOISE_FILTERING ?s)] =>
      destruct (truthy (APPLY_NOISE_FILTERING s)) eqn:Hnoise
  end;
  [ sat_main_call phi ipattern:(?);
    let cov1 := fresh "cov1" in sat_main_call phi cov1
  | prog_simpl ];
  (let eigen := fresh "eigen_weights" in sat_main_call phi eigen);
  (let mvp := fresh "mvp_weights" in sat_main_call phi mvp);
  (let msr := fresh "msr_weights" in sat_main_call phi msr);
  (let ga := fresh "ga_weights" in sat_main_call phi ga);
  sat_main_call phi ipattern:(?);
  do 5 pres;
  do 5 sat_main_call phi ipattern:(?);
  pres;
  let Htest := fresh "Htest" in
  lazymatch goal with
  | |- context [truthy (IS_TEST ?s)] =>
      destruct (truthy (IS_TEST s)) eqn:Htest
  end;
  [ do 5 sat_main_call phi ipattern:(?);
    pres
  | prog_simpl ];
  do 5 sat_main_call phi ipattern:(?);
  final.

Section Labels.
Variable lab : call -> option string.
Variable order : list string.
Hypothesis lab_presentation : forall c, is_presentation c = true -> lab c = None.

Lemma labels_app (a b : list event) : labels lab (a ++ b) = labels lab a ++ labels lab b.
Proof. unfold labels. apply omap_app. Qed.

Lemma labels_presentation (ext : list event) :
  Forall (fun ev => is_presentation (ecall ev) = true) ext -> labels lab ext = [].
Proof.
  unfold labels. induction 1 as [|ev ext Hev _ IH]; cbn [omap list_omap].
  - reflexivity.
  - rewrite (lab_presentation _ Hev). exact IH.
Qed.

Lemma in_order_prefix (log : list event) :
  each_call (in_order lab order) log -> exists rest, labels lab log ++ rest = order.
Proof.
  induction log as [|ev log IH] using rev_ind; intros Hlog.
  - exists order. reflexivity.
  - rewrite labels_app. unfold labels at 2. cbn [omap list_omap].
    destruct (lab (ecall ev)) as [name|] eqn:Hname.
    + destruct (Hlog log ev [] eq_refl name Hname) as [rest Hrest].
      exists rest. rewrite <- app_assoc. exact Hrest.
    + rewrite app_nil_r. apply IH.
      intros pre ev' post Heq. apply (Hlog pre ev' (post ++ [ev])).
      rewrite Heq, <- app_assoc. reflexivity.
Qed.
End Labels.

Ltac phi_in_order Hlab :=
  let name := fresh "name" in
  let Heq := fresh "Heq" in
  unfold in_order; intros name Heq; cbn in Heq;
  first
    [ discriminate Heq
    | injection Heq as <-;
      rewrite ?labels_app;
      repeat match goal with
             | Hext : Forall _ ?ext |- context [labels _ ?ext] =>
                 rewrite (labels_presentation _ Hlab ext Hext)
             end;
      cbn; eexists; reflexivity ].

Ltac pres_in_order Hpres :=
  apply (sat_bind_only _ is_presentation);
  [ first [ apply print_and_plot_presentation | apply draw_plot_presentation ]
  | exact Hpres
  | intros _ ? ? ].

Ltac last_in_order Hpres :=
  eapply sat_only_calls; [ exact Hpres | apply draw_plot_presentation ].

Lemma strategy_label_presentation (c : call) :
  is_presentation c = true -> strategy_label c = None.
Proof. destruct c; simpl; congruence. Qed.

Lemma phase_label_presentation (ph : phase) (c : call) :
  is_presentation c = true -> phase_label ph c = None.
Proof. intros H. destruct c; try discriminate H; reflexivity. Qed.

Lemma run_strategies_strategy_order (self : Eiten) :
  sat (in_order strategy_label strategy_order) (run_strategies self) [].
Proof.
  pose proof strategy_label_presentation as Hlab.
  assert (Hpres : forall (log' : list event) c,
             is_presentation c = true ->
             in_order strategy_label strategy_order log' c).
  { intros log' c Hc name Hname. rewrite (Hlab c Hc) in Hname. discriminate. }
  sat_walk ltac:(pres_in_order Hpres) ltac:(phi_in_order Hlab) ltac:(last_in_order Hpres).
Qed.

Lemma run_strategies_phase_order (ph : phase) (self : Eiten) :
  sat (in_order (phase_label ph) strategy_order) (run_strategies self) [].
Proof.
  pose proof (phase_label_presentation ph) as Hlab.
  assert (Hpres : forall (log' : list event) c,
             is_presentation c = true ->
             in_order (phase_label ph) strategy_order log' c).
  { intros log' c Hc name Hname. rewrite (Hlab c Hc) in Hname. discriminate. }
  destruct ph;
    sat_walk ltac:(pres_in_order Hpres) ltac:(phi_in_order Hlab)
             ltac:(last_in_order Hpres).
Qed.

(** X17. In every run, whatever the collaborators answer or raise, the
    strategies are called in the order eigen, minimum variance, maximum
    Sharpe, genetic, each at most once; and each of the three evaluation
    phases is called at most once per strategy label, in that same order. *)
Theorem calls_follow_strategy_order (w : world) (self : Eiten) :
  (exists rest, labels strategy_label (run_log w self) ++ rest = strategy_order)
  /\ forall ph,
       exists rest, labels (phase_label ph) (run_log w self) ++ rest = strategy_order.
Proof.
  split; [| intros ph].
  - apply (in_order_prefix _ _), run_log_each_call, run_strategies_strategy_order.
  - apply (in_order_prefix _ _), run_log_each_call, run_strategies_phase_order.
Qed.

(** ** No evaluation before every strategy has returned *)

Ltac phi_all_returned :=
  let Heq := fresh "Heq" in
  intros ? Heq; cbn [evaluation] in Heq;
  first
    [ discriminate Heq
    | unfold strategy_order;
      repeat (apply List.Forall_cons;
              [ eexists; unfold strategy_returned; do 2 eexists;
                (split; [ pick_event | reflexivity ])
              | ]);
      apply List.Forall_nil ].

Lemma run_strategies_all_returned (self : Eiten) :
  sat (fun log c =>
         forall x, evaluation c = Some x ->
           Forall (fun name => exists weights, strategy_returned log name weights)
                  strategy_order)
      (run_strategies self) [].
Proof.
  assert (Hpres : forall (log' : list event) c,
             is_presentation c = true ->
             forall x, evaluation c = Some x ->
               Forall (fun name => exists weights, strategy_returned log' name weights)
                      strategy_order).
  { intros log' c Hc x Heq. destruct c; simpl in *; congruence. }
  sat_run_strategies Hpres ltac:(phi_all_returned).
Qed.

(** X18. An evaluation call is made only after all four strategies have
    returned their weights: each of them has returned before the call, so
    when one strategy raises, no strategy is back-tested, future-tested or
    simulated. *)
Theorem evaluation_needs_all_strategies (w : world) (self : Eiten)
    (pre post : list event) (ev : event) (x : phase * string * weight_mapping) :
  run_log w self = pre ++ ev :: post ->
  evaluation (ecall ev) = Some x ->
  Forall (fun name => exists weights, strategy_returned pre name weights)
         strategy_order.
Proof.
  intros Heq Heval.
  apply (run_log_each_call _ w self (run_strategies_all_returned self)
           pre ev post Heq x Heval).
Qed.

Lemma sample_run_completes :
  run_result (scenario_world full_answers) (Eiten_init sample_arguments) = Ok tt.
Proof. scenario_compute. Qed.

Lemma evaluations_of_In (ph : phase) (log : list event) (name : string)
    (weights : weight_mapping) :
  In (name, weights) (evaluations_of ph log) ->
  exists ev x, In ev log /\ evaluation (ecall ev) = Some x.
Proof.
  unfold evaluations_of. induction log as [|ev log IH]; cbn [omap list_omap].
  - contradiction.
  - destruct (evaluation (ecall ev)) as [[[ph' name'] weights']|] eqn:Heval.
    + intros _. exists ev, (ph', name', weights'). split; [left; reflexivity | exact Heval].
    + intros Hin. destruct (IH Hin) as (ev' & x & Hev' & Hx).
      exists ev', x. split; [right; exact Hev' | exact Hx].
Qed.

Lemma sample_run_evaluates :
  exists ev x,
    In ev (run_log (scenario_world full_answers) (Eiten_init sample_arguments))
    /\ evaluation (ecall ev) = Some x.
Proof.
  apply (evaluations_of_In FutureTest _ "Eigen Portfolio" (eigen_answer full_answers)).
  rewrite test_run_future_tests. left. reflexivity.
Qed.

(** ** Figures *)

Lemma figure_files_fixed (self : Eiten) (filename : string) :
  In filename ["output/weights.png"; "output/backtest.png"; "output/monte_carlo.png"] ->
  In filename (figure_files self).
Proof.
  unfold figure_files. intros [<- | [<- | [<- | []]]].
  - apply in_or_app. left. left. reflexivity.
  - apply in_or_app. left. right. left. reflexivity.
  - apply in_or_app. right. apply in_or_app. right. left. reflexivity.
Qed.

Lemma figure_files_test (self : Eiten) :
  truthy (IS_TEST self) = true -> In "output/future_tests.png" (figure_files self).
Proof.
  intros Htest. unfold figure_files. rewrite Htest.
  apply in_or_app. right. left. reflexivity.
Qed.

Lemma draw_plot_figure_output (self self0 : Eiten) (filename : string)
    (log : list event) :
  SAVE_PLOT self = SAVE_PLOT self0 ->
  In filename (figure_files self0) ->
  sat (figure_output self0) (draw_plot self filename) log.
Proof.
  intros Hsave Hfile. unfold draw_plot.
  cbn [mbind prog_mbind prog_bind perform sat figure_output].
  split; [exact I | intros ?]. split; [exact I | intros ?].
  destruct (SAVE_PLOT self) eqn:Hs;
    cbn [mbind prog_mbind prog_bind perform sat figure_output];
    repeat split; solve [ auto | symmetry; exact Hsave ].
Qed.

Lemma print_weights_loop_weight_report (weights : weight_mapping)
    (symbols : list string) (acc : list R) :
  only_calls is_weight_report (print_weights_loop weights symbols acc).
Proof.
  revert acc. induction symbols as [|symbol rest IH]; intros acc; cbn [print_weights_loop].
  - exact I.
  - destruct (dict_getitem weights symbol) as [x|e]; cbn; [| exact I].
    split; [reflexivity | intros _]. apply IH.
Qed.

Lemma print_and_plot_weight_report (self : Eiten) (weights : weight_mapping)
    (strategy : string) (plot_num : Z) :
  only_calls is_weight_report
    (print_and_plot_portfolio_weights self weights strategy plot_num).
Proof.
  unfold print_and_plot_portfolio_weights.
  cbn [mbind prog_mbind prog_bind perform only_calls is_weight_report].
  split; [reflexivity | intros _].
  apply only_calls_bind; [apply print_weights_loop_weight_report |].
  intros symbol_weights. cbn. repeat split.
Qed.

Ltac pres_figure Hreport Htest :=
  first
    [ apply sat_bind;
      [ eapply sat_only_calls; [ exact Hreport | apply print_and_plot_weight_report ]
      | intros _ ? ]
    | apply sat_bind;
      [ apply draw_plot_figure_output;
        [ reflexivity
        | first [ apply figure_files_fixed; cbn; tauto
                | apply figure_files_test; assumption ] ]
      | intros _ ? ] ].

Ltac phi_figure := cbn [figure_output]; exact I.

(** What [draw_plot] calls when it completes. *)
Lemma draw_plot_exec (w : world) (self : Eiten) (filename : string)
    (log L : list event) :
  exec w (draw_plot self filename) log = (L, Ok tt) ->
  L = log ++ draw_plot_calls self filename.
Proof.
  unfold draw_plot, draw_plot_calls.
  cbn [mbind prog_mbind prog_bind perform]. intros H.
  apply exec_Call_inv in H as ([] & _ & H).
  apply exec_Call_inv in H as ([] & _ & H).
  destruct (SAVE_PLOT self).
  - apply exec_Call_inv in H as ([] & _ & H). cbn [exec] in H.
    injection H as <-. rewrite <- !app_assoc. reflexivity.
  - cbn [mbind prog_mbind prog_bind perform] in H.
    apply exec_Call_inv in H as ([] & _ & H).
    apply exec_Call_inv in H as ([] & _ & H). cbn [exec] in H.
    injection H as <-. rewrite <- !app_assoc. reflexivity.
Qed.

Lemma labels_cons (lab : call -> option string) (ev : event) (log : list event) :
  labels lab (ev :: log)
  = match lab (ecall ev) with
    | Some name => name :: labels lab log
    | None => labels lab log
    end.
Proof. unfold labels. cbn [omap list_omap]. destruct (lab (ecall ev)); reflexivity. Qed.

Lemma labels_none (lab : call -> option string) (ext : list event) :
  Forall (fun ev => lab (ecall ev) = None) ext -> labels lab ext = [].
Proof.
  unfold labels. induction 1 as [|ev ext Hev _ IH]; cbn [omap list_omap].
  - reflexivity.
  - rewrite Hev. exact IH.
Qed.

Lemma weight_report_no_figure (lab : call -> option string) (ext : list event) :
  lab = saved_file \/ lab = shown ->
  Forall (fun ev => is_weight_report (ecall ev) = true) ext -> labels lab ext = [].
Proof.
  intros Hlab Hext. apply labels_none. eapply Forall_impl; [exact Hext |].
  intros [c r] Hc. cbn [ecall] in *.
  destruct Hlab as [-> | ->]; destruct c; try discriminate Hc; reflexivity.
Qed.

(** Walking a completed run with the figures kept. *)
Ltac exec_walk_figures H :=
  repeat
    (prog_simpl_in H;
     lazymatch type of H with
     | exec _ (Call _ _) _ = _ =>
         let x := fresh "x" in
         let Hx := fresh "Hx" in
         apply exec_Call_inv in H as (x & Hx & H)
     | exec _ (prog_bind _ (print_and_plot_portfolio_weights _ _ _ _)) _ = _ =>
         let a := fresh "a" in
         let log' := fresh "log'" in
         let Hp := fresh "Hp" in
         let ext := fresh "ext" in
         let Hext := fresh "Hext" in
         apply exec_bind_inv in H as (a & log' & Hp & H);
         apply (exec_only_calls is_weight_report) in Hp as (ext & -> & Hext);
         [ | apply print_and_plot_weight_report ]
     | exec _ (prog_bind _ (draw_plot _ _)) _ = _ =>
         let a := fresh "a" in
         let log' := fresh "log'" in
         let Hp := fresh "Hp" in
         apply exec_bind_inv in H as (a & log' & Hp & H);
         destruct a; apply draw_plot_exec in Hp as ->
     | exec _ (draw_plot _ _) _ = _ => apply draw_plot_exec in H as ->
     | exec _ (prog_bind _ (if ?b then _ else _)) _ = _ =>
         let Hb := fresh "Hflag" in destruct b eqn:Hb
     | exec _ ((if ?b then _ else _) ≫= _) _ = _ =>
         let Hb := fresh "Hflag" in destruct b eqn:Hb
     | exec _ (print_and_plot_portfolio_weights _ _ _ _ ≫= _) _ = _ =>
         let a := fresh "a" in
         let log' := fresh "log'" in
         let Hp := fresh "Hp" in
         let ext := fresh "ext" in
         let Hext := fresh "Hext" in
         apply exec_bind_inv in H as (a & log' & Hp & H);
         apply (exec_only_calls is_weight_report) in Hp as (ext & -> & Hext);
         [ | apply print_and_plot_weight_report ]
     | exec _ (draw_plot _ _ ≫= _) _ = _ =>
         let a := fresh "a" in
         let log' := fresh "log'" in
         let Hp := fresh "Hp" in
         apply exec_bind_inv in H as (a & log' & Hp & H);
         destruct a; apply draw_plot_exec in Hp as ->
     | context [lift (load_data_loop ?d ?s ?h ?f)] =>
         let Hr := fresh "Hload" in
         destruct (load_data_loop d s h f) as [[? ?]|?] eqn:Hr
     | context [lift (create_returns ?h)] =>
         let Hr := fresh "Hreturns" in
         destruct (create_returns h) as [[[? ?] ?]|?] eqn:Hr
     | exec _ (Throw _) _ = _ => discriminate H
     | exec _ (let '(_, _) := ?x in _) _ = _ => destruct x
     end).

Ltac figures_compute :=
  unfold draw_plot_calls, figure_files;
  cbn [SAVE_PLOT IS_TEST set_data_dictionary];
  repeat match goal with
         | Hflag : truthy _ = _ |- _ => rewrite ?Hflag; clear Hflag
         end;
  repeat first
    [ rewrite labels_app
    | rewrite labels_cons; cbn [ecall saved_file shown]
    | match goal with
      | Hext : Forall _ ?ext |- context [labels ?lab ?ext] =>
          rewrite (weight_report_no_figure lab ext) by (first [left; reflexivity | right; reflexivity] || exact Hext)
      end ];
  lazymatch goal with
  | |- context [SAVE_PLOT ?s] => destruct (SAVE_PLOT s)
  end;
  repeat first
    [ rewrite labels_app
    | rewrite labels_cons; cbn [ecall saved_file shown] ];
  reflexivity.

Lemma completed_run_figures (w : world) (self : Eiten) :
  run_result w self = Ok tt ->
  labels saved_file (run_log w self)
  = (if SAVE_PLOT self then figure_files self else [])
  /\ length (labels shown (run_log w self))
     = (if SAVE_PLOT self then 0 else length (figure_files self)).
Proof.
  unfold run_result, run_log.
  destruct (exec w (run_strategies self) []) as [L r] eqn:H. cbn [fst snd].
  intros ->. unfold run_strategies, load_data in H.
  exec_walk_figures H.
  all: split; figures_compute.
Qed.

(** X19. Figures are put out one way only.  In every run, a figure is
    saved only with [SAVE_PLOT] set and only to one of the files of the
    run, and shown only without it.  In a run that completes with
    [SAVE_PLOT] set, the figures saved are, in this order, those of the
    weights, the back-test, the future-test (in test mode) and the
    simulation, each once, and nothing is shown; without it, one figure is
    shown for each of these and nothing is saved. *)
Theorem figures_saved_or_shown (w : world) (self : Eiten) :
  Forall (fun ev => figure_output self [] (ecall ev)) (run_log w self)
  /\ (run_result w self = Ok tt ->
      labels saved_file (run_log w self)
      = (if SAVE_PLOT self then figure_files self else [])
      /\ length (labels shown (run_log w self))
         = (if SAVE_PLOT self then 0 else length (figure_files self))).
Proof.
  split; [| apply completed_run_figures].
  assert (Hreport : forall (log' : list event) c,
             is_weight_report c = true -> figure_output self log' c).
  { intros log' c Hc. destruct c; try discriminate Hc; exact I. }
  assert (Hsat : sat (figure_output self) (run_strategies self) []).
  { sat_walk ltac:(pres_figure Hreport I) ltac:(phi_figure)
             ltac:(apply draw_plot_figure_output;
                   [ reflexivity | apply figure_files_fixed; cbn; tauto ]). }
  apply List.Forall_forall. intros ev Hin.
  pose proof (run_log_each_call _ w self Hsat) as Hlog.
  destruct (each_call_In _ _ _ Hlog Hin) as (pre & post & _ & Hphi).
  destruct (ecall ev); exact Hphi.
Qed.

(** ** A run that completes *)


Ltac labels_compute Hlab :=
  repeat first
    [ rewrite labels_app
    | rewrite labels_cons;
      cbn [ecall strategy_label phase_label evaluation phase_eqb]
    | match goal with
      | Hext : Forall _ ?ext |- context [labels _ ?ext] =>
          rewrite (labels_presentation _ Hlab ext Hext)
      end ];
  reflexivity.

(** X20. A run that completes has called each strategy once, and has
    back-tested and simulated under each of the four strategy names once,
    in the order eigen, minimum variance, maximum Sharpe, genetic; it has
    future-tested under each name once in test mode, and not at all
    otherwise. *)
Theorem completed_run_phases (w : world) (self : Eiten) :
  run_result w self = Ok tt ->
  labels strategy_label (run_log w self) = strategy_order
  /\ labels (phase_label Backtest) (run_log w self) = strategy_order
  /\ labels (phase_label Simulation) (run_log w self) = strategy_order
  /\ labels (phase_label FutureTest) (run_log w self)
     = (if truthy (IS_TEST self) then strategy_order else []).
Proof.
  pose proof strategy_label_presentation as Hs.
  pose proof (phase_label_presentation Backtest) as Hb.
  pose proof (phase_label_presentation Simulation) as Hm.
  pose proof (phase_label_presentation FutureTest) as Hf.
  unfold run_result, run_log.
  destruct (exec w (run_strategies self) []) as [L r] eqn:H. cbn [fst snd].
  intros ->. unfold run_strategies, load_data in H.
  exec_walk H.
  all: repeat split;
    [ labels_compute Hs | labels_compute Hb | labels_compute Hm | labels_compute Hf ].
Qed.


(** ** The weight report *)




(** ** The weight reports of a run *)

Lemma sat_bind_can_return {A B : Type} (Phi : list event -> call -> Prop)
    (p : prog A) (k : A -> prog B) (log : list event) :
  sat Phi p log ->
  (forall a ext, can_return p a -> sat Phi (k a) (log ++ ext)) ->
  sat Phi (p ≫= k) log.
Proof.
  revert log. induction p as [a|e|c k' IH]; intros log Hp Hk.
  - specialize (Hk a [] eq_refl). rewrite app_nil_r in Hk. exact Hk.
  - exact I.
  - destruct Hp as [Hc Hk']. split; [exact Hc |].
    intros x. apply IH; [apply Hk' |].
    intros a ext Hret. rewrite <- app_assoc. apply Hk. exists x. exact Hret.
Qed.

Lemma print_weights_loop_returns (weights : gmap string R) (symbols : list string)
    (acc symbol_weights : list R) :
  can_return (print_weights_loop weights symbols acc) symbol_weights ->
  exists heights,
    Forall2 (fun symbol height => weights !! symbol = Some height) symbols heights
    /\ symbol_weights = acc ++ heights.
Proof.
  revert acc. induction symbols as [|symbol rest IH]; intros acc;
    cbn [print_weights_loop].
  - cbn [can_return]. intros <-. exists []. rewrite app_nil_r. split; [constructor | reflexivity].
  - unfold dict_getitem. destruct (weights !! symbol) as [height|] eqn:Hheight;
      cbn [lift mbind prog_mbind prog_bind perform can_return]; [| contradiction].
    intros [x Hret]. destruct (IH _ Hret) as (heights & Hall & ->).
    exists (height :: heights). rewrite <- app_assoc.
    split; [constructor; assumption | reflexivity].
Qed.

Lemma report_shows_returned_app (pre post : list event) (c : call) :
  report_shows_returned pre c -> report_shows_returned (pre ++ post) c.
Proof.
  destruct c; cbn [report_shows_returned]; try exact (fun H => H).
  intros (weights & Hret & Hall). exists weights.
  split; [apply strategy_returned_app, Hret | exact Hall].
Qed.

Lemma print_weights_loop_shows_returned (weights : gmap string R)
    (symbols : list string) (acc : list R) (log : list event) :
  sat report_shows_returned (print_weights_loop weights symbols acc) log.
Proof.
  revert acc log. induction symbols as [|symbol rest IH]; intros acc log;
    cbn [print_weights_loop].
  - exact I.
  - destruct (dict_getitem weights symbol) as [x|e]; cbn; [| exact I].
    split; [exact I | intros ?]. apply IH.
Qed.

Lemma print_and_plot_shows_returned (self : Eiten) (weights : gmap string R)
    (strategy : string) (plot_num : Z) (log : list event) :
  strategy_returned log strategy weights ->
  sat report_shows_returned
      (print_and_plot_portfolio_weights self weights strategy plot_num) log.
Proof.
  intros Hret. unfold print_and_plot_portfolio_weights.
  cbn [mbind prog_mbind prog_bind perform sat report_shows_returned].
  split; [exact I | intros x0].
  apply sat_bind_can_return; [apply print_weights_loop_shows_returned |].
  intros symbol_weights ext Hloop.
  destruct (print_weights_loop_returns _ _ _ _ Hloop) as (heights & Hall & ->).
  cbn [app prog_bind sat report_shows_returned].
  split.
  - exists weights. split; [| exact Hall].
    rewrite <- app_assoc. apply strategy_returned_app, Hret.
  - intros ?. repeat (split; [exact I | intros ?]). exact I.
Qed.

Lemma draw_plot_figure_calls (self : Eiten) (filename : string) :
  only_calls is_figure_call (draw_plot self filename).
Proof.
  unfold draw_plot. cbn [mbind prog_mbind prog_bind perform only_calls is_figure_call].
  split; [reflexivity | intros ?]. split; [reflexivity | intros ?].
  destruct (SAVE_PLOT self); cbn; repeat split.
Qed.

Ltac pres_report Hfigure :=
  first
    [ apply sat_bind;
      [ apply print_and_plot_shows_returned;
        unfold strategy_returned; do 2 eexists;
        split; [ pick_event | reflexivity ]
      | intros ? ? ]
    | apply sat_bind;
      [ eapply sat_only_calls; [ exact Hfigure | apply draw_plot_figure_calls ]
      | intros ? ? ] ].

Ltac phi_report := cbn [report_shows_returned]; exact I.

(** X22. In every run, each bar series of the weight report carries the
    name of a strategy that has returned in this run, and its heights are
    the weights that strategy returned, in ascending order of the symbols. *)
Theorem weight_reports_show_returned_weights (w : world) (self : Eiten) :
  Forall (fun ev => report_shows_returned (run_log w self) (ecall ev)) (run_log w self).
Proof.
  assert (Hfigure : forall (log' : list event) c,
             is_figure_call c = true -> report_shows_returned log' c).
  { intros log' c Hc. destruct c; try discriminate Hc; exact I. }
  assert (Hsat : sat report_shows_returned (run_strategies self) []).
  { sat_walk ltac:(pres_report Hfigure) ltac:(phi_report)
             ltac:(eapply sat_only_calls;
                   [ exact Hfigure | apply draw_plot_figure_calls ]). }
  apply List.Forall_forall. intros ev Hin.
  pose proof (run_log_each_call _ w self Hsat) as Hlog.
  destruct (each_call_In _ _ _ Hlog Hin) as (pre & post & Heq & Hphi).
  rewrite Heq at 1. apply report_shows_returned_app, Hphi.
Qed.
(** ** The future prices outside test mode *)


End Properties.

(** * Examples

    The statements above hold for every platform.  The examples below are
    run with the reference platform. *)

#[local] Existing Instance reference_platform.

(** ** The return estimator *)

(** Strictly positive prices are not enough for [create_returns] to
    return: the quotient [1e-200 / 1e200] underflows to [0.0], and
    [math.log] refuses it. *)
Lemma positive_prices_not_enough :
  Forall (fun info => length (Close info) = 2
                      /\ Forall (fun p => (0 <? p)%float = true) (Close info))
         far_apart_prices
  /\ create_returns far_apart_prices = Raise ValueError.
Proof.
  split; [| vm_compute; reflexivity].
  repeat constructor.
Qed.

Lemma create_returns_matrices_witness :
  exists predicted log_matrix percentage_matrix,
    create_returns two_assets = Ok (predicted, log_matrix, percentage_matrix)
    /\ length log_matrix = length two_assets
    /\ length percentage_matrix = length two_assets
    /\ forall i info, two_assets !! i = Some info ->
         exists log_row percentage_row,
           log_matrix !! i = Some log_row
           /\ percentage_matrix !! i = Some percentage_row
           /\ length log_row = 3 - 1
           /\ length percentage_row = 3 - 1
           /\ forall t, 1 <= t <= 3 - 1 ->
                (exists x, math_log (price info t / price info (t - 1)) = Ok x
                           /\ log_row !! (t - 1) = Some x)
                /\ percentage_row !! (t - 1)
                   = Some ((price info t - price info (t - 1)) * 100
                           / price info (t - 1))%float.
Proof.
  apply (create_returns_matrices two_assets 3).
  - lia.
  - exact two_assets_common_length.
  - exact two_assets_defined.
Defined.

(** An asset with strictly positive prices for which no expected return
    comes out: the last quotient of the second series underflows, and
    [create_returns] raises for the whole list. *)
Lemma positive_prices_no_expected_return :
  Forall (fun info => length (Close info) = 3
                      /\ Forall (fun p => (0 <? p)%float = true) (Close info))
         crashing_asset
  /\ create_returns crashing_asset = Raise ValueError.
Proof.
  split; [| vm_compute; reflexivity].
  repeat constructor.
Qed.

Lemma create_returns_expected_return_witness :
  exists predicted log_matrix percentage_matrix,
    create_returns two_assets = Ok (predicted, log_matrix, percentage_matrix)
    /\ length predicted = length two_assets
    /\ forall i info, two_assets !! i = Some info ->
         predicted !! i = Some (recency_weighted_mean (price info) 3).
Proof.
  apply (create_returns_expected_return two_assets 3).
  - lia.
  - exact two_assets_common_length.
  - exact two_assets_defined.
Defined.

(** Negative prices are not rejected: on the series [-1, -2] the quotient
    is [2.0], and [create_returns] returns. *)
Lemma negative_prices_not_rejected :
  (exists info p, In info falling_negative_prices /\ In p (Close info)
                  /\ (p <=? 0)%float = true)
  /\ create_returns falling_negative_prices
     = Ok ([100%float], [[libm_log 2]], [[100%float]]).
Proof.
  split; [| vm_compute; reflexivity].
  exists {| Close := [-1; -2]%float |}, (-1)%float.
  split; [left; reflexivity |]. split; [left; reflexivity | reflexivity].
Qed.

Lemma create_returns_undefined_price_raises_witness :
  create_returns [ {| Close := [100; 0; 121]%float |} ] = Raise ZeroDivisionError
  \/ create_returns [ {| Close := [100; 0; 121]%float |} ] = Raise ValueError.
Proof.
  apply (create_returns_undefined_price_raises
           [ {| Close := [100; 0; 121]%float |} ]
           {| Close := [100; 0; 121]%float |} 2).
  - left. reflexivity.
  - simpl. lia.
  - left. reflexivity.
Defined.

Lemma single_observation_not_rejected :
  Forall (fun info => length (Close info) < 2) single_observation
  /\ create_returns single_observation = Ok ([nan], [[]], [[]]).
Proof.
  split; [| vm_compute; reflexivity].
  repeat constructor.
Qed.

Lemma create_returns_short_history_witness :
  create_returns [ {| Close := [5%float] |}; {| Close := [7%float] |} ]
  = Ok ([nan; nan], [[]; []], [[]; []]).
Proof.
  apply (create_returns_short_history
           [ {| Close := [5%float] |}; {| Close := [7%float] |} ] 1).
  - lia.
  - repeat constructor.
Defined.


Lemma create_returns_shape_witness :
  length (map asset_expected_return two_assets) = length two_assets
  /\ length (map asset_log_returns two_assets) = length two_assets
  /\ length (map asset_percentage_returns two_assets) = length two_assets
  /\ forall i info, two_assets !! i = Some info ->
       exists log_row percentage_row,
         map asset_log_returns two_assets !! i = Some log_row
         /\ map asset_percentage_returns two_assets !! i = Some percentage_row
         /\ length log_row = length (Close info) - 1
         /\ length percentage_row = length (Close info) - 1.
Proof.
  apply (create_returns_shape two_assets). exact two_assets_returns.
Defined.

Lemma create_returns_exception_cause_witness :
  create_returns [ {| Close := [0; 5]%float |} ] = Raise ZeroDivisionError
  /\ ((ZeroDivisionError = ZeroDivisionError
       /\ exists info t,
            In info [ {| Close := [0; 5]%float |} ]
            /\ 1 <= t < length (Close info)
            /\ (price info (t - 1) =? 0)%float = true)
      \/ (ZeroDivisionError = ValueError
          /\ ((exists info t,
                 In info [ {| Close := [0; 5]%float |} ]
                 /\ 1 <= t < length (Close info)
                 /\ (price info (t - 1) =? 0)%float = false
                 /\ (price info t / price info (t - 1) <=? 0)%float = true)
              \/ ~ rows_fit [ {| Close := [0; 5]%float |} ]))).
Proof.
  split; [vm_compute; reflexivity |].
  apply (create_returns_exception_cause [ {| Close := [0; 5]%float |} ]).
  vm_compute. reflexivity.
Defined.

(** ** The sample run *)

Lemma load_data_alignment_witness :
  exists d : gmap string ticker_data,
    [Event collect_data_for_all_tickers (Ok scenario_data)]
    = [] ++ [Event collect_data_for_all_tickers (Ok d)]
    /\ set_data_dictionary (Eiten_init sample_arguments) scenario_data
       = set_data_dictionary (Eiten_init sample_arguments) d
    /\ Sorted string_le (ld_symbol_names scenario_loaded)
    /\ NoDup (ld_symbol_names scenario_loaded)
    /\ (forall symbol,
          In symbol (ld_symbol_names scenario_loaded) <-> is_Some (d !! symbol))
    /\ forall i symbol,
         ld_symbol_names scenario_loaded !! i = Some symbol ->
         exists entry,
           d !! symbol = Some entry
           /\ ld_historical_price_info scenario_loaded !! i
              = Some (historical_prices entry)
           /\ ld_future_prices scenario_loaded !! i = Some (future_prices entry)
           /\ ld_predicted_return_vectors scenario_loaded !! i
              = Some (asset_expected_return (historical_prices entry))
           /\ ld_returns_matrix scenario_loaded !! i
              = Some (asset_log_returns (historical_prices entry))
           /\ ld_returns_matrix_percentages scenario_loaded !! i
              = Some (asset_percentage_returns (historical_prices entry)).
Proof.
  apply (load_data_alignment (scenario_world full_answers)
           (Eiten_init sample_arguments) _ [] _ scenario_loaded).
  apply scenario_load_data.
Defined.

Lemma load_data_exception_witness :
  [Event collect_data_for_all_tickers (Raise (ExternalError "ConnectionError"))]
  = [] ++ [Event collect_data_for_all_tickers (Raise (ExternalError "ConnectionError"))]
  \/ exists (d : gmap string ticker_data) historical_price_info future_price_info,
       [Event collect_data_for_all_tickers (Raise (ExternalError "ConnectionError"))]
       = [] ++ [Event collect_data_for_all_tickers (Ok d)]
       /\ load_data_loop d (sorted_keys d) [] []
          = Ok (historical_price_info, future_price_info)
       /\ create_returns historical_price_info = Raise (ExternalError "ConnectionError")
       /\ (ExternalError "ConnectionError" = ZeroDivisionError
           \/ ExternalError "ConnectionError" = ValueError).
Proof.
  apply (load_data_exception failing_world (Eiten_init sample_arguments) []).
  reflexivity.
Defined.

(** The input of the noise filter in the sample run is the 2 x 3 log-return
    matrix of the two tickers: it is not a square matrix of dimension 2,
    the covariance matrix. *)
Lemma noise_filter_input_is_not_covariance :
  filter_inputs (run_log (scenario_world full_answers) (Eiten_init sample_arguments))
  = [map asset_log_returns scenario_history]
  /\ length (map asset_log_returns scenario_history) = 2
  /\ Forall (fun row => length row = 3) (map asset_log_returns scenario_history).
Proof. exact sample_run_filter_input. Qed.

Lemma noise_filter_reads_returns_matrix_witness :
  truthy (APPLY_NOISE_FILTERING (Eiten_init sample_arguments)) = true
  /\ forall ev cov,
       In ev (run_log (scenario_world full_answers) (Eiten_init sample_arguments)) ->
       covariance_argument (ecall ev) = Some cov ->
       exists rm,
         log_returns_of_run
           (run_log (scenario_world full_answers) (Eiten_init sample_arguments)) rm
         /\ In (Event (random_matrix_theory_based_cov rm) (Ok cov))
               (run_log (scenario_world full_answers) (Eiten_init sample_arguments)).
Proof.
  split; [reflexivity |].
  apply (noise_filter_reads_returns_matrix
           (scenario_world full_answers) (Eiten_init sample_arguments)).
  reflexivity.
Defined.

(** The minimum-variance strategy answers for one of the two symbols it was
    asked about.  The run raises nothing, and the mapping is back-tested,
    future-tested and reported like the others. *)
Lemma partial_mapping_is_used :
  ~ covers_exactly (mvp_answer partial_answers) ["AAA"; "BBB"]
  /\ strategy_returns
       (run_log (scenario_world partial_answers) (Eiten_init sample_arguments))
     = [ ("Eigen Portfolio", ["AAA"; "BBB"], eigen_answer partial_answers);
         ("Minimum Variance Portfolio (MVP)", ["AAA"; "BBB"], mvp_answer partial_answers);
         ("Maximum Sharpe Portfolio (MSR)", ["AAA"; "BBB"], msr_answer partial_answers);
         ("Genetic Algo (GA)", ["AAA"; "BBB"], ga_answer partial_answers) ]
  /\ evaluations_of Backtest
       (run_log (scenario_world partial_answers) (Eiten_init sample_arguments))
     = [ ("Eigen Portfolio", eigen_answer partial_answers);
         ("Minimum Variance Portfolio (MVP)", mvp_answer partial_answers);
         ("Maximum Sharpe Portfolio (MSR)", msr_answer partial_answers);
         ("Genetic Algo (GA)", ga_answer partial_answers) ]
  /\ evaluations_of FutureTest
       (run_log (scenario_world partial_answers) (Eiten_init sample_arguments))
     = [ ("Eigen Portfolio", eigen_answer partial_answers);
         ("Minimum Variance Portfolio (MVP)", mvp_answer partial_answers);
         ("Maximum Sharpe Portfolio (MSR)", msr_answer partial_answers);
         ("Genetic Algo (GA)", ga_answer partial_answers) ]
  /\ run_result (scenario_world partial_answers) (Eiten_init sample_arguments) = Ok tt.
Proof. exact partial_run. Qed.



Lemma plain_covariance_is_np_cov_witness :
  truthy (APPLY_NOISE_FILTERING (Eiten_init unfiltered_arguments)) = false
  /\ forall ev cov,
       In ev (run_log (scenario_world full_answers) (Eiten_init unfiltered_arguments)) ->
       covariance_argument (ecall ev) = Some cov ->
       exists rm,
         log_returns_of_run
           (run_log (scenario_world full_answers) (Eiten_init unfiltered_arguments)) rm
         /\ In (Event (np_cov rm) (Ok cov))
               (run_log (scenario_world full_answers) (Eiten_init unfiltered_arguments)).
Proof.
  split; [reflexivity |].
  apply (plain_covariance_is_np_cov
           (scenario_world full_answers) (Eiten_init unfiltered_arguments)).
  reflexivity.
Defined.

Lemma evaluation_needs_all_strategies_witness :
  exists pre ev post x,
    run_log (scenario_world full_answers) (Eiten_init sample_arguments)
    = pre ++ ev :: post
    /\ evaluation (ecall ev) = Some x
    /\ Forall (fun name => exists weights, strategy_returned pre name weights)
              strategy_order.
Proof.
  destruct sample_run_evaluates as (ev & x & Hin & Heval).
  destruct (in_split _ _ Hin) as (pre & post & Heq).
  exists pre, ev, post, x. split; [exact Heq |]. split; [exact Heval |].
  apply (evaluation_needs_all_strategies
           (scenario_world full_answers) (Eiten_init sample_arguments)
           pre post ev x Heq Heval).
Defined.

Lemma completed_run_phases_witness :
  labels strategy_label
    (run_log (scenario_world full_answers) (Eiten_init sample_arguments))
  = strategy_order
  /\ labels (phase_label Backtest)
       (run_log (scenario_world full_answers) (Eiten_init sample_arguments))
     = strategy_order
  /\ labels (phase_label Simulation)
       (run_log (scenario_world full_answers) (Eiten_init sample_arguments))
     = strategy_order
  /\ labels (phase_label FutureTest)
       (run_log (scenario_world full_answers) (Eiten_init sample_arguments))
     = (if truthy (IS_TEST (Eiten_init sample_arguments)) then strategy_order else []).
Proof.
  apply (completed_run_phases (scenario_world full_answers) (Eiten_init sample_arguments)).
  exact sample_run_completes.
Defined.

